(** * TourPlan recommender: the scoring engine, the itinerary assembler and the
    location index, embedded from the Python sources and checked against the
    written specification.

    Layout: the Python primitives the code relies on ([Py], [PyFloat],
    [Binary64]), then one module per source file ([Models] and [Models64],
    [DataPreprocessor], [Itinerary]), then the lemmas and the theorems of
    the specification.

    Conventions of the embedding.
    - A Python [str] is a [string] of 8-bit characters; [lower], [strip] and
      [title] act on the ASCII letters and the ASCII white space.
    - A Python [float] is a [pyfloat]: a rational (the value of a finite
      float), or one of [inf], [-inf], [nan].  The sign of zero is not
      represented.  [PyFloat] has the exact arithmetic on these values, with
      no rounding and no overflow; [Binary64] has the arithmetic of the
      interpreter, each result rounded to the nearest double.  [Models] is
      Models.py over the first and serves the statements that rounding does
      not bear on (which branch is taken, what is copied into an item, the
      count behind the diversity penalty); [Models64] is Models.py over the
      second and serves every statement about a computed score, its range
      and the order that the scores give.
    - [sorted] and [list.sort] are a stable sort by [<]; on keys of which
      none is [nan] this fixes the result, and the theorems about an order
      are stated for such keys.
    - A function that can raise returns a [result]; [try ... except
      Exception] is [try_except]. *)

From Stdlib Require Import ZArith QArith Qround Qpower Lqa List String Ascii
  Bool Lia Permutation Sorted.
Import ListNotations.

(** ** Exceptions *)

Inductive exn : Type :=
  | ZeroDivisionError
  | ValueError
  | KeyError.

Inductive result (A : Type) : Type :=
  | Ok (a : A)
  | Raise (e : exn).
Arguments Ok {A} a.
Arguments Raise {A} e.

Definition bind {A B : Type} (m : result A) (k : A -> result B) : result B :=
  match m with
  | Ok a => k a
  | Raise e => Raise e
  end.

Notation "x <- m ;; k" := (bind m (fun x => k))
  (at level 61, m at next level, right associativity).

Definition try_except {A : Type} (body : result A) (handler : exn -> result A)
  : result A :=
  match body with
  | Ok a => Ok a
  | Raise e => handler e
  end.

(** ** Python built-ins on strings and lists *)

Module Py.

Definition is_upper (c : ascii) : bool :=
  let n := nat_of_ascii c in (65 <=? n)%nat && (n <=? 90)%nat.

Definition is_lower (c : ascii) : bool :=
  let n := nat_of_ascii c in (97 <=? n)%nat && (n <=? 122)%nat.

Definition lower_char (c : ascii) : ascii :=
  if is_upper c then ascii_of_nat (nat_of_ascii c + 32) else c.

Definition upper_char (c : ascii) : ascii :=
  if is_lower c then ascii_of_nat (nat_of_ascii c - 32) else c.

(** [s.lower()] *)
Fixpoint lower (s : string) : string :=
  match s with
  | EmptyString => EmptyString
  | String c r => String (lower_char c) (lower r)
  end.

(** White space as [str.strip()] sees it: tab, line feed, vertical tab, form
    feed, carriage return, the separators 28 to 31, and the space. *)
Definition is_space (c : ascii) : bool :=
  let n := nat_of_ascii c in
  ((9 <=? n)%nat && (n <=? 13)%nat) || ((28 <=? n)%nat && (n <=? 32)%nat).

Fixpoint lstrip (s : string) : string :=
  match s with
  | EmptyString => EmptyString
  | String c r => if is_space c then lstrip r else s
  end.

Fixpoint rstrip (s : string) : string :=
  match s with
  | EmptyString => EmptyString
  | String c r =>
      match rstrip r with
      | EmptyString => if is_space c then EmptyString else String c EmptyString
      | r' => String c r'
      end
  end.

(** [s.strip()] *)
Definition strip (s : string) : string := rstrip (lstrip s).

(** [sub in s] on strings *)
Fixpoint contains (sub s : string) : bool :=
  prefix sub s ||
  match s with
  | EmptyString => false
  | String _ r => contains sub r
  end.

(** [x in l] on a list of strings *)
Definition mem_str (x : string) (l : list string) : bool :=
  existsb (String.eqb x) l.

(** [x in l] on a list or set of integers *)
Definition mem_Z (x : Z) (l : list Z) : bool :=
  existsb (Z.eqb x) l.

(** Truth value of an optional string: [None] and [""] are false. *)
Definition str_truthy (s : option string) : bool :=
  match s with
  | Some (String _ _) => true
  | _ => false
  end.

(** [s or ""] *)
Definition or_empty (s : option string) : string :=
  match s with
  | Some t => t
  | None => EmptyString
  end.

(** [d.get(key, default)] for a key held in an optional field. *)
Definition get {A : Type} (field : option A) (default : A) : A :=
  match field with
  | Some a => a
  | None => default
  end.

Definition nonempty {A : Type} (l : list A) : bool :=
  match l with
  | [] => false
  | _ :: _ => true
  end.

(** [l[:n]] *)
Definition take {A : Type} (n : Z) (l : list A) : list A :=
  if (0 <=? n)%Z then firstn (Z.to_nat n) l
  else firstn (List.length l - Z.to_nat (- n)) l.

(** [l[n:]] for [0 <= n] *)
Definition drop {A : Type} (n : Z) (l : list A) : list A :=
  skipn (Z.to_nat n) l.

(** [l[a:b]] for [0 <= a <= b] *)
Definition slice {A : Type} (a b : Z) (l : list A) : list A :=
  firstn (Z.to_nat (b - a)) (skipn (Z.to_nat a) l).

(** [len(l)] *)
Definition len {A : Type} (l : list A) : Z := Z.of_nat (List.length l).

Definition digit_char (d : Z) : ascii := ascii_of_nat (48 + Z.to_nat d).

Fixpoint digits_of (fuel : nat) (n : Z) (acc : string) : string :=
  let acc' := String (digit_char (n mod 10)) acc in
  match fuel with
  | O => acc'
  | S k => if (n <? 10)%Z then acc' else digits_of k (n / 10) acc'
  end.

(** [str(n)] of an integer, as an f-string prints it *)
Definition str_of_Z (n : Z) : string :=
  if (n <? 0)%Z
  then String "-"%char (digits_of (Z.to_nat (Z.log2 (- n))) (- n) EmptyString)
  else digits_of (Z.to_nat (Z.log2 n)) n EmptyString.

(** Two digits, zero padded, as [%H] and [%M] print a value below 100. *)
Definition two_digits (n : Z) : string :=
  String (digit_char (n / 10)) (String (digit_char (n mod 10)) EmptyString).

Definition is_digit (c : ascii) : bool :=
  let n := nat_of_ascii c in (48 <=? n)%nat && (n <=? 57)%nat.

Definition digit_val (c : ascii) : Z := Z.of_nat (nat_of_ascii c - 48).

(** [s.title()]: a letter that follows a letter is lowered, any other
    letter is raised. *)
Fixpoint title_from (prev_cased : bool) (s : string) : string :=
  match s with
  | EmptyString => EmptyString
  | String c r =>
      if is_upper c || is_lower c
      then String (if prev_cased then lower_char c else upper_char c)
                  (title_from true r)
      else String c (title_from false r)
  end.

Definition title (s : string) : string := title_from false s.

(** [sorted(l, key=key, reverse=reverse)] and [l.sort(...)]: a stable sort
    that only asks [<] of the keys.  With [reverse] the order is descending
    and elements with equal keys still keep their input order. *)
Section Sorted.
Context {A K : Type} (lt : K -> K -> bool) (key : A -> K) (reverse : bool).

Definition goes_after (x y : A) : bool :=
  if reverse then lt (key x) (key y) else lt (key y) (key x).

Fixpoint insert (x : A) (l : list A) : list A :=
  match l with
  | [] => [x]
  | y :: r => if goes_after x y then y :: insert x r else x :: l
  end.

Definition sorted (l : list A) : list A := fold_right insert [] l.
End Sorted.

End Py.

(** ** Python floats *)

Module PyFloat.

Inductive pyfloat : Type :=
  | Fin (q : Q)
  | PInf
  | NInf
  | NaN.

(** [math.isfinite] *)
Definition isfinite (x : pyfloat) : bool :=
  match x with
  | Fin _ => true
  | _ => false
  end.

(** [x == y] *)
Definition eqb (x y : pyfloat) : bool :=
  match x, y with
  | Fin a, Fin b => Qeq_bool a b
  | PInf, PInf => true
  | NInf, NInf => true
  | _, _ => false
  end.

(** [x < y] *)
Definition ltb (x y : pyfloat) : bool :=
  match x, y with
  | NaN, _ | _, NaN => false
  | Fin a, Fin b => negb (Qle_bool b a)
  | NInf, NInf => false
  | NInf, _ => true
  | _, NInf => false
  | PInf, _ => false
  | Fin _, PInf => true
  end.

Definition neg (x : pyfloat) : pyfloat :=
  match x with
  | Fin a => Fin (- a)
  | PInf => NInf
  | NInf => PInf
  | NaN => NaN
  end.

(** The infinity that has the sign of [a * s], [s] being [PInf] or [NInf];
    [nan] when [a] is zero. *)
Definition scale_inf (a : Q) (s : pyfloat) : pyfloat :=
  match Qcompare a 0 with
  | Eq => NaN
  | Gt => s
  | Lt => neg s
  end.

Definition add (x y : pyfloat) : pyfloat :=
  match x, y with
  | NaN, _ | _, NaN => NaN
  | Fin a, Fin b => Fin (a + b)
  | PInf, NInf | NInf, PInf => NaN
  | PInf, _ | _, PInf => PInf
  | NInf, _ | _, NInf => NInf
  end.

Definition sub (x y : pyfloat) : pyfloat := add x (neg y).

Definition mul (x y : pyfloat) : pyfloat :=
  match x, y with
  | NaN, _ | _, NaN => NaN
  | Fin a, Fin b => Fin (a * b)
  | Fin a, s | s, Fin a => scale_inf a s
  | PInf, PInf | NInf, NInf => PInf
  | PInf, NInf | NInf, PInf => NInf
  end.

(** [x / y]: Python raises [ZeroDivisionError] on a zero divisor, whatever
    the dividend. *)
Definition div (x y : pyfloat) : result pyfloat :=
  match y with
  | Fin b =>
      if Qeq_bool b 0 then Raise ZeroDivisionError
      else match x with
           | Fin a => Ok (Fin (a / b))
           | NaN => Ok NaN
           | s => Ok (scale_inf b s)
           end
  | NaN => Ok NaN
  | _ => match x with
         | Fin _ => Ok (Fin 0)
         | _ => Ok NaN
         end
  end.

(** Nearest integer, ties to the even one. *)
Definition round_half_even (q : Q) : Z :=
  let f := Qfloor q in
  match Qcompare (q - inject_Z f) (1 # 2) with
  | Lt => f
  | Gt => (f + 1)%Z
  | Eq => if Z.even f then f else (f + 1)%Z
  end.

(** [round(x, 3)]: the nearest multiple of 1/1000, a tie going to the even
    one; a value that is not finite is returned as it is. *)
Definition round3 (x : pyfloat) : pyfloat :=
  match x with
  | Fin q => Fin (inject_Z (round_half_even (q * 1000)) / 1000)
  | _ => x
  end.

(** Equality of the values denoted (a rational has several fractions). *)
Definition feq (x y : pyfloat) : Prop :=
  match x, y with
  | Fin a, Fin b => a == b
  | PInf, PInf | NInf, NInf | NaN, NaN => True
  | _, _ => False
  end.

(** [0 <= x <= 1] *)
Definition in_unit (x : pyfloat) : Prop :=
  match x with
  | Fin q => 0 <= q <= 1
  | _ => False
  end.

(** [min(l)] and [max(l)] of a list: the first element kept until a later
    one compares strictly below (above) it; [ValueError] on the empty list. *)
Definition min_list (l : list pyfloat) : result pyfloat :=
  match l with
  | [] => Raise ValueError
  | x :: r => Ok (fold_left (fun m y => if ltb y m then y else m) r x)
  end.

Definition max_list (l : list pyfloat) : result pyfloat :=
  match l with
  | [] => Raise ValueError
  | x :: r => Ok (fold_left (fun m y => if ltb m y then y else m) r x)
  end.

End PyFloat.
Import PyFloat.

(** ** Binary64 arithmetic *)

(** The arithmetic of CPython's [float], an IEEE 754 binary64: each
    operation returns the double nearest to the exact result, a tie going to
    the double whose last bit is even, and a result beyond the largest
    double becomes [inf].  The values are those of [pyfloat]; only the
    operations that round differ from [PyFloat].  The sign of a zero is not
    kept: Python compares [-0.0] and [0.0] equal and divides by neither. *)
Module Binary64.

(** [2^k] for an exponent of either sign. *)
Definition pow2 (k : Z) : Q := Qpower 2 k.

(** The exponent of a positive rational: [2^e <= q < 2^(e+1)]. *)
Definition floor_log2 (q : Q) : Z :=
  let e := (Z.log2 (Qnum q) - Z.log2 (Zpos (Qden q)))%Z in
  if Qle_bool (pow2 e) q then e else (e - 1)%Z.

(** The exponent of the last bit of the doubles next to a positive [q]:
    52 places below the leading bit of [q], and never below the last bit
    of the subnormal doubles, [2^-1074]. *)
Definition quantum (q : Q) : Z := Z.max (floor_log2 q - 52) (-1074).

(** The multiple of [2^quantum] nearest to a positive [q], ties to even. *)
Definition nearest (q : Q) : Q :=
  let k := quantum q in
  inject_Z (round_half_even (q / pow2 k)) * pow2 k.

(** The double nearest to a positive [q]; [inf] from [2^1024] on. *)
Definition round_pos (q : Q) : pyfloat :=
  let r := nearest q in
  if Qle_bool (pow2 1024) r then PInf else Fin (Qred r).

(** The double nearest to [q]. *)
Definition round64 (q : Q) : pyfloat :=
  match Qcompare q 0 with
  | Eq => Fin 0
  | Gt => round_pos q
  | Lt => neg (round_pos (- q))
  end.

Definition rnd (x : pyfloat) : pyfloat :=
  match x with
  | Fin q => round64 q
  | _ => x
  end.

(** A decimal literal of the source, such as [0.3]. *)
Definition lit (q : Q) : pyfloat := round64 q.

(** The double an [int] becomes in an operation with a [float]. *)
Definition of_int (n : Z) : pyfloat := round64 (inject_Z n).

(** [x + y], [x - y], [x * y], [x / y] *)
Definition add (x y : pyfloat) : pyfloat := rnd (PyFloat.add x y).

Definition sub (x y : pyfloat) : pyfloat := rnd (PyFloat.sub x y).

Definition mul (x y : pyfloat) : pyfloat := rnd (PyFloat.mul x y).

Definition div (x y : pyfloat) : result pyfloat :=
  r <- PyFloat.div x y ;; Ok (rnd r).

(** [round(x, 3)]: CPython rounds the exact value of the double to three
    decimals, a tie going to the even one, and returns the double nearest
    to that decimal. *)
Definition round3 (x : pyfloat) : pyfloat := rnd (PyFloat.round3 x).

End Binary64.

(** ** Models.py *)

Module Models.

(** A candidate as the generators of Candidates.py build it; a key that the
    dictionary does not hold is [None]. *)
Record candidate : Type := mkCandidate {
  poi_id : option Z;
  city : option string;
  country : option string;
  type : option string;
  semantic : option pyfloat;
  distance_km : option pyfloat
}.

(** The dictionary [score_items] builds for each candidate.  Its
    ["explanation"] text, which prints the four sub-scores to two decimals
    for display, is left out: nothing is computed from it. *)
Record item : Type := mkItem {
  item_poi_id : option Z;
  item_city : option string;
  item_country : option string;
  item_type : option string;
  item_semantic : pyfloat;
  item_distance : pyfloat;
  item_category_score : pyfloat;
  item_diversity_score : pyfloat;
  item_final_score : pyfloat
}.

Record user_ctx : Type := mkCtx {
  interests : option (list string)
}.

Record weights : Type := mkWeights {
  w_semantic : option pyfloat;
  w_distance : option pyfloat;
  w_category : option pyfloat;
  w_diversity : option pyfloat
}.

(** The body of [normalize_score], inside its [try]. *)
Definition normalize_score_body (value min_val max_val : pyfloat)
  : result pyfloat :=
  if eqb max_val min_val then Ok (Fin 0.5)
  else if negb (isfinite value) then Ok (Fin 0)
  else div (sub value min_val) (sub max_val min_val).

Definition normalize_score (value min_val max_val : pyfloat) : result pyfloat :=
  try_except (normalize_score_body value min_val max_val)
             (fun _ => Ok (Fin 0)).

Definition category_match (poi_type : option string)
  (user_interests : list string) : pyfloat :=
  if negb (Py.str_truthy poi_type) || negb (Py.nonempty user_interests)
  then Fin 0
  else if Py.mem_str (Py.lower (Py.or_empty poi_type))
                     (map Py.lower user_interests)
       then Fin 1 else Fin 0.

(** [selected] holds the ["type"] entry of each dictionary of the list. *)
Definition diversity_penalty (selected : list (option string))
  (current_cat : option string) : pyfloat :=
  if negb (Py.str_truthy current_cat) then Fin 0
  else
    let count_same :=
      List.length
        (filter (fun c => String.eqb (Py.lower (Py.or_empty c))
                                     (Py.lower (Py.or_empty current_cat)))
                selected) in
    mul (Fin (- 0.2)) (Fin (inject_Z (Z.of_nat count_same))).

(** [(min(vals), max(vals)) if vals else (0.0, 1.0)] *)
Definition value_range (vals : list pyfloat) : result (pyfloat * pyfloat) :=
  if Py.nonempty vals
  then lo <- min_list vals ;; hi <- max_list vals ;; Ok (lo, hi)
  else Ok (Fin 0, Fin 1).

(** [[c.get(key, 0.0) for c in candidates if key in c]] *)
Definition signal_values (signal : candidate -> option pyfloat)
  (candidates : list candidate) : list pyfloat :=
  flat_map (fun c => match signal c with
                     | Some v => [v]
                     | None => []
                     end) candidates.

Section ScoreLoop.
Variables (sem_vals dist_vals : list pyfloat).
Variables (sem_min sem_max dist_min dist_max : pyfloat).
Variables (ctx : user_ctx) (w : weights).

Definition semantic_norm_of (c : candidate) : result pyfloat :=
  let semantic_raw := Py.get (semantic c) (Fin 0) in
  if Py.nonempty sem_vals
  then normalize_score semantic_raw sem_min sem_max
  else Ok (Fin 0.5).

Definition distance_norm_of (c : candidate) : result pyfloat :=
  match distance_km c with
  | None => Ok (Fin 0.5)
  | Some distance_raw =>
      if negb (Py.nonempty dist_vals) then Ok (Fin 0.5)
      else n <- normalize_score distance_raw dist_min dist_max ;;
           Ok (sub (Fin 1) n)
  end.

Definition final_score_of
  (semantic_norm distance_norm category_score diversity_score : pyfloat)
  : pyfloat :=
  add (add (add (mul (Py.get (w_semantic w) (Fin 0.5)) semantic_norm)
                (mul (Py.get (w_distance w) (Fin 0.3)) distance_norm))
           (mul (Py.get (w_category w) (Fin 0.15)) category_score))
      (mul (Py.get (w_diversity w) (Fin 0.05)) diversity_score).

(** One turn of the [for c in candidates] loop: the dictionary appended
    to [reranked]. *)
Definition score_one (selected_for_div : list (option string))
  (c : candidate) : result item :=
  semantic_norm <- semantic_norm_of c ;;
  distance_norm <- distance_norm_of c ;;
  let category_score :=
    category_match (type c) (Py.get (interests ctx) []) in
  let diversity_score := diversity_penalty selected_for_div (type c) in
  let final_score :=
    final_score_of semantic_norm distance_norm category_score
                   diversity_score in
  Ok {| item_poi_id := poi_id c;
        item_city := city c;
        item_country := country c;
        item_type := type c;
        item_semantic := round3 semantic_norm;
        item_distance := round3 distance_norm;
        item_category_score := round3 category_score;
        item_diversity_score := round3 diversity_score;
        item_final_score := round3 final_score |}.

Fixpoint score_loop (candidates : list candidate) (reranked : list item)
  (selected_for_div : list (option string)) : result (list item) :=
  match candidates with
  | [] => Ok reranked
  | c :: rest =>
      it <- score_one selected_for_div c ;;
      score_loop rest (reranked ++ [it]) (selected_for_div ++ [type c])
  end.
End ScoreLoop.

(** The list [reranked] when the loop of [score_items] ends: the scored
    dictionaries in the order of the input. *)
Definition score_all (candidates : list candidate) (ctx : user_ctx)
  (w : weights) : result (list item) :=
  let sem_vals := signal_values semantic candidates in
  sem_range <- value_range sem_vals ;;
  let dist_vals := signal_values distance_km candidates in
  dist_range <- value_range dist_vals ;;
  score_loop sem_vals dist_vals (fst sem_range) (snd sem_range)
             (fst dist_range) (snd dist_range) ctx w candidates [] [].

Definition score_items (candidates : list candidate) (ctx : user_ctx)
  (w : weights) : result (list item) :=
  reranked <- score_all candidates ctx w ;;
  Ok (Py.sorted ltb item_final_score true reranked).

(** [rerank]: [score_items] under the default weights, all four given. *)
Definition default_weights : weights :=
  {| w_semantic := Some (Fin 0.5);
     w_distance := Some (Fin 0.3);
     w_category := Some (Fin 0.15);
     w_diversity := Some (Fin 0.05) |}.

Definition rerank (candidates : list candidate) (ctx : user_ctx)
  : result (list item) :=
  score_items candidates ctx default_weights.

End Models.

(** ** Models.py in binary64 arithmetic *)

(** The scoring functions of Models.py once more, with the arithmetic of
    [Binary64] in place of the exact one: what the interpreter computes,
    rounding and overflow included.  The records, [category_match],
    [value_range] and [signal_values] do no arithmetic and are those of
    [Models]. *)
Module Models64.

(** The body of [normalize_score], inside its [try]. *)
Definition normalize_score_body (value min_val max_val : pyfloat)
  : result pyfloat :=
  if eqb max_val min_val then Ok (Fin 0.5)
  else if negb (isfinite value) then Ok (Fin 0)
  else Binary64.div (Binary64.sub value min_val)
                    (Binary64.sub max_val min_val).

Definition normalize_score (value min_val max_val : pyfloat) : result pyfloat :=
  try_except (normalize_score_body value min_val max_val)
             (fun _ => Ok (Fin 0)).

(** [selected] holds the ["type"] entry of each dictionary of the list. *)
Definition diversity_penalty (selected : list (option string))
  (current_cat : option string) : pyfloat :=
  if negb (Py.str_truthy current_cat) then Fin 0
  else
    let count_same :=
      List.length
        (filter (fun c => String.eqb (Py.lower (Py.or_empty c))
                                     (Py.lower (Py.or_empty current_cat)))
                selected) in
    Binary64.mul (neg (Binary64.lit 0.2))
                 (Binary64.of_int (Z.of_nat count_same)).

Section ScoreLoop.
Variables (sem_vals dist_vals : list pyfloat).
Variables (sem_min sem_max dist_min dist_max : pyfloat).
Variables (ctx : Models.user_ctx) (w : Models.weights).

Definition semantic_norm_of (c : Models.candidate) : result pyfloat :=
  let semantic_raw := Py.get (Models.semantic c) (Fin 0) in
  if Py.nonempty sem_vals
  then normalize_score semantic_raw sem_min sem_max
  else Ok (Fin 0.5).

Definition distance_norm_of (c : Models.candidate) : result pyfloat :=
  match Models.distance_km c with
  | None => Ok (Fin 0.5)
  | Some distance_raw =>
      if negb (Py.nonempty dist_vals) then Ok (Fin 0.5)
      else n <- normalize_score distance_raw dist_min dist_max ;;
           Ok (Binary64.sub (Fin 1) n)
  end.

Definition final_score_of
  (semantic_norm distance_norm category_score diversity_score : pyfloat)
  : pyfloat :=
  Binary64.add
    (Binary64.add
       (Binary64.add
          (Binary64.mul (Py.get (Models.w_semantic w) (Fin 0.5))
                        semantic_norm)
          (Binary64.mul (Py.get (Models.w_distance w) (Binary64.lit 0.3))
                        distance_norm))
       (Binary64.mul (Py.get (Models.w_category w) (Binary64.lit 0.15))
                     category_score))
    (Binary64.mul (Py.get (Models.w_diversity w) (Binary64.lit 0.05))
                  diversity_score).

(** One turn of the [for c in candidates] loop: the dictionary appended
    to [reranked]. *)
Definition score_one (selected_for_div : list (option string))
  (c : Models.candidate) : result Models.item :=
  semantic_norm <- semantic_norm_of c ;;
  distance_norm <- distance_norm_of c ;;
  let category_score :=
    Models.category_match (Models.type c)
                          (Py.get (Models.interests ctx) []) in
  let diversity_score :=
    diversity_penalty selected_for_div (Models.type c) in
  let final_score :=
    final_score_of semantic_norm distance_norm category_score
                   diversity_score in
  Ok {| Models.item_poi_id := Models.poi_id c;
        Models.item_city := Models.city c;
        Models.item_country := Models.country c;
        Models.item_type := Models.type c;
        Models.item_semantic := Binary64.round3 semantic_norm;
        Models.item_distance := Binary64.round3 distance_norm;
        Models.item_category_score := Binary64.round3 category_score;
        Models.item_diversity_score := Binary64.round3 diversity_score;
        Models.item_final_score := Binary64.round3 final_score |}.

Fixpoint score_loop (candidates : list Models.candidate)
  (reranked : list Models.item) (selected_for_div : list (option string))
  : result (list Models.item) :=
  match candidates with
  | [] => Ok reranked
  | c :: rest =>
      it <- score_one selected_for_div c ;;
      score_loop rest (reranked ++ [it])
                 (selected_for_div ++ [Models.type c])
  end.
End ScoreLoop.

(** The list [reranked] when the loop of [score_items] ends: the scored
    dictionaries in the order of the input. *)
Definition score_all (candidates : list Models.candidate)
  (ctx : Models.user_ctx) (w : Models.weights) : result (list Models.item) :=
  let sem_vals := Models.signal_values Models.semantic candidates in
  sem_range <- Models.value_range sem_vals ;;
  let dist_vals := Models.signal_values Models.distance_km candidates in
  dist_range <- Models.value_range dist_vals ;;
  score_loop sem_vals dist_vals (fst sem_range) (snd sem_range)
             (fst dist_range) (snd dist_range) ctx w candidates [] [].

Definition score_items (candidates : list Models.candidate)
  (ctx : Models.user_ctx) (w : Models.weights) : result (list Models.item) :=
  reranked <- score_all candidates ctx w ;;
  Ok (Py.sorted ltb Models.item_final_score true reranked).

End Models64.

(** ** data_preprocessor.py *)

Module DataPreprocessor.

(** A row of the query of [load_all_data]: [id], [name], [type],
    [description], [city_name], [country_name]; a SQL NULL is [None]. *)
Record row : Type := mkRow {
  row_id : Z;
  row_name : option string;
  row_type : option string;
  row_description : option string;
  row_city_name : option string;
  row_country_name : option string
}.

(** The dictionary [poi_data]. *)
Record poi : Type := mkPoi {
  poi_id : Z;
  name : string;
  type : string;
  description : string;
  city : string;
  country : string;
  city_lower : string;
  country_lower : string
}.

(** The data base as the code sees it: the rows the query returns for a
    language, or the exception raised while connecting or querying. *)
Definition database : Type := string -> result (list row).

(** A [defaultdict(list)] as an association list in insertion order. *)
Definition lookup_table (K : Type) : Type := list (K * list poi).

Section Tables.
Context {K : Type} (eqb : K -> K -> bool).

(** [key in d] *)
Definition has_key (d : lookup_table K) (k : K) : bool :=
  existsb (fun e => eqb (fst e) k) d.

(** [d[key]], for a key the table holds *)
Definition lookup (d : lookup_table K) (k : K) : list poi :=
  match find (fun e => eqb (fst e) k) d with
  | Some e => snd e
  | None => []
  end.

(** [d[key].append(p)] *)
Fixpoint append_to (d : lookup_table K) (k : K) (p : poi) : lookup_table K :=
  match d with
  | [] => [(k, [p])]
  | (k', l) :: r =>
      if eqb k' k then (k', l ++ [p]) :: r else (k', l) :: append_to r k p
  end.
End Tables.

Definition pair_eqb (a b : string * string) : bool :=
  String.eqb (fst a) (fst b) && String.eqb (snd a) (snd b).

(** [location_counts[key] += 1] on a [defaultdict(int)] *)
Fixpoint count_up (d : list ((string * string) * Z)) (k : string * string)
  : list ((string * string) * Z) :=
  match d with
  | [] => [(k, 1%Z)]
  | (k', n) :: r =>
      if pair_eqb k' k then (k', (n + 1)%Z) :: r else (k', n) :: count_up r k
  end.

Record preprocessor : Type := mkPre {
  all_pois : list poi;
  city_country_lookup : lookup_table (string * string);
  city_lookup : lookup_table string;
  country_lookup : lookup_table string;
  available_locations : list (string * string * Z);
  is_loaded : bool
}.

(** [POIDataPreprocessor()] *)
Definition init : preprocessor :=
  {| all_pois := [];
     city_country_lookup := [];
     city_lookup := [];
     country_lookup := [];
     available_locations := [];
     is_loaded := false |}.

(** One turn of the loop over the rows. *)
Definition add_row (self : preprocessor) (r : row) : preprocessor :=
  if negb (Py.str_truthy (row_city_name r))
     || negb (Py.str_truthy (row_country_name r))
  then self
  else
    let city_name := Py.or_empty (row_city_name r) in
    let country_name := Py.or_empty (row_country_name r) in
    let poi_data :=
      {| poi_id := row_id r;
         name := if Py.str_truthy (row_name r)
                 then Py.or_empty (row_name r) else "Unknown"%string;
         type := if Py.str_truthy (row_type r)
                 then Py.or_empty (row_type r) else "other"%string;
         description := Py.or_empty (row_description r);
         city := Py.strip city_name;
         country := Py.strip country_name;
         city_lower := Py.strip (Py.lower city_name);
         country_lower := Py.strip (Py.lower country_name) |} in
    let city_key := Py.strip (Py.lower city_name) in
    let country_key := Py.strip (Py.lower country_name) in
    {| all_pois := all_pois self ++ [poi_data];
       city_country_lookup :=
         append_to pair_eqb (city_country_lookup self)
                   (city_key, country_key) poi_data;
       city_lookup := append_to String.eqb (city_lookup self) city_key poi_data;
       country_lookup :=
         append_to String.eqb (country_lookup self) country_key poi_data;
       available_locations := available_locations self;
       is_loaded := is_loaded self |}.

Definition location_counts (pois : list poi) : list ((string * string) * Z) :=
  fold_left (fun d p => count_up d (city p, country p)) pois [].

(** [load_all_data(lang)]: the value returned and the object afterwards.
    The three lookup tables are not emptied first, [all_pois] is. *)
Definition load_all_data (db : database) (self : preprocessor) (lang : string)
  : bool * preprocessor :=
  match db lang with
  | Raise _ => (false, self)
  | Ok rows =>
      if negb (Py.nonempty rows) then (false, self)
      else
        let cleared :=
          {| all_pois := [];
             city_country_lookup := city_country_lookup self;
             city_lookup := city_lookup self;
             country_lookup := country_lookup self;
             available_locations := available_locations self;
             is_loaded := is_loaded self |} in
        let filled := fold_left add_row rows cleared in
        let locations :=
          map (fun e => (fst (fst e), snd (fst e), snd e))
              (location_counts (all_pois filled)) in
        (true,
         {| all_pois := all_pois filled;
            city_country_lookup := city_country_lookup filled;
            city_lookup := city_lookup filled;
            country_lookup := country_lookup filled;
            available_locations :=
              Py.sorted Z.ltb (fun x : string * string * Z => snd x) true
                        locations;
            is_loaded := true |})
  end.

(** The lookups of [find_pois_for_location], data loaded. *)
Definition find_loaded (self : preprocessor) (city country : string)
  : list poi :=
  let city_clean := Py.strip (Py.lower city) in
  let country_clean := Py.strip (Py.lower country) in
  let exact_key := (city_clean, country_clean) in
  if has_key pair_eqb (city_country_lookup self) exact_key
  then lookup pair_eqb (city_country_lookup self) exact_key
  else if has_key String.eqb (city_lookup self) city_clean
  then lookup String.eqb (city_lookup self) city_clean
  else if has_key String.eqb (country_lookup self) country_clean
  then lookup String.eqb (country_lookup self) country_clean
  else
    let fuzzy_matches :=
      filter (fun p =>
                let city_match :=
                  Py.contains city_clean (city_lower p)
                  || Py.contains (city_lower p) city_clean in
                let country_match :=
                  Py.contains country_clean (country_lower p)
                  || Py.contains (country_lower p) country_clean in
                city_match || country_match)
             (all_pois self) in
    fuzzy_matches.

Definition find_pois_for_location (db : database) (self : preprocessor)
  (city country : string) : list poi * preprocessor :=
  if negb (is_loaded self)
  then
    let '(ok, self') := load_all_data db self "en" in
    if negb ok then ([], self')
    else (find_loaded self' city country, self')
  else (find_loaded self city country, self).

Definition get_available_locations (self : preprocessor)
  : list (string * string * Z) :=
  available_locations self.

Definition get_location_suggestions (self : preprocessor)
  (partial_city partial_country : string) : list (string * string * Z) :=
  let partial_city_lower := Py.lower partial_city in
  let partial_country_lower := Py.lower partial_country in
  let suggestions :=
    filter (fun loc : string * string * Z =>
              let '(city, country, _) := loc in
              let city_match :=
                negb (Py.str_truthy (Some partial_city_lower))
                || Py.contains partial_city_lower (Py.lower city) in
              let country_match :=
                negb (Py.str_truthy (Some partial_country_lower))
                || Py.contains partial_country_lower (Py.lower country) in
              city_match || country_match)
           (available_locations self) in
  firstn 20 suggestions.

End DataPreprocessor.

(** ** itinerary.py *)

Module Itinerary.

Record theme_cfg : Type := mkTheme {
  keywords : list string;
  boost : pyfloat
}.

(** [TOUR_THEMES], in the order of the dictionary. *)
Definition TOUR_THEMES : list (string * theme_cfg) :=
  [ ("cultural",
     mkTheme ["museum"; "monument"; "historic"; "temple"; "gallery";
              "heritage"; "church"; "mosque"; "castle"; "ruins"] (Fin 0.25));
    ("adventure",
     mkTheme ["nature"; "beach"; "desert"; "hiking"; "diving"; "snorkel";
              "quad"; "safari"; "kayak"; "trail"; "climb"] (Fin 0.25));
    ("foodies",
     mkTheme ["restaurant"; "cafe"; "market"; "street food"; "bakery";
              "eatery"; "diner"] (Fin 0.30));
    ("family",
     mkTheme ["park"; "zoo"; "aquarium"; "children"; "playground";
              "amusement"; "family"] (Fin 0.20));
    ("couples",
     mkTheme ["romantic"; "sunset"; "candlelight"; "spa"; "scenic";
              "viewpoint"; "resort"] (Fin 0.25));
    ("friends",
     mkTheme ["bar"; "club"; "sports"; "fun"; "nightlife"; "escape room";
              "bowling"] (Fin 0.20)) ]%string.

(** [any(x in t for x in words)] *)
Definition any_in (words : list string) (t : string) : bool :=
  existsb (fun x => Py.contains x t) words.

Definition normalize_category (raw_type : string) : string :=
  if negb (Py.str_truthy (Some raw_type)) then "other"%string
  else
    let t := Py.lower raw_type in
    if any_in ["hotel"; "resort"; "hostel"; "inn"; "lodg"]%string t
    then "hotel"%string
    else if any_in ["restaurant"; "cafe"; "bar"; "pub"; "food"; "eat"]%string t
    then "restaurant"%string
    else if any_in ["shop"; "mall"; "market"; "store"; "boutique";
                    "bazaar"]%string t
    then "shop"%string
    else if any_in ["museum"; "nature"; "beach"; "park"; "tourist";
                    "monument"; "landmark"; "viewpoint"; "temple"; "mosque";
                    "church"; "castle"]%string t
    then "tourist place"%string
    else if any_in ["club"; "entertainment"; "nightlife"]%string t
    then "entertainment"%string
    else "other"%string.

Definition classify_theme_text (text : string) : list string :=
  if negb (Py.str_truthy (Some text)) then []
  else
    let text_l := Py.lower text in
    map fst (filter (fun tc => any_in (keywords (snd tc)) text_l) TOUR_THEMES).

(** A candidate of the assembler.  The placeholder hotel has no ["city"]
    and no ["country"] key. *)
Record candidate : Type := mkCandidate {
  poi_id : Z;
  name : string;
  type : string;
  description : string;
  themes : option (list string);
  score : pyfloat;
  city : option string;
  country : option string
}.

Definition is_hotel (c : candidate) : bool := String.eqb (type c) "hotel".

(** The dictionary inserted when no hotel was selected. *)
Definition dummy_hotel : candidate :=
  {| poi_id := -1;
     name := "Hotel check-in / rest";
     type := "hotel";
     description := "";
     themes := Some [];
     score := Fin 0;
     city := None;
     country := None |}.

(** [theme_score(c)] *)
Definition theme_score (theme : option string) (c : candidate) : Z :=
  if Py.str_truthy theme
     && Py.mem_str (Py.or_empty theme) (Py.get (themes c) [])
  then 1 else 0.

(** [<] on the pairs (integer, float) used as sort keys. *)
Definition key_lt (a b : Z * pyfloat) : bool :=
  if (fst a =? fst b)%Z then ltb (snd a) (snd b) else (fst a <? fst b)%Z.

(** [sum(1 for s in selected if s["type"] == t)] *)
Definition count_type (selected : list candidate) (t : string) : Z :=
  Py.len (filter (fun s => String.eqb (type s) t) selected).

(** The [for c in pool] loop; its state is [selected], [seen_ids] and
    [seen_types], and [selected] is what is read afterwards. *)
Fixpoint fill_loop (pool : list candidate) (plan_size : Z)
  (selected : list candidate) (seen_ids : list Z) (seen_types : list string)
  : list candidate :=
  match pool with
  | [] => selected
  | c :: rest =>
      if (plan_size <=? Py.len selected)%Z then selected
      else if Py.mem_Z (poi_id c) seen_ids
      then fill_loop rest plan_size selected seen_ids seen_types
      else if negb (Py.mem_str (type c) seen_types)
      then fill_loop rest plan_size (selected ++ [c])
                     (poi_id c :: seen_ids) (type c :: seen_types)
      else if (count_type selected (type c) <? 2)%Z
      then fill_loop rest plan_size (selected ++ [c])
                     (poi_id c :: seen_ids) seen_types
      else fill_loop rest plan_size selected seen_ids seen_types
  end.

Definition select_with_hotel (candidates : list candidate) (plan_size : Z)
  (theme : option string) : list candidate :=
  let plan_size := if (plan_size <? 2)%Z then 2%Z else plan_size in
  let hotels := Py.sorted ltb score true (filter is_hotel candidates) in
  let hotel_pick := hd_error hotels in
  let selected := match hotel_pick with Some h => [h] | None => [] end in
  let seen_ids :=
    match hotel_pick with Some h => [poi_id h] | None => [] end in
  let pool :=
    filter (fun c => negb (Py.mem_Z (poi_id c) seen_ids)) candidates in
  let seen_types :=
    match hotel_pick with Some _ => ["hotel"%string] | None => [] end in
  let pool :=
    Py.sorted key_lt (fun c => (theme_score theme c, score c)) true pool in
  let selected := fill_loop pool plan_size selected seen_ids seen_types in
  let selected :=
    if negb (existsb is_hotel selected) then dummy_hotel :: selected
    else selected in
  let hotels := filter is_hotel selected in
  let selected :=
    match hotels with
    | first_hotel :: _ :: _ =>
        let non_hotels := filter (fun s => negb (is_hotel s)) selected in
        first_hotel :: Py.take (plan_size - 1) non_hotels
    | _ => selected
    end in
  Py.take plan_size selected.

(** *** Time tiling *)

(** A [datetime] of the day that [strptime] gives, 1900-01-01, or of a later
    day: the minutes since 1900-01-01 00:00. *)
Definition datetime : Type := Z.

Definition minute_of (dt : datetime) : Z := dt mod 60.

(** One or two digits, as the directives [%H] and [%M] read them. *)
Definition parse_field (s : string) (bound : Z) : option Z :=
  match s with
  | String a EmptyString =>
      if Py.is_digit a then Some (Py.digit_val a) else None
  | String a (String b EmptyString) =>
      if Py.is_digit a && Py.is_digit b
      then let v := (10 * Py.digit_val a + Py.digit_val b)%Z in
           if (v <=? bound)%Z then Some v else None
      else None
  | _ => None
  end.

Fixpoint split_colon (s : string) : option (string * string) :=
  match s with
  | EmptyString => None
  | String c r =>
      if Ascii.eqb c ":"%char then Some (EmptyString, r)
      else match split_colon r with
           | Some (h, m) => Some (String c h, m)
           | None => None
           end
  end.

(** [datetime.strptime(s, "%H:%M")] *)
Definition strptime (s : string) : result datetime :=
  match split_colon s with
  | None => Raise ValueError
  | Some (h, m) =>
      match parse_field h 23, parse_field m 59 with
      | Some hour, Some minute => Ok (hour * 60 + minute)%Z
      | _, _ => Raise ValueError
      end
  end.

(** [dt.strftime("%H:%M")] *)
Definition strftime (dt : datetime) : string :=
  (Py.two_digits ((dt / 60) mod 24) ++ ":" ++ Py.two_digits (dt mod 60))%string.

Definition snap_down (dt : datetime) : datetime :=
  let minute := if (minute_of dt <? 30)%Z then 0%Z else 30%Z in
  (dt - minute_of dt + minute)%Z.

Definition snap_up (dt : datetime) : datetime :=
  if (minute_of dt =? 0)%Z then dt
  else if (minute_of dt <=? 30)%Z then (dt - minute_of dt + 30)%Z
  else (dt - minute_of dt + 60)%Z.

(** [math.ceil(a / b)] for integers, [0 < b] *)
Definition ceil_div (a b : Z) : Z := (- ((- a) / b))%Z.

(** The [for i in range(n)] loop, [todo] turns left, with its [break]. *)
Fixpoint slot_loop (todo : nat) (n step : Z) (end_ : datetime) (i : Z)
  (cur : datetime) (slots : list (string * string)) : list (string * string) :=
  match todo with
  | O => slots
  | S todo' =>
      let nxt := (cur + step)%Z in
      let nxt := if (i =? n - 1)%Z || (end_ <? nxt)%Z then end_ else nxt in
      let slots := slots ++ [(strftime cur, strftime nxt)] in
      let cur := nxt in
      if (end_ <=? cur)%Z then slots
      else slot_loop todo' n step end_ (i + 1)%Z cur slots
  end.

(** [while len(slots) < n: slots.append((end, end))] *)
Definition pad_slots (n : Z) (end_ : datetime) (slots : list (string * string))
  : list (string * string) :=
  slots ++ repeat (strftime end_, strftime end_)
                  (Z.to_nat (n - Py.len slots)).

Definition build_time_slots (start_time end_time : string) (n : Z)
  : result (list (string * string)) :=
  start <- strptime start_time ;;
  end_ <- strptime end_time ;;
  let start := snap_down start in
  let end_ := snap_up end_ in
  let total_minutes := Z.max 0 (end_ - start) in
  if (n <=? 0)%Z || (total_minutes =? 0)%Z then Ok []
  else
    let raw_step := ceil_div total_minutes n in
    let step := Z.max 30 (ceil_div raw_step 30 * 30) in
    let slots := slot_loop (Z.to_nat n) n step end_ 0 start [] in
    let slots := pad_slots n end_ slots in
    Ok (Py.take n slots).

(** *** build_itinerary *)

Record place : Type := mkPlace {
  place_id : Z;
  place_name : string;
  place_category : string;
  place_start : string;
  place_end : string;
  place_day : Z
}.

Record day_plan : Type := mkDay {
  day : Z;
  places : list place
}.

Record itinerary : Type := mkItinerary {
  days_count : Z;
  itinerary_name : string;
  short_description : string;
  days : list day_plan
}.

(** What lives between two calls: the module-level [preprocessor] and the
    attribute [build_itinerary._data_initialized] (present or not). *)
Record world : Type := mkWorld {
  preprocessor : DataPreprocessor.preprocessor;
  data_initialized : bool
}.

(** The dictionary appended for a row of [pois_data]. *)
Definition candidate_of (theme : option string) (poi_data : DataPreprocessor.poi)
  : result candidate :=
  let base_type := normalize_category (DataPreprocessor.type poi_data) in
  let themes :=
    classify_theme_text
      (base_type ++ " " ++ DataPreprocessor.name poi_data ++ " "
                 ++ DataPreprocessor.description poi_data)%string in
  score <-
    (if Py.str_truthy theme && Py.mem_str (Py.or_empty theme) themes
     then match find (fun tc => String.eqb (fst tc) (Py.or_empty theme))
                     TOUR_THEMES with
          | Some tc => Ok (add (Fin 1) (boost (snd tc)))
          | None => Raise KeyError
          end
     else Ok (Fin 1)) ;;
  Ok {| poi_id := DataPreprocessor.poi_id poi_data;
        name := DataPreprocessor.name poi_data;
        type := base_type;
        description := DataPreprocessor.description poi_data;
        themes := Some themes;
        score := score;
        city := Some (DataPreprocessor.city poi_data);
        country := Some (DataPreprocessor.country poi_data) |}.

Fixpoint candidates_of (theme : option string)
  (pois_data : list DataPreprocessor.poi) : result (list candidate) :=
  match pois_data with
  | [] => Ok []
  | p :: r =>
      c <- candidate_of theme p ;;
      cs <- candidates_of theme r ;;
      Ok (c :: cs)
  end.

Definition days_count_for (available_places : Z) : Z :=
  if (25 <=? available_places)%Z
  then Z.min 6 (Z.max 5 (available_places / 5))
  else if (20 <=? available_places)%Z then 4
  else if (15 <=? available_places)%Z then 3
  else 3.

(** [for c in remaining: if len(selected) >= total_needed: break;
    selected.append(c)] *)
Fixpoint append_remaining (total_needed : Z) (remaining selected : list candidate)
  : list candidate :=
  match remaining with
  | [] => selected
  | c :: r =>
      if (total_needed <=? Py.len selected)%Z then selected
      else append_remaining total_needed r (selected ++ [c])
  end.

Definition filler (city country : string) : candidate :=
  {| poi_id := -2;
     name := "Free time / transit";
     type := "free time";
     description := "Buffer time for rest or transit";
     themes := Some [];
     score := Fin 0;
     city := Some city;
     country := Some country |}.

(** [selected] after the sort and the underfill handling. *)
Definition fill_selected (candidates selected : list candidate)
  (total_needed : Z) (city country : string) : list candidate :=
  let selected :=
    Py.sorted key_lt
      (fun x => (if is_hotel x then 0%Z else 1%Z, neg (score x))) false
      selected in
  if (Py.len selected <? total_needed)%Z
  then
    let selected_ids := map poi_id selected in
    let remaining :=
      filter (fun c => negb (Py.mem_Z (poi_id c) selected_ids)) candidates in
    let remaining := Py.sorted ltb score true remaining in
    let selected := append_remaining total_needed remaining selected in
    selected ++ repeat (filler city country)
                       (Z.to_nat (total_needed - Py.len selected))
  else selected.

(** One turn of the loop over the days. *)
Definition build_day (selected : list candidate) (per_day : Z)
  (start_time end_time : string) (day_index : Z) : result day_plan :=
  let day_places :=
    if (day_index <? Py.len selected / per_day)%Z
    then Py.slice (day_index * per_day) ((day_index + 1) * per_day) selected
    else Py.take per_day (Py.drop (day_index * per_day) selected) in
  time_slots <- build_time_slots start_time end_time (Py.len day_places) ;;
  Ok {| day := (day_index + 1)%Z;
        places :=
          map (fun cs : candidate * (string * string) =>
                 let '(c, (s, e)) := cs in
                 {| place_id := poi_id c;
                    place_name := name c;
                    place_category := type c;
                    place_start := s;
                    place_end := e;
                    place_day := (day_index + 1)%Z |})
              (combine day_places time_slots) |}.

Fixpoint build_days (selected : list candidate) (per_day : Z)
  (start_time end_time : string) (day_indexes : list Z)
  : result (list day_plan) :=
  match day_indexes with
  | [] => Ok []
  | i :: r =>
      d <- build_day selected per_day start_time end_time i ;;
      ds <- build_days selected per_day start_time end_time r ;;
      Ok (d :: ds)
  end.

Definition famous_cities : list (string * string) :=
  [ ("paris", "Parisian Adventure"); ("london", "London Explorer");
    ("tokyo", "Tokyo Discovery"); ("new york", "NYC Experience");
    ("rome", "Roman Holiday"); ("cairo", "Cairo Explorer");
    ("dubai", "Dubai Luxury"); ("barcelona", "Barcelona Vibes");
    ("sydney", "Sydney Explorer"); ("mumbai", "Mumbai Discovery") ]%string.

Definition generate_tour_name (city country : string) (days_count : Z)
  : string :=
  let city_clean := Py.title city in
  let city_key := Py.lower city in
  match find (fun e => String.eqb (fst e) city_key) famous_cities with
  | Some e => (Py.str_of_Z days_count ++ "-Day " ++ snd e)%string
  | None => (Py.str_of_Z days_count ++ "-Day " ++ city_clean ++ " Discovery")%string
  end.

Definition generate_tour_description (city country : string)
  (days_count per_day total_places : Z) : string :=
  let city_clean := Py.title city in
  let country_clean := Py.title country in
  let duration_desc :=
    (if (days_count =? 3)%Z then "Perfect weekend getaway"
     else if (days_count =? 4)%Z then "Comprehensive exploration"
     else if (days_count =? 5)%Z then "Deep cultural immersion"
     else if (days_count =? 6)%Z then "Ultimate travel experience"
     else Py.str_of_Z days_count ++ "-day adventure")%string in
  ("A " ++ duration_desc ++ " in " ++ city_clean ++ ", " ++ country_clean
   ++ ". Discover " ++ Py.str_of_Z total_places
   ++ " carefully selected places across " ++ Py.str_of_Z days_count
   ++ " days, with " ++ Py.str_of_Z per_day
   ++ " unique experiences each day.")%string.

(** [build_itinerary] once [pois_data] is known not to be empty. *)
Definition assemble (pois_data : list DataPreprocessor.poi)
  (city country start_time end_time : string) (theme : option string)
  : result itinerary :=
  candidates <- candidates_of theme pois_data ;;
  if negb (Py.nonempty candidates)
  then Ok {| days_count := 0;
             itinerary_name := ("Trip in " ++ city)%string;
             short_description := "No places found";
             days := [] |}
  else
    let available_places := Py.len candidates in
    let days_count := days_count_for available_places in
    let per_day := 5%Z in
    let total_needed := (days_count * per_day)%Z in
    let selected := select_with_hotel candidates total_needed theme in
    let selected :=
      fill_selected candidates selected total_needed city country in
    days <- build_days selected per_day start_time end_time
                       (map Z.of_nat (seq 0 (Z.to_nat days_count))) ;;
    let plan_name := generate_tour_name city country days_count in
    let total_places := (days_count * per_day)%Z in
    let short_desc :=
      generate_tour_description city country days_count per_day
                                total_places in
    Ok {| days_count := days_count;
          itinerary_name := plan_name;
          short_description := short_desc;
          days := days |}.

(** The first step of [build_itinerary]: [initialize_data()] is called
    unless the attribute is there, and the attribute is set when it returns
    [True].  The boolean tells whether the data is initialized afterwards. *)
Definition ensure_initialized (db : DataPreprocessor.database) (w : world)
  : bool * world :=
  if negb (data_initialized w)
  then
    let '(ok, pre) :=
      DataPreprocessor.load_all_data db (preprocessor w) "en" in
    (ok, {| preprocessor := pre; data_initialized := ok |})
  else (true, w).

(** [build_itinerary]: the value returned (or the exception) and the
    module state afterwards.  [lang] and [plan_size] are accepted and not
    read; what is logged is not represented. *)
Definition build_itinerary (db : DataPreprocessor.database) (w : world)
  (city country lang : string) (plan_size : option Z)
  (start_time end_time : string) (theme : option string)
  : result itinerary * world :=
  let '(initialized, w) := ensure_initialized db w in
  if negb initialized
  then (Ok {| days_count := 0;
              itinerary_name := ("Trip in " ++ city)%string;
              short_description := "Failed to load data";
              days := [] |}, w)
  else
    let '(pois_data, pre) :=
      DataPreprocessor.find_pois_for_location db (preprocessor w)
                                              city country in
    let w := {| preprocessor := pre; data_initialized := data_initialized w |} in
    if negb (Py.nonempty pois_data)
    then (Ok {| days_count := 0;
                itinerary_name := ("Trip in " ++ city)%string;
                short_description :=
                  ("No places found for " ++ city ++ ", " ++ country)%string;
                days := [] |}, w)
    else (assemble pois_data city country start_time end_time theme, w).

End Itinerary.

(** * Vocabulary of the specification *)

Module Spec.

(** A list in the order [sorted] aims at: no element has to go after one
    that stands behind it. *)
Definition ordered {A K : Type} (lt : K -> K -> bool) (key : A -> K)
  (reverse : bool) (l : list A) : Prop :=
  StronglySorted (fun a b => Py.goes_after lt key reverse a b = false) l.

(** The signals a candidate carries are finite floats. *)
Definition finite_opt (x : option pyfloat) : Prop :=
  match x with
  | Some v => isfinite v = true
  | None => True
  end.

Definition finite_candidate (c : Models.candidate) : Prop :=
  finite_opt (Models.semantic c) /\ finite_opt (Models.distance_km c).

(** No item is followed by one with a strictly greater [final_score]. *)
Definition by_final_score_descending (l : list Models.item) : Prop :=
  StronglySorted
    (fun a b =>
       ltb (Models.item_final_score a) (Models.item_final_score b) = false) l.


(** The slot of index [k] of a day tiled from [a] to [b] in steps of
    [step] minutes, and the first [n] of them. *)
Definition slot_at (a b step k : Z) : Z * Z :=
  (Z.min (a + k * step) b, Z.min (a + (k + 1) * step) b).

Definition tiling (a b step : Z) (n : nat) : list (Z * Z) :=
  map (fun k => slot_at a b step (Z.of_nat k)) (seq 0 n).

Definition print_slot (p : Z * Z) : string * string :=
  (Itinerary.strftime (fst p), Itinerary.strftime (snd p)).

(** [s] reads HH:00 or HH:30 with HH from 00 to 23. *)
Definition half_hour_string (s : string) : bool :=
  match s with
  | String h1 (String h2 (String c (String m1 (String m2 EmptyString)))) =>
      Py.is_digit h1 && Py.is_digit h2
      && (10 * Py.digit_val h1 + Py.digit_val h2 <=? 23)%Z
      && Ascii.eqb c ":"%char
      && (Ascii.eqb m1 "0"%char || Ascii.eqb m1 "3"%char)
      && Ascii.eqb m2 "0"%char
  | _ => false
  end.

(** Each slot starts where the one before it ends. *)
Fixpoint contiguous (l : list (string * string)) : bool :=
  match l with
  | p :: ((q :: _) as r) => String.eqb (snd p) (fst q) && contiguous r
  | _ => true
  end.

(** [s] is not later in the day than [t]. *)
Definition not_later (s t : string) : bool :=
  match Itinerary.strptime s, Itinerary.strptime t with
  | Ok x, Ok y => (x <=? y)%Z
  | _, _ => false
  end.

(** The states the preprocessor object goes through: it is created empty
    and only [load_all_data] writes to it. *)
Inductive reachable : DataPreprocessor.preprocessor -> Prop :=
  | reach_init : reachable DataPreprocessor.init
  | reach_load (db : DataPreprocessor.database)
      (self : DataPreprocessor.preprocessor) (lang : string) :
      reachable self ->
      reachable (snd (DataPreprocessor.load_all_data db self lang)).

(** Entries by count, descending. *)
Definition by_count_descending (l : list (string * string * Z)) : Prop :=
  StronglySorted (fun x y => (snd y <= snd x)%Z) l.

(** What [score_items] copies from a candidate into its item. *)
Definition candidate_meta (c : Models.candidate)
  : option Z * option string * option string * option string :=
  (Models.poi_id c, Models.city c, Models.country c, Models.type c).

Definition item_meta (it : Models.item)
  : option Z * option string * option string * option string :=
  (Models.item_poi_id it, Models.item_city it, Models.item_country it,
   Models.item_type it).

(** [x <= 0] *)
Definition not_positive (x : pyfloat) : Prop :=
  match x with
  | Fin q => q <= 0
  | NInf => True
  | _ => False
  end.

(** [x <= y] for floats that are not [nan]. *)
Definition fle (x y : pyfloat) : Prop :=
  match x, y with
  | NaN, _ | _, NaN => False
  | NInf, _ | _, PInf => True
  | Fin a, Fin b => a <= b
  | _, _ => False
  end.

(** A value that a [float] holds: rounding to the nearest double leaves it
    as it is. *)
Definition is_double (x : pyfloat) : Prop := feq (Binary64.rnd x) x.

(** No item has [nan] as its [final_score]. *)
Definition no_nan_score (l : list Models.item) : Prop :=
  Forall (fun it => Models.item_final_score it <> NaN) l.

(** [self'] is [self] with the POIs [new] added to the catalog and filed
    in the three lookup tables. *)
Definition filed (self self' : DataPreprocessor.preprocessor)
  (new : list DataPreprocessor.poi) : Prop :=
  DataPreprocessor.all_pois self' = DataPreprocessor.all_pois self ++ new /\
  (forall k,
     DataPreprocessor.lookup String.eqb (DataPreprocessor.city_lookup self') k
     = DataPreprocessor.lookup String.eqb (DataPreprocessor.city_lookup self) k
       ++ filter (fun p => String.eqb (DataPreprocessor.city_lower p) k) new) /\
  (forall k,
     DataPreprocessor.lookup String.eqb
       (DataPreprocessor.country_lookup self') k
     = DataPreprocessor.lookup String.eqb
         (DataPreprocessor.country_lookup self) k
       ++ filter (fun p => String.eqb (DataPreprocessor.country_lower p) k)
                 new) /\
  (forall k,
     DataPreprocessor.lookup DataPreprocessor.pair_eqb
       (DataPreprocessor.city_country_lookup self') k
     = DataPreprocessor.lookup DataPreprocessor.pair_eqb
         (DataPreprocessor.city_country_lookup self) k
       ++ filter (fun p =>
                    DataPreprocessor.pair_eqb
                      (DataPreprocessor.city_lower p,
                       DataPreprocessor.country_lower p) k) new) /\
  (forall k,
     DataPreprocessor.has_key String.eqb (DataPreprocessor.city_lookup self') k
     = DataPreprocessor.has_key String.eqb (DataPreprocessor.city_lookup self) k
       || existsb (fun p => String.eqb (DataPreprocessor.city_lower p) k) new) /\
  (forall k,
     DataPreprocessor.has_key String.eqb
       (DataPreprocessor.country_lookup self') k
     = DataPreprocessor.has_key String.eqb
         (DataPreprocessor.country_lookup self) k
       || existsb (fun p => String.eqb (DataPreprocessor.country_lower p) k)
                  new) /\
  (forall k,
     DataPreprocessor.has_key DataPreprocessor.pair_eqb
       (DataPreprocessor.city_country_lookup self') k
     = DataPreprocessor.has_key DataPreprocessor.pair_eqb
         (DataPreprocessor.city_country_lookup self) k
       || existsb (fun p =>
                     DataPreprocessor.pair_eqb
                       (DataPreprocessor.city_lower p,
                        DataPreprocessor.country_lower p) k) new).

(** The count filed under a location, 0 when there is none. *)
Definition count_at (d : list ((string * string) * Z)) (k : string * string)
  : Z :=
  match find (fun e => DataPreprocessor.pair_eqb (fst e) k) d with
  | Some e => snd e
  | None => 0%Z
  end.

(** How many POIs of a list are at a location. *)
Definition pois_at (pois : list DataPreprocessor.poi) (k : string * string)
  : Z :=
  Py.len (filter (fun p =>
                    DataPreprocessor.pair_eqb
                      (DataPreprocessor.city p, DataPreprocessor.country p) k)
                 pois).

(** What holds of every POI that [load_all_data] builds: a name and a type
    that are not empty, and lookup keys that are the lower case of the city
    and of the country shown. *)
Definition well_formed_poi (p : DataPreprocessor.poi) : Prop :=
  DataPreprocessor.name p <> ""%string /\
  DataPreprocessor.type p <> ""%string /\
  DataPreprocessor.city_lower p = Py.lower (DataPreprocessor.city p) /\
  DataPreprocessor.country_lower p = Py.lower (DataPreprocessor.country p).

End Spec.

(** * Lemmas and theorems *)

(** ** Sorting *)

Section SortedFacts.
Context {A K : Type} (lt : K -> K -> bool) (key : A -> K) (reverse : bool).

Lemma insert_perm (x : A) (l : list A) :
  Permutation (x :: l) (Py.insert lt key reverse x l).
Proof.
  induction l as [| y r IH]; simpl; [reflexivity |].
  destruct (Py.goes_after lt key reverse x y); [| reflexivity].
  rewrite perm_swap. now apply perm_skip.
Qed.

Lemma sorted_perm (l : list A) : Permutation l (Py.sorted lt key reverse l).
Proof.
  induction l as [| x r IH]; simpl; [reflexivity |].
  rewrite <- insert_perm. now apply perm_skip.
Qed.

Lemma sorted_in (x : A) (l : list A) :
  In x (Py.sorted lt key reverse l) <-> In x l.
Proof.
  split; apply Permutation_in;
    [symmetry |]; apply sorted_perm.
Qed.

Lemma sorted_length (l : list A) :
  List.length (Py.sorted lt key reverse l) = List.length l.
Proof. symmetry. apply Permutation_length, sorted_perm. Qed.

(** On keys that [lt] orders as a total preorder does, the result is
    sorted: nothing that has to go after an element stands before it. *)
Variable P : A -> Prop.
Hypothesis asym : forall a b,
  P a -> P b -> Py.goes_after lt key reverse a b = true ->
  Py.goes_after lt key reverse b a = false.
Hypothesis trans : forall a b c,
  P a -> P b -> P c ->
  Py.goes_after lt key reverse a b = false ->
  Py.goes_after lt key reverse b c = false ->
  Py.goes_after lt key reverse a c = false.

Lemma insert_ordered (x : A) (l : list A) :
  P x -> Forall P l -> Spec.ordered lt key reverse l ->
  Spec.ordered lt key reverse (Py.insert lt key reverse x l).
Proof.
  intros Px Pl Hl. induction Hl as [| y r Hr IH Hy]; simpl.
  - constructor; constructor.
  - inversion Pl as [| ? ? Py Pr]; subst.
    destruct (Py.goes_after lt key reverse x y) eqn:E.
    + constructor; [now apply IH |].
      apply (Permutation_Forall (insert_perm x r)).
      constructor; [now apply asym | exact Hy].
    + constructor; [now constructor |].
      constructor; [exact E |].
      rewrite Forall_forall in *. intros z Hz.
      apply (trans x y z); auto.
Qed.

Lemma sorted_ordered (l : list A) :
  Forall P l -> Spec.ordered lt key reverse (Py.sorted lt key reverse l).
Proof.
  induction 1 as [| x r Px Pr IH]; simpl; [constructor |].
  apply insert_ordered; auto.
  apply (Permutation_Forall (sorted_perm r)); exact Pr.
Qed.
End SortedFacts.

(** ** The scoring engine *)

Section NormalizeScore.

Lemma normalize_score_equal_bounds (v lo hi : pyfloat) :
eqb hi lo = true -> Models.normalize_score v lo hi = Ok (Fin 0.5).
Proof.
intros H. unfold Models.normalize_score, Models.normalize_score_body.
now rewrite H.
Qed.

Lemma normalize_score_not_finite (v lo hi : pyfloat) :
isfinite v = false -> eqb hi lo = false ->
Models.normalize_score v lo hi = Ok (Fin 0).
Proof.
intros Hv H. unfold Models.normalize_score, Models.normalize_score_body.
now rewrite H, Hv.
Qed.

Lemma normalize_score_returns (v lo hi : pyfloat) :
exists r, Models.normalize_score v lo hi = Ok r.
Proof.
unfold Models.normalize_score, try_except.
destruct (Models.normalize_score_body v lo hi) as [r | e]; eauto.
Qed.

End NormalizeScore.

(** C9, as stated, fails: [normalize_score(inf, 1.0, 1.0)] is 0.5, not 0.0;
    the test [max_val == min_val] comes first. *)
Lemma normalize_score_inf_equal_bounds :
  isfinite PInf = false /\
  Models.normalize_score PInf (Fin 1) (Fin 1) = Ok (Fin 0.5) /\
  ~ feq (Fin 0.5) (Fin 0).
Proof.
  split; [reflexivity | split; [reflexivity |]].
  simpl. intros H. discriminate H.
Qed.

(** C9 (amended): for every [v] that is not finite and every pair with
    [max != min], [normalize_score(v, min, max)] returns 0.0; with
    [max == min] it returns 0.5, also for such a [v]; and for all float
    arguments it returns a value, it never raises. *)
Theorem normalize_score_not_finite_value :
  forall v min_val max_val : pyfloat,
    (isfinite v = false -> eqb max_val min_val = false ->
     Models.normalize_score v min_val max_val = Ok (Fin 0)) /\
    (isfinite v = false -> eqb max_val min_val = true ->
     Models.normalize_score v min_val max_val = Ok (Fin 0.5)) /\
    (exists r, Models.normalize_score v min_val max_val = Ok r).
Proof.
  intros v lo hi. split; [| split].
  - apply normalize_score_not_finite.
  - intros _. apply normalize_score_equal_bounds.
  - apply normalize_score_returns.
Qed.

Lemma normalize_score_not_finite_value_witness :
  Models.normalize_score NaN (Fin 0) (Fin 1) = Ok (Fin 0) /\
  Models.normalize_score NInf PInf PInf = Ok (Fin 0.5).
Proof.
  split.
  - apply (proj1 (normalize_score_not_finite_value NaN (Fin 0) (Fin 1)));
      reflexivity.
  - apply (proj1 (proj2 (normalize_score_not_finite_value NInf PInf PInf)));
      reflexivity.
Defined.

(** *** The scoring loop *)

Section ScoreLoopFacts.
Variables (sem_vals dist_vals : list pyfloat).
Variables (sem_min sem_max dist_min dist_max : pyfloat).
Variables (ctx : Models.user_ctx) (w : Models.weights).

Lemma semantic_norm_of_returns (c : Models.candidate) :
  exists r, Models.semantic_norm_of sem_vals sem_min sem_max c = Ok r.
Proof.
  unfold Models.semantic_norm_of.
  destruct (Py.nonempty sem_vals); [apply normalize_score_returns | eauto].
Qed.

Lemma distance_norm_of_returns (c : Models.candidate) :
  exists r, Models.distance_norm_of dist_vals dist_min dist_max c = Ok r.
Proof.
  unfold Models.distance_norm_of.
  destruct (Models.distance_km c) as [d |]; [| eauto].
  destruct (Py.nonempty dist_vals); simpl; [| eauto].
  destruct (normalize_score_returns d dist_min dist_max) as [r ->].
  simpl. eauto.
Qed.

(** A turn of the loop returns, and what it returns is built from the two
    normalized signals of the candidate. *)
Lemma score_one_returns (sel : list (option string)) (c : Models.candidate) :
  exists semantic_norm distance_norm,
    Models.semantic_norm_of sem_vals sem_min sem_max c = Ok semantic_norm /\
    Models.distance_norm_of dist_vals dist_min dist_max c = Ok distance_norm /\
    Models.score_one sem_vals dist_vals sem_min sem_max dist_min dist_max
      ctx w sel c =
    Ok (Models.mkItem
          (Models.poi_id c) (Models.city c) (Models.country c) (Models.type c)
          (round3 semantic_norm) (round3 distance_norm)
          (round3 (Models.category_match
                     (Models.type c) (Py.get (Models.interests ctx) [])))
          (round3 (Models.diversity_penalty sel (Models.type c)))
          (round3 (Models.final_score_of w semantic_norm distance_norm
                     (Models.category_match
                        (Models.type c) (Py.get (Models.interests ctx) []))
                     (Models.diversity_penalty sel (Models.type c))))).
Proof.
  destruct (semantic_norm_of_returns c) as [sn Hs].
  destruct (distance_norm_of_returns c) as [dn Hd].
  exists sn, dn. split; [exact Hs | split; [exact Hd |]].
  unfold Models.score_one. rewrite Hs, Hd. reflexivity.
Qed.

(** The loop returns [reranked] extended by one item per candidate; the
    item at position [i] is the one computed for candidate [i] against the
    types of the candidates before it. *)
Lemma score_loop_spec (candidates : list Models.candidate) :
  forall reranked sel,
  exists its,
    Models.score_loop sem_vals dist_vals sem_min sem_max dist_min dist_max
      ctx w candidates reranked sel = Ok (reranked ++ its) /\
    List.length its = List.length candidates /\
    forall i c it,
      nth_error candidates i = Some c -> nth_error its i = Some it ->
      Models.score_one sem_vals dist_vals sem_min sem_max dist_min dist_max
        ctx w (sel ++ map Models.type (firstn i candidates)) c = Ok it.
Proof.
  induction candidates as [| c rest IH]; intros reranked sel.
  - exists []. simpl. rewrite app_nil_r. repeat split; auto.
    intros [| i] ? ? H; discriminate H.
  - destruct (score_one_returns sel c) as (sn & dn & _ & _ & Hone).
    simpl. rewrite Hone. simpl.
    match goal with
    | |- context [Models.score_loop _ _ _ _ _ _ _ _ rest (reranked ++ [?x]) _] =>
        set (it0 := x) in *
    end.
    destruct (IH (reranked ++ [it0]) (sel ++ [Models.type c]))
      as (its & Hloop & Hlen & Hat).
    exists (it0 :: its). split; [| split].
    + rewrite Hloop.
      now rewrite <- app_assoc.
    + simpl. now rewrite Hlen.
    + intros [| i] c' it' Hc Hit; simpl in Hc, Hit.
      * injection Hc as <-. injection Hit as <-.
        simpl. rewrite app_nil_r. exact Hone.
      * specialize (Hat i c' it' Hc Hit).
        simpl. now rewrite <- app_assoc in Hat.
Qed.
End ScoreLoopFacts.

Lemma value_range_returns (vals : list pyfloat) :
  exists lo hi, Models.value_range vals = Ok (lo, hi).
Proof. destruct vals as [| x r]; do 2 eexists; reflexivity. Qed.

(** [score_all] returns one item per candidate, each computed by a turn of
    the loop with the ranges of the whole list. *)
Lemma score_all_spec (candidates : list Models.candidate)
  (ctx : Models.user_ctx) (w : Models.weights) :
  exists sem_min sem_max dist_min dist_max reranked,
    Models.value_range (Models.signal_values Models.semantic candidates)
    = Ok (sem_min, sem_max) /\
    Models.value_range (Models.signal_values Models.distance_km candidates)
    = Ok (dist_min, dist_max) /\
    Models.score_all candidates ctx w = Ok reranked /\
    List.length reranked = List.length candidates /\
    forall i c it,
      nth_error candidates i = Some c -> nth_error reranked i = Some it ->
      Models.score_one
        (Models.signal_values Models.semantic candidates)
        (Models.signal_values Models.distance_km candidates)
        sem_min sem_max dist_min dist_max ctx w
        (map Models.type (firstn i candidates)) c = Ok it.
Proof.
  destruct (value_range_returns
              (Models.signal_values Models.semantic candidates))
    as (sem_min & sem_max & Hs).
  destruct (value_range_returns
              (Models.signal_values Models.distance_km candidates))
    as (dist_min & dist_max & Hd).
  destruct (score_loop_spec
              (Models.signal_values Models.semantic candidates)
              (Models.signal_values Models.distance_km candidates)
              sem_min sem_max dist_min dist_max ctx w candidates [] [])
    as (its & Hloop & Hlen & Hat).
  exists sem_min, sem_max, dist_min, dist_max, its.
  repeat split; auto.
  unfold Models.score_all. rewrite Hs, Hd. simpl. exact Hloop.
Qed.

(** *** Rounding to three decimals *)

Lemma round_half_even_integer (q : Q) (k : Z) :
  q == inject_Z k -> round_half_even q = k.
Proof.
  intros H. unfold round_half_even.
  assert (Qfloor q = k) as -> by (rewrite H; apply Qfloor_Z).
  assert (q - inject_Z k == 0) as -> by (rewrite H; ring).
  reflexivity.
Qed.







(** *** Finite signals and their ranges *)

Lemma isfinite_Fin (x : pyfloat) : isfinite x = true -> exists q, x = Fin q.
Proof. destruct x; simpl; intros H; try discriminate H; eauto. Qed.

Lemma fold_pick_finite (pick : pyfloat -> pyfloat -> bool) (r : list pyfloat) :
  Forall (fun v => isfinite v = true) r ->
  forall x, isfinite x = true ->
  isfinite (fold_left (fun m y => if pick m y then y else m) r x) = true.
Proof.
  induction 1 as [| y r Hy Hr IH]; intros x Hx; simpl; [exact Hx |].
  apply IH. now destruct (pick x y).
Qed.

Lemma value_range_finite (vals : list pyfloat) (lo hi : pyfloat) :
  Forall (fun v => isfinite v = true) vals ->
  Models.value_range vals = Ok (lo, hi) ->
  isfinite lo = true /\ isfinite hi = true.
Proof.
  intros Hv. destruct Hv as [| x r Hx Hr]; unfold Models.value_range; simpl.
  - intros H. injection H as <- <-. split; reflexivity.
  - intros H. injection H as <- <-. split.
    + apply (fold_pick_finite (fun m y => ltb y m)); assumption.
    + apply (fold_pick_finite (fun m y => ltb m y)); assumption.
Qed.

Lemma signal_values_finite (signal : Models.candidate -> option pyfloat)
  (candidates : list Models.candidate) :
  Forall (fun c => Spec.finite_opt (signal c)) candidates ->
  Forall (fun v => isfinite v = true) (Models.signal_values signal candidates).
Proof.
  induction 1 as [| c r Hc Hr IH]; simpl; [constructor |].
  unfold Models.signal_values in *. simpl.
  destruct (signal c) as [v |]; simpl; auto.
Qed.

Lemma ltb_finite_asym (a b : pyfloat) :
  isfinite a = true -> isfinite b = true ->
  ltb a b = true -> ltb b a = false.
Proof.
  intros Ha Hb. destruct (isfinite_Fin _ Ha) as [x ->].
  destruct (isfinite_Fin _ Hb) as [y ->]. simpl.
  intros H. apply negb_true_iff in H. apply negb_false_iff.
  apply Qle_bool_iff. apply Qlt_le_weak, Qnot_le_lt.
  intros L. apply Qle_bool_iff in L. congruence.
Qed.

Lemma ltb_finite_trans (a b c : pyfloat) :
  isfinite a = true -> isfinite b = true -> isfinite c = true ->
  ltb a b = false -> ltb b c = false -> ltb a c = false.
Proof.
  intros Ha Hb Hc. destruct (isfinite_Fin _ Ha) as [x ->].
  destruct (isfinite_Fin _ Hb) as [y ->].
  destruct (isfinite_Fin _ Hc) as [z ->]. simpl.
  rewrite !negb_false_iff, !Qle_bool_iff. intros H1 H2.
  now apply (Qle_trans _ y).
Qed.

(** C4 fails on the semantic side: with semantic signals 0.25 and 0.75 on
    the first two candidates, the third, which has no ["semantic"] key, gets
    the normalized value -0.5 (the default 0.0 rescaled over the range of
    the others), not 0.5. *)
Lemma missing_semantic_is_not_neutral :
  let s v := Models.mkCandidate None None None None v None in
  let candidates := [s (Some (Fin 0.25)); s (Some (Fin 0.75)); s None] in
  exists reranked it,
    Models.score_all candidates (Models.mkCtx None)
                     (Models.mkWeights None None None None) = Ok reranked /\
    nth_error reranked 2 = Some it /\
    feq (Models.item_semantic it) (Fin (- 0.5)) /\
    ~ feq (Models.item_semantic it) (Fin 0.5).
Proof.
  simpl. do 2 eexists.
  split; [vm_compute; reflexivity |].
  split; [reflexivity |].
  split; [reflexivity |].
  simpl. intros H. discriminate H.
Qed.

(** The distance signal is treated the other way: a candidate with no
    ["distance_km"] key gets 0.5 as its normalized distance, whatever the
    other candidates carry. *)
Lemma missing_distance_is_neutral :
  forall (candidates : list Models.candidate) (ctx : Models.user_ctx)
         (w : Models.weights),
  exists reranked,
    Models.score_all candidates ctx w = Ok reranked /\
    forall i c it,
      nth_error candidates i = Some c -> nth_error reranked i = Some it ->
      Models.distance_km c = None ->
      feq (Models.item_distance it) (Fin 0.5).
Proof.
  intros candidates ctx w.
  destruct (score_all_spec candidates ctx w)
    as (smin & smax & dmin & dmax & reranked & _ & _ & Hall & _ & Hat).
  exists reranked. split; [exact Hall |].
  intros i c it Hc Hit Hnone. specialize (Hat i c it Hc Hit).
  destruct (score_one_returns
              (Models.signal_values Models.semantic candidates)
              (Models.signal_values Models.distance_km candidates)
              smin smax dmin dmax ctx w
              (map Models.type (firstn i candidates)) c)
    as (sn & dn & _ & Hdn & Hone).
  rewrite Hone in Hat. injection Hat as <-. simpl.
  unfold Models.distance_norm_of in Hdn. rewrite Hnone in Hdn.
  injection Hdn as <-. vm_compute. reflexivity.
Qed.

(** ** The scoring engine in binary64 arithmetic *)

(** *** Rounding to the nearest double *)

Lemma pow2_pos (k : Z) : 0 < Binary64.pow2 k.
Proof. apply Qpower_0_lt. reflexivity. Qed.

Lemma pow2_add (a b : Z) :
  Binary64.pow2 (a + b) == Binary64.pow2 a * Binary64.pow2 b.
Proof. apply Qpower_plus. discriminate. Qed.

Lemma pow2_le (a b : Z) : (a <= b)%Z -> Binary64.pow2 a <= Binary64.pow2 b.
Proof. intros H. apply Qpower_le_compat_l; [exact H | discriminate]. Qed.

Lemma pow2_Z (k : Z) : (0 <= k)%Z -> Binary64.pow2 k == inject_Z (2 ^ k).
Proof. intros H. unfold Binary64.pow2. now rewrite Zpower_Qpower. Qed.

Lemma pow2_sub (a b : Z) :
  Binary64.pow2 (a - b) == Binary64.pow2 a / Binary64.pow2 b.
Proof.
  unfold Zminus. rewrite pow2_add. unfold Binary64.pow2.
  rewrite Qpower_opp. reflexivity.
Qed.

Lemma floor_log2_spec (q : Q) :
  0 < q ->
  Binary64.pow2 (Binary64.floor_log2 q) <= q
  /\ q < Binary64.pow2 (Binary64.floor_log2 q + 1).
Proof.
  intros Hq. destruct q as [n d]. unfold Binary64.floor_log2. cbn [Qnum Qden].
  assert (0 < n)%Z as Hn by (unfold Qlt in Hq; simpl in Hq; lia).
  pose proof (Z.log2_spec n Hn) as [Hn1 Hn2].
  pose proof (Z.log2_spec (Zpos d) (Pos2Z.is_pos d)) as [Hd1 Hd2].
  pose proof (Z.log2_nonneg n) as Ln.
  pose proof (Z.log2_nonneg (Zpos d)) as Ld.
  set (ln := Z.log2 n) in *. set (ld := Z.log2 (Zpos d)) in *.
  assert (0 < 2 ^ ln)%Z as Pn by (apply Z.pow_pos_nonneg; lia).
  assert (0 < 2 ^ ld)%Z as Pd by (apply Z.pow_pos_nonneg; lia).
  assert (n # d < Binary64.pow2 (ln - ld + 1)) as Hup.
  { replace (ln - ld + 1)%Z with (ln + 1 - ld)%Z by lia.
    rewrite pow2_sub, !pow2_Z by lia.
    apply Qlt_shift_div_l.
    - change 0 with (inject_Z 0). rewrite <- Zlt_Qlt. exact Pd.
    - unfold Qlt, Qmult, inject_Z. simpl.
      rewrite Z.mul_1_r.
      replace (Z.succ ln) with (ln + 1)%Z in Hn2 by lia.
      replace (Z.succ ld) with (ld + 1)%Z in Hd2 by lia.
      nia. }
  assert (Binary64.pow2 (ln - ld - 1) <= n # d) as Hdown.
  { replace (ln - ld - 1)%Z with (ln - (ld + 1))%Z by lia.
    rewrite pow2_sub, !pow2_Z by lia.
    apply Qle_shift_div_r.
    - change 0 with (inject_Z 0). rewrite <- Zlt_Qlt.
      apply Z.pow_pos_nonneg; lia.
    - unfold Qle, Qmult, inject_Z. simpl.
      replace (Z.succ ld) with (ld + 1)%Z in Hd2 by lia.
      nia. }
  destruct (Qle_bool (Binary64.pow2 (ln - ld)) (n # d)) eqn:E.
  - apply Qle_bool_iff in E. split; assumption.
  - split; [exact Hdown |].
    replace (ln - ld - 1 + 1)%Z with (ln - ld)%Z by lia.
    apply Qnot_le_lt. intros H. apply Qle_bool_iff in H. congruence.
Qed.

Lemma floor_log2_mono (a b : Q) :
  0 < a -> a <= b -> (Binary64.floor_log2 a <= Binary64.floor_log2 b)%Z.
Proof.
  intros Ha Hab.
  assert (0 < b) as Hb by lra.
  destruct (floor_log2_spec a Ha) as [A1 A2].
  destruct (floor_log2_spec b Hb) as [B1 B2].
  destruct (Z.le_gt_cases (Binary64.floor_log2 a) (Binary64.floor_log2 b))
    as [H | H]; [exact H | exfalso].
  assert (Binary64.pow2 (Binary64.floor_log2 b + 1)
          <= Binary64.pow2 (Binary64.floor_log2 a)) by (apply pow2_le; lia).
  lra.
Qed.

Lemma round_half_even_cases (x : Q) :
  round_half_even x = Qfloor x \/ round_half_even x = (Qfloor x + 1)%Z.
Proof.
  unfold round_half_even.
  destruct (Qcompare _ _); [destruct (Z.even _) | |]; auto.
Qed.

Lemma round_half_even_mono (a b : Q) :
  a <= b -> (round_half_even a <= round_half_even b)%Z.
Proof.
  intros Hab. pose proof (Qfloor_resp_le a b Hab) as Hf.
  destruct (Z.eq_dec (Qfloor a) (Qfloor b)) as [E | E].
  - unfold round_half_even. rewrite E.
    destruct (Qcompare_spec (a - inject_Z (Qfloor b)) (1 # 2)) as [A | A | A];
      destruct (Qcompare_spec (b - inject_Z (Qfloor b)) (1 # 2)) as [B | B | B];
      try destruct (Z.even (Qfloor b)); try lia; exfalso; lra.
  - destruct (round_half_even_cases a) as [-> | ->];
      destruct (round_half_even_cases b) as [-> | ->]; lia.
Qed.

Lemma round_half_even_le (x : Q) (n : Z) :
  x <= inject_Z n -> (round_half_even x <= n)%Z.
Proof.
  intros H. pose proof (round_half_even_mono x (inject_Z n) H) as M.
  rewrite (round_half_even_integer (inject_Z n) n) in M by reflexivity.
  exact M.
Qed.

Lemma round_half_even_ge (x : Q) (n : Z) :
  inject_Z n <= x -> (n <= round_half_even x)%Z.
Proof.
  intros H. pose proof (round_half_even_mono (inject_Z n) x H) as M.
  rewrite (round_half_even_integer (inject_Z n) n) in M by reflexivity.
  exact M.
Qed.

Lemma quantum_mono (a b : Q) :
  0 < a -> a <= b -> (Binary64.quantum a <= Binary64.quantum b)%Z.
Proof.
  intros Ha Hab. unfold Binary64.quantum.
  pose proof (floor_log2_mono a b Ha Hab). lia.
Qed.

Lemma div_pow2_le (a b : Q) (k : Z) :
  a <= b -> a / Binary64.pow2 k <= b / Binary64.pow2 k.
Proof.
  intros H. unfold Qdiv. apply Qmult_le_compat_r; [exact H |].
  apply Qlt_le_weak, Qinv_lt_0_compat, pow2_pos.
Qed.

Lemma nearest_nonneg (q : Q) : 0 <= q -> 0 <= Binary64.nearest q.
Proof.
  intros Hq. unfold Binary64.nearest. cbv zeta.
  apply Qmult_le_0_compat; [| apply Qlt_le_weak, pow2_pos].
  change 0 with (inject_Z 0). rewrite <- Zle_Qle.
  apply round_half_even_ge. change (inject_Z 0) with 0.
  apply Qle_shift_div_l; [apply pow2_pos | lra].
Qed.

(** The nearest double of a positive rational lies in the closed binade of
    the rational, or below the least normal double. *)
Lemma nearest_above (q : Q) :
  0 < q -> (-1074 < Binary64.quantum q)%Z ->
  Binary64.pow2 (Binary64.quantum q + 52) <= Binary64.nearest q.
Proof.
  intros Hq Hk. destruct (floor_log2_spec q Hq) as [L _].
  unfold Binary64.nearest. cbv zeta.
  assert (Binary64.quantum q + 52 = Binary64.floor_log2 q)%Z as E
    by (unfold Binary64.quantum in *; lia).
  set (k := Binary64.quantum q) in *.
  rewrite (pow2_add k 52), Qmult_comm.
  apply Qmult_le_compat_r; [| apply Qlt_le_weak, pow2_pos].
  rewrite (pow2_Z 52) by lia. rewrite <- Zle_Qle.
  apply round_half_even_ge. rewrite <- (pow2_Z 52) by lia.
  apply Qle_shift_div_l; [apply pow2_pos |].
  rewrite <- pow2_add. replace (52 + k)%Z with (k + 52)%Z by lia.
  now rewrite E.
Qed.

Lemma nearest_below (q : Q) (j : Z) :
  0 < q -> (0 <= j)%Z ->
  (Binary64.floor_log2 q + 1 <= Binary64.quantum q + j)%Z ->
  Binary64.nearest q <= Binary64.pow2 (Binary64.quantum q + j).
Proof.
  intros Hq Hj Hle. destruct (floor_log2_spec q Hq) as [_ U].
  unfold Binary64.nearest. cbv zeta.
  set (k := Binary64.quantum q) in *.
  rewrite (pow2_add k j), (Qmult_comm (Binary64.pow2 k)).
  apply Qmult_le_compat_r; [| apply Qlt_le_weak, pow2_pos].
  rewrite (pow2_Z j) by lia. rewrite <- Zle_Qle.
  apply round_half_even_le. rewrite <- (pow2_Z j) by lia.
  apply Qle_shift_div_r; [apply pow2_pos |].
  rewrite <- pow2_add.
  pose proof (pow2_le _ _ Hle). replace (j + k)%Z with (k + j)%Z by lia. lra.
Qed.

Lemma nearest_mono (a b : Q) :
  0 < a -> a <= b -> Binary64.nearest a <= Binary64.nearest b.
Proof.
  intros Ha Hab. assert (0 < b) as Hb by lra.
  pose proof (quantum_mono a b Ha Hab) as Hk.
  destruct (Z.eq_dec (Binary64.quantum a) (Binary64.quantum b)) as [E | E].
  - unfold Binary64.nearest. cbv zeta. rewrite E.
    apply Qmult_le_compat_r; [| apply Qlt_le_weak, pow2_pos].
    rewrite <- Zle_Qle. apply round_half_even_mono. now apply div_pow2_le.
  - assert (-1074 <= Binary64.quantum a)%Z as Hka
      by (unfold Binary64.quantum; lia).
    assert (Binary64.floor_log2 a - 52 <= Binary64.quantum a)%Z as Hea
      by (unfold Binary64.quantum; lia).
    pose proof (nearest_above b Hb ltac:(lia)) as Hlow.
    pose proof (nearest_below a 53 Ha ltac:(lia) ltac:(lia)) as Hup.
    assert (Binary64.pow2 (Binary64.quantum a + 53)
            <= Binary64.pow2 (Binary64.quantum b + 52))
      by (apply pow2_le; lia).
    lra.
Qed.

Lemma round_pos_mono (a b : Q) :
  0 < a -> a <= b -> Spec.fle (Binary64.round_pos a) (Binary64.round_pos b).
Proof.
  intros Ha Hab. pose proof (nearest_mono a b Ha Hab) as H.
  unfold Binary64.round_pos. cbv zeta.
  destruct (Qle_bool _ (Binary64.nearest b)) eqn:Eb.
  - destruct (Qle_bool _ (Binary64.nearest a)); exact I.
  - destruct (Qle_bool _ (Binary64.nearest a)) eqn:Ea.
    + apply Qle_bool_iff in Ea.
      assert (Qle_bool (Binary64.pow2 1024) (Binary64.nearest b) = true)
        by (apply Qle_bool_iff; lra).
      congruence.
    + cbn [Spec.fle]. now rewrite !Qred_correct.
Qed.

Lemma round_pos_nonneg (q : Q) :
  0 < q -> Spec.fle (Fin 0) (Binary64.round_pos q).
Proof.
  intros Hq. unfold Binary64.round_pos. cbv zeta.
  destruct (Qle_bool _ _); [exact I |]. cbn [Spec.fle]. rewrite Qred_correct.
  apply nearest_nonneg. lra.
Qed.

Lemma round64_zero (q : Q) : q == 0 -> Binary64.round64 q = Fin 0.
Proof.
  intros H. unfold Binary64.round64.
  destruct (Qcompare_spec q 0); [reflexivity | exfalso; lra | exfalso; lra].
Qed.

Lemma round64_pos (q : Q) : 0 < q -> Binary64.round64 q = Binary64.round_pos q.
Proof.
  intros H. unfold Binary64.round64.
  destruct (Qcompare_spec q 0); [exfalso; lra | exfalso; lra | reflexivity].
Qed.

Lemma round64_neg (q : Q) :
  q < 0 -> Binary64.round64 q = neg (Binary64.round_pos (- q)).
Proof.
  intros H. unfold Binary64.round64.
  destruct (Qcompare_spec q 0); [exfalso; lra | reflexivity | exfalso; lra].
Qed.

Lemma fle_neg (x y : pyfloat) : Spec.fle x y -> Spec.fle (neg y) (neg x).
Proof.
  destruct x, y; simpl; auto. intros H. lra.
Qed.

Lemma fle_trans (x y z : pyfloat) :
  Spec.fle x y -> Spec.fle y z -> Spec.fle x z.
Proof.
  destruct x, y, z; simpl; auto; try tauto. intros; lra.
Qed.

(** Rounding to the nearest double keeps the order. *)
Lemma round64_mono (a b : Q) :
  a <= b -> Spec.fle (Binary64.round64 a) (Binary64.round64 b).
Proof.
  intros Hab.
  destruct (Qlt_le_dec 0 a) as [Ha | Ha].
  - rewrite !round64_pos by lra. now apply round_pos_mono.
  - destruct (Qlt_le_dec a 0) as [Ha' | Ha'].
    + rewrite (round64_neg a) by exact Ha'.
      destruct (Qlt_le_dec b 0) as [Hb | Hb].
      * rewrite (round64_neg b) by exact Hb. apply fle_neg.
        apply round_pos_mono; lra.
      * apply (fle_trans _ (Fin 0)).
        -- change (Fin 0) with (neg (Fin 0)). apply fle_neg.
           apply round_pos_nonneg. lra.
        -- destruct (Qlt_le_dec 0 b) as [Hb' | Hb'].
           ++ rewrite round64_pos by exact Hb'. now apply round_pos_nonneg.
           ++ rewrite round64_zero by lra. simpl. lra.
    + rewrite (round64_zero a) by lra.
      destruct (Qlt_le_dec 0 b) as [Hb' | Hb'].
      * rewrite round64_pos by exact Hb'. now apply round_pos_nonneg.
      * rewrite round64_zero by lra. simpl. lra.
Qed.

(** Some doubles, to compare with the interpreter: [0.1]; [0.1 + 0.2], which
    lies above [0.3]; [float(2**53 + 1)]; half of the least positive
    double; an overflow; [round(0.0005, 3)], where the double lies above
    the decimal it was written as. *)
Lemma binary64_landmarks :
  Binary64.lit 0.1 = Fin (3602879701896397 # 36028797018963968) /\
  Binary64.add (Binary64.lit 0.1) (Binary64.lit 0.2)
  = Fin (1351079888211149 # 4503599627370496) /\
  ltb (Binary64.lit 0.3) (Binary64.add (Binary64.lit 0.1) (Binary64.lit 0.2))
  = true /\
  Binary64.of_int (2 ^ 53 + 1) = Fin (inject_Z (2 ^ 53)) /\
  Binary64.round64 (Binary64.pow2 (-1075)) = Fin 0 /\
  Binary64.mul (Binary64.of_int (10 ^ 308)) (Fin 10) = PInf /\
  Binary64.round3 (Binary64.lit 0.0005) = Binary64.lit 0.001.
Proof. repeat split; vm_compute; reflexivity. Qed.

Lemma round64_unit (q : Q) : 0 <= q <= 1 -> in_unit (Binary64.round64 q).
Proof.
  intros [H0 H1].
  pose proof (round64_mono 0 q H0) as A.
  pose proof (round64_mono q 1 H1) as B.
  assert (Binary64.round64 0 = Fin 0) as E0 by (vm_compute; reflexivity).
  assert (Binary64.round64 1 = Fin 1) as E1 by (vm_compute; reflexivity).
  rewrite E0 in A. rewrite E1 in B.
  destruct (Binary64.round64 q); cbn [Spec.fle in_unit] in *; tauto.
Qed.

Lemma round64_not_positive (q : Q) :
  q <= 0 -> Spec.not_positive (Binary64.round64 q).
Proof.
  intros H. pose proof (round64_mono q 0 H) as A.
  assert (Binary64.round64 0 = Fin 0) as E0 by (vm_compute; reflexivity).
  rewrite E0 in A.
  destruct (Binary64.round64 q); cbn [Spec.fle Spec.not_positive] in *; tauto.
Qed.

Lemma round64_not_negative (q : Q) :
  0 <= q -> Spec.fle (Fin 0) (Binary64.round64 q).
Proof.
  intros H. pose proof (round64_mono 0 q H) as A.
  assert (Binary64.round64 0 = Fin 0) as E0 by (vm_compute; reflexivity).
  now rewrite E0 in A.
Qed.

(** A double is a multiple of [2^-1074], the least positive double. *)
Lemma double_on_grid (q : Q) :
  Spec.is_double (Fin q) ->
  exists m : Z, q == inject_Z m * Binary64.pow2 (-1074).
Proof.
  assert (forall p, 0 < p -> Binary64.nearest p == p ->
                    exists m : Z, p == inject_Z m * Binary64.pow2 (-1074))
    as Hpos.
  { intros p Hp E. unfold Binary64.nearest in E. cbv zeta in E.
    set (k := Binary64.quantum p) in *.
    assert (-1074 <= k)%Z as Hk by (unfold k, Binary64.quantum; lia).
    exists (round_half_even (p / Binary64.pow2 k) * 2 ^ (k + 1074))%Z.
    rewrite inject_Z_mult, <- pow2_Z by lia.
    rewrite <- Qmult_assoc, <- pow2_add.
    replace (k + 1074 + -1074)%Z with k by lia. now symmetry. }
  unfold Spec.is_double. cbn [Binary64.rnd].
  destruct (Qlt_le_dec 0 q) as [H | H].
  - rewrite round64_pos by exact H. unfold Binary64.round_pos. cbv zeta.
    destruct (Qle_bool _ _); cbn [feq]; [intros [] |].
    rewrite Qred_correct. now apply Hpos.
  - destruct (Qlt_le_dec q 0) as [H' | H'].
    + rewrite round64_neg by exact H'. unfold Binary64.round_pos. cbv zeta.
      destruct (Qle_bool _ _); cbn [neg feq]; [intros [] |].
      rewrite Qred_correct. intros E.
      destruct (Hpos (- q)) as [m Hm]; [lra | lra |].
      exists (- m)%Z. rewrite inject_Z_opp. lra.
    + intros _. exists 0%Z. change (inject_Z 0) with 0. lra.
Qed.

(** The difference of two doubles that differ does not round to zero. *)
Lemma double_sub_positive (lo hi : Q) :
  Spec.is_double (Fin lo) -> Spec.is_double (Fin hi) -> lo < hi ->
  Binary64.sub (Fin hi) (Fin lo) = PInf
  \/ exists d, Binary64.sub (Fin hi) (Fin lo) = Fin d /\ 0 < d.
Proof.
  intros Hlo Hhi Hlt.
  destruct (double_on_grid lo Hlo) as [ml Eml].
  destruct (double_on_grid hi Hhi) as [mh Emh].
  pose proof (pow2_pos (-1074)) as Hp.
  assert (ml < mh)%Z as Hm.
  { apply Z.lt_nge. intros Hle. rewrite Zle_Qle in Hle.
    assert (inject_Z mh * Binary64.pow2 (-1074)
            <= inject_Z ml * Binary64.pow2 (-1074))
      by (apply Qmult_le_compat_r; [exact Hle | lra]).
    lra. }
  assert (Binary64.pow2 (-1074) <= hi + - lo) as Hge.
  { assert (inject_Z (ml + 1) <= inject_Z mh) as Hq
      by (rewrite <- Zle_Qle; lia).
    rewrite inject_Z_plus in Hq.
    assert ((inject_Z ml + inject_Z 1) * Binary64.pow2 (-1074)
            <= inject_Z mh * Binary64.pow2 (-1074))
      by (apply Qmult_le_compat_r; [exact Hq | lra]).
    change (inject_Z 1) with 1 in *. lra. }
  pose proof (round64_mono _ _ Hge) as Hmono.
  change (Binary64.sub (Fin hi) (Fin lo)) with (Binary64.round64 (hi + - lo)).
  assert (exists p, Binary64.round64 (Binary64.pow2 (-1074)) = Fin p /\ 0 < p)
    as (p & Ep & Hp0)
    by (eexists; split; [vm_compute; reflexivity | reflexivity]).
  rewrite Ep in Hmono.
  destruct (Binary64.round64 (hi + - lo)) as [d | | |];
    cbn [Spec.fle] in Hmono; try tauto.
  right. exists d. split; [reflexivity | lra].
Qed.

(** *** normalize_score *)

Lemma b64_normalize_score_equal_bounds (v lo hi : pyfloat) :
  eqb hi lo = true -> Models64.normalize_score v lo hi = Ok (Fin 0.5).
Proof.
  intros H. unfold Models64.normalize_score, Models64.normalize_score_body.
  now rewrite H.
Qed.

Lemma b64_normalize_score_returns (v lo hi : pyfloat) :
  exists r, Models64.normalize_score v lo hi = Ok r.
Proof.
  unfold Models64.normalize_score, try_except.
  destruct (Models64.normalize_score_body v lo hi) as [r | e]; eauto.
Qed.

(** A value between the bounds is rescaled into [0,1], rounding included,
    when the spread of the bounds does not overflow. *)
Lemma b64_normalize_score_in_unit (v lo hi : Q) :
  lo <= v <= hi ->
  isfinite (Binary64.sub (Fin hi) (Fin lo)) = true ->
  exists r, Models64.normalize_score (Fin v) (Fin lo) (Fin hi) = Ok (Fin r)
            /\ 0 <= r <= 1.
Proof.
  intros [H1 H2] Hfin.
  unfold Models64.normalize_score, Models64.normalize_score_body.
  destruct (eqb (Fin hi) (Fin lo)).
  { exists 0.5. split; [reflexivity | split; discriminate]. }
  cbn [isfinite negb].
  change (Binary64.sub (Fin hi) (Fin lo))
    with (Binary64.round64 (hi + - lo)) in *.
  change (Binary64.sub (Fin v) (Fin lo)) with (Binary64.round64 (v + - lo)).
  assert (0 <= v + - lo) as Hn by lra.
  assert (v + - lo <= hi + - lo) as Hd by lra.
  pose proof (round64_not_negative _ Hn) as A.
  pose proof (round64_mono _ _ Hd) as B.
  destruct (Binary64.round64 (hi + - lo)) as [d | | |]; try discriminate Hfin.
  destruct (Binary64.round64 (v + - lo)) as [n | | |];
    cbn [Spec.fle] in A, B; try tauto.
  unfold Binary64.div. cbn [PyFloat.div].
  destruct (Qeq_bool d 0) eqn:E; cbn [bind try_except].
  - exists 0. split; [reflexivity | split; discriminate].
  - assert (~ d == 0) as Hd0
      by (intros Q; apply Qeq_eq_bool in Q; congruence).
    assert (0 < d) as Hdp by lra.
    assert (in_unit (Binary64.round64 (n / d))) as U.
    { apply round64_unit. split.
      - apply Qle_shift_div_l; [exact Hdp | lra].
      - apply Qle_shift_div_r; [exact Hdp | lra]. }
    cbn [Binary64.rnd].
    destruct (Binary64.round64 (n / d)) as [r | | |]; cbn [in_unit] in U;
      try tauto.
    exists r. split; [reflexivity | exact U].
Qed.

(** C3, as stated, fails: [normalize_score(2.0, 0.0, 1.0)] is [2.0], a
    finite value with [lo < hi] whose result lies outside [0,1]. *)
Lemma normalize_score_extrapolates_out_of_unit :
  isfinite (Fin 2) = true /\ ltb (Fin 0) (Fin 1) = true /\
  Models64.normalize_score (Fin 2) (Fin 0) (Fin 1) = Ok (Fin 2) /\
  ~ in_unit (Fin 2).
Proof.
  split; [reflexivity | split; [reflexivity | split]].
  - vm_compute. reflexivity.
  - cbn [in_unit]. intros [_ H]. now apply Qle_bool_iff in H.
Qed.

(** C3 (amended): [normalize_score(v, lo, hi)] returns 0.5 whenever
    [lo == hi]; for doubles [lo < hi] and a finite [v] it raises nothing and
    returns the quotient [(v - lo) / (hi - lo)] as the interpreter computes
    it, each of the three operations rounded to the nearest double, and not
    clamped; that result lies in [0,1] whenever [lo <= v <= hi] and
    [hi - lo] does not overflow. *)
Theorem normalize_score_range :
  forall (x a b : pyfloat) (v lo hi : Q),
    (eqb b a = true -> Models64.normalize_score x a b = Ok (Fin 0.5)) /\
    (Spec.is_double (Fin lo) -> Spec.is_double (Fin hi) -> lo < hi ->
     exists r,
       Models64.normalize_score (Fin v) (Fin lo) (Fin hi) = Ok r /\
       Binary64.div (Binary64.sub (Fin v) (Fin lo))
                    (Binary64.sub (Fin hi) (Fin lo)) = Ok r /\
       (lo <= v <= hi ->
        isfinite (Binary64.sub (Fin hi) (Fin lo)) = true -> in_unit r)).
Proof.
  intros x a b v lo hi. split.
  - apply b64_normalize_score_equal_bounds.
  - intros Hlo Hhi Hlt.
    assert (eqb (Fin hi) (Fin lo) = false) as Hne.
    { cbn [eqb]. apply not_true_is_false. intros E.
      apply Qeq_bool_eq in E. lra. }
    assert (exists r,
              Binary64.div (Binary64.sub (Fin v) (Fin lo))
                           (Binary64.sub (Fin hi) (Fin lo)) = Ok r)
      as [r Hr].
    { unfold Binary64.div.
      destruct (double_sub_positive lo hi Hlo Hhi Hlt)
        as [-> | (d & -> & Hd)].
      - destruct (Binary64.sub (Fin v) (Fin lo)); cbn; eauto.
      - cbn [PyFloat.div].
        assert (Qeq_bool d 0 = false) as ->.
        { apply not_true_is_false. intros E. apply Qeq_bool_eq in E. lra. }
        destruct (Binary64.sub (Fin v) (Fin lo)); cbn [bind]; eauto. }
    exists r. split; [| split; [exact Hr |]].
    + unfold Models64.normalize_score, Models64.normalize_score_body.
      rewrite Hne. cbn [isfinite negb]. now rewrite Hr.
    + intros Hv Hfin.
      destruct (b64_normalize_score_in_unit v lo hi Hv Hfin)
        as (r' & Hr' & Hu).
      unfold Models64.normalize_score, Models64.normalize_score_body in Hr'.
      rewrite Hne in Hr'. cbn [isfinite negb] in Hr'. rewrite Hr in Hr'.
      cbn [try_except] in Hr'. injection Hr' as ->. exact Hu.
Qed.

Lemma normalize_score_range_witness :
  Models64.normalize_score NaN (Fin 1) (Fin 1) = Ok (Fin 0.5) /\
  exists r,
    Models64.normalize_score (Fin 0.25) (Fin 0) (Fin 1) = Ok r /\
    Binary64.div (Binary64.sub (Fin 0.25) (Fin 0))
                 (Binary64.sub (Fin 1) (Fin 0)) = Ok r /\
    in_unit r.
Proof.
  destruct (normalize_score_range NaN (Fin 1) (Fin 1) 0.25 0 1) as [H1 H2].
  split; [apply H1; reflexivity |].
  destruct H2 as (r & Hr & Hq & Hu).
  - vm_compute. reflexivity.
  - vm_compute. reflexivity.
  - reflexivity.
  - exists r. split; [exact Hr | split; [exact Hq |]].
    apply Hu; [split; discriminate | vm_compute; reflexivity].
Defined.

(** The rounding shows in the result: with a spread of [1e17] the value 2.0
    is rescaled to exactly 1.0, and with the bounds [-1e308] and [1e308] the
    spread overflows and the result is [nan]. *)
Lemma normalize_score_rounds_and_overflows :
  Models64.normalize_score (Fin 2) (Binary64.of_int (- 10 ^ 17)) (Fin 1)
  = Ok (Fin 1) /\
  Models64.normalize_score (Binary64.of_int (10 ^ 308))
                           (Binary64.of_int (- 10 ^ 308))
                           (Binary64.of_int (10 ^ 308))
  = Ok NaN.
Proof. split; vm_compute; reflexivity. Qed.

(** *** The scoring loop *)

Section ScoreLoopFacts64.
Variables (sem_vals dist_vals : list pyfloat).
Variables (sem_min sem_max dist_min dist_max : pyfloat).
Variables (ctx : Models.user_ctx) (w : Models.weights).

(** A turn of the loop returns, and what it returns is built from the two
    normalized signals of the candidate. *)
Lemma b64_score_one_returns (sel : list (option string))
  (c : Models.candidate) :
  exists semantic_norm distance_norm,
    Models64.semantic_norm_of sem_vals sem_min sem_max c = Ok semantic_norm /\
    Models64.distance_norm_of dist_vals dist_min dist_max c
    = Ok distance_norm /\
    Models64.score_one sem_vals dist_vals sem_min sem_max dist_min dist_max
      ctx w sel c =
    Ok (Models.mkItem
          (Models.poi_id c) (Models.city c) (Models.country c) (Models.type c)
          (Binary64.round3 semantic_norm) (Binary64.round3 distance_norm)
          (Binary64.round3
             (Models.category_match
                (Models.type c) (Py.get (Models.interests ctx) [])))
          (Binary64.round3 (Models64.diversity_penalty sel (Models.type c)))
          (Binary64.round3
             (Models64.final_score_of w semantic_norm distance_norm
                (Models.category_match
                   (Models.type c) (Py.get (Models.interests ctx) []))
                (Models64.diversity_penalty sel (Models.type c))))).
Proof.
  assert (exists r, Models64.semantic_norm_of sem_vals sem_min sem_max c
                    = Ok r) as [sn Hs].
  { unfold Models64.semantic_norm_of.
    destruct (Py.nonempty sem_vals);
      [apply b64_normalize_score_returns | eauto]. }
  assert (exists r, Models64.distance_norm_of dist_vals dist_min dist_max c
                    = Ok r) as [dn Hd].
  { unfold Models64.distance_norm_of.
    destruct (Models.distance_km c) as [d |]; [| eauto].
    destruct (Py.nonempty dist_vals); cbn [negb]; [| eauto].
    destruct (b64_normalize_score_returns d dist_min dist_max) as [r ->].
    cbn [bind]. eauto. }
  exists sn, dn. split; [exact Hs | split; [exact Hd |]].
  unfold Models64.score_one. rewrite Hs, Hd. reflexivity.
Qed.

(** The loop returns [reranked] extended by one item per candidate; the
    item at position [i] is the one computed for candidate [i] against the
    types of the candidates before it. *)
Lemma b64_score_loop_spec (candidates : list Models.candidate) :
  forall reranked sel,
  exists its,
    Models64.score_loop sem_vals dist_vals sem_min sem_max dist_min dist_max
      ctx w candidates reranked sel = Ok (reranked ++ its) /\
    List.length its = List.length candidates /\
    forall i c it,
      nth_error candidates i = Some c -> nth_error its i = Some it ->
      Models64.score_one sem_vals dist_vals sem_min sem_max dist_min dist_max
        ctx w (sel ++ map Models.type (firstn i candidates)) c = Ok it.
Proof.
  induction candidates as [| c rest IH]; intros reranked sel.
  - exists []. cbn [Models64.score_loop]. rewrite app_nil_r.
    repeat split; auto. intros [| i] ? ? H; discriminate H.
  - destruct (b64_score_one_returns sel c) as (sn & dn & _ & _ & Hone).
    cbn [Models64.score_loop]. rewrite Hone. cbn [bind].
    match goal with
    | |- context [Models64.score_loop _ _ _ _ _ _ _ _ rest
                    (reranked ++ [?x]) _] =>
        set (it0 := x) in *
    end.
    destruct (IH (reranked ++ [it0]) (sel ++ [Models.type c]))
      as (its & Hloop & Hlen & Hat).
    exists (it0 :: its). split; [| split].
    + rewrite Hloop. now rewrite <- app_assoc.
    + cbn [List.length]. now rewrite Hlen.
    + intros [| i] c' it' Hc Hit; cbn [nth_error] in Hc, Hit.
      * injection Hc as <-. injection Hit as <-.
        cbn [firstn map]. rewrite app_nil_r. exact Hone.
      * specialize (Hat i c' it' Hc Hit).
        cbn [firstn map]. now rewrite <- app_assoc in Hat.
Qed.
End ScoreLoopFacts64.

(** [score_all] returns one item per candidate, each computed by a turn of
    the loop with the ranges of the whole list. *)
Lemma b64_score_all_spec (candidates : list Models.candidate)
  (ctx : Models.user_ctx) (w : Models.weights) :
  exists sem_min sem_max dist_min dist_max reranked,
    Models.value_range (Models.signal_values Models.semantic candidates)
    = Ok (sem_min, sem_max) /\
    Models.value_range (Models.signal_values Models.distance_km candidates)
    = Ok (dist_min, dist_max) /\
    Models64.score_all candidates ctx w = Ok reranked /\
    List.length reranked = List.length candidates /\
    forall i c it,
      nth_error candidates i = Some c -> nth_error reranked i = Some it ->
      Models64.score_one
        (Models.signal_values Models.semantic candidates)
        (Models.signal_values Models.distance_km candidates)
        sem_min sem_max dist_min dist_max ctx w
        (map Models.type (firstn i candidates)) c = Ok it.
Proof.
  destruct (value_range_returns
              (Models.signal_values Models.semantic candidates))
    as (sem_min & sem_max & Hs).
  destruct (value_range_returns
              (Models.signal_values Models.distance_km candidates))
    as (dist_min & dist_max & Hd).
  destruct (b64_score_loop_spec
              (Models.signal_values Models.semantic candidates)
              (Models.signal_values Models.distance_km candidates)
              sem_min sem_max dist_min dist_max ctx w candidates [] [])
    as (its & Hloop & Hlen & Hat).
  exists sem_min, sem_max, dist_min, dist_max, its.
  repeat split; auto.
  unfold Models64.score_all. rewrite Hs, Hd. cbn [bind fst snd]. exact Hloop.
Qed.

(** *** The order of floats that are not nan *)

Lemma ltb_not_nan_asym (a b : pyfloat) : ltb a b = true -> ltb b a = false.
Proof.
  destruct a as [x | | |], b as [y | | |]; cbn [ltb]; try discriminate;
    try reflexivity.
  rewrite negb_true_iff, negb_false_iff. intros H.
  apply Qle_bool_iff. apply Qlt_le_weak, Qnot_le_lt.
  intros L. apply Qle_bool_iff in L. congruence.
Qed.

Lemma ltb_not_nan_trans (a b c : pyfloat) :
  b <> NaN -> ltb a b = false -> ltb b c = false -> ltb a c = false.
Proof.
  destruct a as [x | | |], b as [y | | |], c as [z | | |]; cbn [ltb];
    try discriminate; try reflexivity; try congruence.
  rewrite !negb_false_iff, !Qle_bool_iff. intros _ H1 H2.
  now apply (Qle_trans _ y).
Qed.

(** *** score_items *)

(** C1, as stated, fails: with semantic signals 0.0, 1.0 and 3.0 and the
    default weights, the second candidate has the double nearest to 1/3 as
    its [semantic_norm] and 0.5 as its [distance_norm]; its [final_score]
    is 0.317, the weighted sum rounded to three decimals, and not the
    weighted sum. *)
Lemma final_score_is_not_the_exact_sum :
  let s v := Models.mkCandidate None None None None (Some (Fin v)) None in
  let candidates := [s 0; s 1; s 3] in
  let ctx := Models.mkCtx None in
  let w := Models.mkWeights None None None None in
  exists reranked it semantic_norm distance_norm,
    Models64.score_all candidates ctx w = Ok reranked /\
    nth_error reranked 1 = Some it /\
    Models64.semantic_norm_of [Fin 0; Fin 1; Fin 3] (Fin 0) (Fin 3) (s 1)
    = Ok semantic_norm /\
    Models64.distance_norm_of [] (Fin 0) (Fin 1) (s 1) = Ok distance_norm /\
    Models.item_final_score it = Binary64.lit 0.317 /\
    ~ feq (Models.item_final_score it)
          (Binary64.add
             (Binary64.add
                (Binary64.add
                   (Binary64.mul (Fin 0.5) semantic_norm)
                   (Binary64.mul (Binary64.lit 0.3) distance_norm))
                (Binary64.mul (Binary64.lit 0.15)
                              (Models.category_match None [])))
             (Binary64.mul (Binary64.lit 0.05)
                           (Models64.diversity_penalty [None] None))).
Proof.
  cbv zeta. do 4 eexists.
  split; [vm_compute; reflexivity |].
  split; [reflexivity |].
  split; [vm_compute; reflexivity |].
  split; [reflexivity |].
  split; [vm_compute; reflexivity |].
  vm_compute. intros H. discriminate H.
Qed.

(** C1 (amended): for every candidate list, user context and weight
    configuration, [score_items] gives the candidate at input position [i] a
    [final_score] equal to
    [round(w_sem*semantic_norm + w_dist*distance_norm + w_cat*category_score
    + w_div*diversity_score, 3)], the products and the sum computed in
    double arithmetic on the sub-scores before they are rounded, with the
    default weights 0.5, 0.3, 0.15, 0.05 for a weight that is not supplied;
    it returns the same items reordered, and when no [final_score] is [nan]
    they are sorted by that [final_score], descending. *)
Theorem score_items_weighted_sum_rounded :
  forall (candidates : list Models.candidate) (ctx : Models.user_ctx)
         (w : Models.weights),
  exists sem_min sem_max dist_min dist_max reranked out,
    Models.value_range (Models.signal_values Models.semantic candidates)
    = Ok (sem_min, sem_max) /\
    Models.value_range (Models.signal_values Models.distance_km candidates)
    = Ok (dist_min, dist_max) /\
    Models64.score_all candidates ctx w = Ok reranked /\
    List.length reranked = List.length candidates /\
    (forall i c it,
       nth_error candidates i = Some c -> nth_error reranked i = Some it ->
       exists semantic_norm distance_norm,
         Models64.semantic_norm_of
           (Models.signal_values Models.semantic candidates)
           sem_min sem_max c = Ok semantic_norm /\
         Models64.distance_norm_of
           (Models.signal_values Models.distance_km candidates)
           dist_min dist_max c = Ok distance_norm /\
         Models.item_final_score it =
         Binary64.round3
           (Binary64.add
              (Binary64.add
                 (Binary64.add
                    (Binary64.mul (Py.get (Models.w_semantic w) (Fin 0.5))
                                  semantic_norm)
                    (Binary64.mul
                       (Py.get (Models.w_distance w) (Binary64.lit 0.3))
                       distance_norm))
                 (Binary64.mul
                    (Py.get (Models.w_category w) (Binary64.lit 0.15))
                    (Models.category_match
                       (Models.type c)
                       (Py.get (Models.interests ctx) []))))
              (Binary64.mul
                 (Py.get (Models.w_diversity w) (Binary64.lit 0.05))
                 (Models64.diversity_penalty
                    (map Models.type (firstn i candidates))
                    (Models.type c))))) /\
    Models64.score_items candidates ctx w = Ok out /\
    Permutation reranked out /\
    (Spec.no_nan_score reranked -> Spec.by_final_score_descending out).
Proof.
  intros candidates ctx w.
  destruct (b64_score_all_spec candidates ctx w)
    as (smin & smax & dmin & dmax & reranked & Hs & Hd & Hall & Hlen & Hat).
  exists smin, smax, dmin, dmax, reranked,
    (Py.sorted ltb Models.item_final_score true reranked).
  split; [exact Hs | split; [exact Hd | split; [exact Hall |]]].
  split; [exact Hlen | split; [| split; [| split]]].
  - intros i c it Hc Hit. specialize (Hat i c it Hc Hit).
    destruct (b64_score_one_returns
                (Models.signal_values Models.semantic candidates)
                (Models.signal_values Models.distance_km candidates)
                smin smax dmin dmax ctx w
                (map Models.type (firstn i candidates)) c)
      as (sn & dn & Hsn & Hdn & Hone).
    exists sn, dn. split; [exact Hsn | split; [exact Hdn |]].
    rewrite Hone in Hat. injection Hat as <-. reflexivity.
  - unfold Models64.score_items. now rewrite Hall.
  - apply sorted_perm.
  - intros Hnan. unfold Spec.by_final_score_descending.
    apply (sorted_ordered ltb Models.item_final_score true
             (fun it => Models.item_final_score it <> NaN)).
    + intros a b _ _. apply ltb_not_nan_asym.
    + intros a b c _ Hb _. now apply ltb_not_nan_trans.
    + exact Hnan.
Qed.

Lemma score_items_weighted_sum_rounded_witness :
  let s v t := Models.mkCandidate None None None (Some t) (Some (Fin v)) None in
  let candidates := [s 0 "museum"; s 1 "cafe"; s 3 "museum"]%string in
  let ctx := Models.mkCtx (Some ["cafe"%string]) in
  let w := Models.mkWeights None (Some (Binary64.lit 0.2)) None None in
  exists out,
    Models64.score_items candidates ctx w = Ok out /\
    Spec.by_final_score_descending out.
Proof.
  intros s candidates ctx w.
  destruct (score_items_weighted_sum_rounded candidates ctx w)
    as (smin & smax & dmin & dmax & reranked & out & _ & _ & Hall & _ & _
        & Hout & _ & Hsorted).
  exists out. split; [exact Hout |].
  apply Hsorted.
  vm_compute in Hall. injection Hall as <-.
  repeat constructor; discriminate.
Defined.

(** The rounding decides ranks: with semantic signals 0, 2, 3 and 1000 the
    third candidate's sum, [0.5 * 0.003 + 0.3 * 0.5], is a double just below
    0.1515, its [final_score] is 0.151 and not 0.152, and it ties with the
    second candidate, which keeps its place before it. *)
Lemma score_items_rounds_the_doubles :
  let s i v :=
    Models.mkCandidate (Some i) None None None (Some (Fin v)) None in
  let candidates := [s 1%Z 0; s 2%Z 2; s 3%Z 3; s 4%Z 1000] in
  exists out,
    Models64.score_items candidates (Models.mkCtx None)
                         (Models.mkWeights None None None None) = Ok out /\
    map Models.item_poi_id out = [Some 4; Some 2; Some 3; Some 1]%Z /\
    map Models.item_final_score out
    = [Binary64.lit 0.65; Binary64.lit 0.151; Binary64.lit 0.151;
       Binary64.lit 0.15].
Proof.
  cbv zeta. eexists. split; [vm_compute; reflexivity |].
  split; vm_compute; reflexivity.
Qed.

(** ** The itinerary assembler: selection *)

Lemma mem_Z_In (x : Z) (l : list Z) : Py.mem_Z x l = true <-> In x l.
Proof.
  unfold Py.mem_Z. rewrite existsb_exists. split.
  - intros (y & Hy & E). apply Z.eqb_eq in E. now subst.
  - intros H. exists x. split; [exact H | apply Z.eqb_refl].
Qed.

Lemma In_firstn {A : Type} (n : nat) (l : list A) (x : A) :
  In x (firstn n l) -> In x l.
Proof.
  revert n. induction l as [| a r IH]; intros [| n]; simpl;
    try (intros []; fail).
  intros [H | H]; [now left | right; eauto].
Qed.

(** Distinct identifiers stay distinct in a prefix and in a selection. *)
Lemma distinct_ids_firstn (n : nat) (sel : list Itinerary.candidate) :
  NoDup (map Itinerary.poi_id sel) ->
  NoDup (map Itinerary.poi_id (firstn n sel)).
Proof.
  revert n. induction sel as [| c r IH]; intros [| n] H; simpl;
    try constructor.
  - inversion H as [| ? ? Hnc Hr]; subst. intros Hin. apply Hnc.
    apply in_map_iff in Hin. destruct Hin as (y & Ey & Hy).
    apply in_map_iff. exists y. split; [exact Ey |].
    now apply (In_firstn n).
  - inversion H; subst. now apply IH.
Qed.

Lemma distinct_ids_filter (keep : Itinerary.candidate -> bool)
  (sel : list Itinerary.candidate) :
  NoDup (map Itinerary.poi_id sel) ->
  NoDup (map Itinerary.poi_id (filter keep sel)).
Proof.
  induction sel as [| c r IH]; intros H; simpl; [constructor |].
  inversion H as [| ? ? Hnc Hr]; subst.
  destruct (keep c); simpl; [constructor |]; auto.
  intros Hin. apply Hnc. apply in_map_iff in Hin.
  destruct Hin as (y & Ey & Hy). apply in_map_iff. exists y.
  split; [exact Ey |]. now apply filter_In in Hy.
Qed.

Lemma filter_none {A : Type} (p : A -> bool) (l : list A) :
  (forall x, In x l -> p x = false) -> filter p l = [].
Proof.
  induction l as [| a r IH]; intros H; simpl; [reflexivity |].
  rewrite (H a (or_introl eq_refl)). apply IH. intros x Hx. apply H. now right.
Qed.

(** The fill loop only appends, what it appends comes from the pool, and it
    never appends an identifier it has seen. *)
Lemma fill_loop_appends (pool : list Itinerary.candidate) (plan_size : Z) :
  forall selected seen_ids seen_types,
    (forall x, In x selected -> In (Itinerary.poi_id x) seen_ids) ->
    NoDup (map Itinerary.poi_id selected) ->
    exists extra,
      Itinerary.fill_loop pool plan_size selected seen_ids seen_types
      = selected ++ extra /\
      (forall x, In x extra -> In x pool) /\
      NoDup (map Itinerary.poi_id (selected ++ extra)).
Proof.
  induction pool as [| c rest IH]; intros sel ids types Hseen Hnd; simpl.
  - exists []. rewrite app_nil_r. repeat split; auto; intros ? [].
  - destruct (plan_size <=? Py.len sel)%Z.
    { exists []. rewrite app_nil_r. repeat split; auto; intros ? []. }
    destruct (Py.mem_Z (Itinerary.poi_id c) ids) eqn:Hmem.
    { destruct (IH sel ids types Hseen Hnd) as (extra & E & Hin & Hn).
      exists extra. repeat split; auto. }
    assert (forall x, In x (sel ++ [c]) ->
                      In (Itinerary.poi_id x) (Itinerary.poi_id c :: ids))
      as Hseen'.
    { intros x Hx. apply in_app_or in Hx. destruct Hx as [Hx | [<- | []]].
      - right. now apply Hseen.
      - now left. }
    assert (NoDup (map Itinerary.poi_id (sel ++ [c]))) as Hnd'.
    { rewrite map_app. simpl.
      apply (Permutation_NoDup (Permutation_cons_append _ _)).
      constructor; [| exact Hnd]. intros Hin.
      apply in_map_iff in Hin. destruct Hin as (y & Ey & Hy).
      apply Hseen in Hy. rewrite Ey in Hy. apply mem_Z_In in Hy.
      congruence. }
    assert (forall types',
      exists extra,
        Itinerary.fill_loop rest plan_size (sel ++ [c])
                            (Itinerary.poi_id c :: ids) types'
        = sel ++ extra /\
        (forall x, In x extra -> In x (c :: rest)) /\
        NoDup (map Itinerary.poi_id (sel ++ extra))) as Hadd.
    { intros types'.
      destruct (IH (sel ++ [c]) (Itinerary.poi_id c :: ids) types'
                  Hseen' Hnd') as (extra & E & Hin & Hn).
      exists (c :: extra). rewrite E, <- app_assoc in *. simpl in *.
      repeat split; auto. intros x [<- | Hx]; [now left | right; auto]. }
    destruct (negb (Py.mem_str (Itinerary.type c) types)); [apply Hadd |].
    destruct (Itinerary.count_type sel (Itinerary.type c) <? 2)%Z;
      [apply Hadd |].
    destruct (IH sel ids types Hseen Hnd) as (extra & E & Hin & Hn).
    exists extra. repeat split; auto.
Qed.

Lemma existsb_false_forall {A : Type} (p : A -> bool) (l : list A) :
  existsb p l = false <-> forall x, In x l -> p x = false.
Proof.
  split.
  - intros H x Hx. destruct (p x) eqn:E; [| reflexivity].
    rewrite <- H. symmetry. apply existsb_exists. eauto.
  - intros H. apply not_true_is_false. intros E.
    apply existsb_exists in E. destruct E as (x & Hx & Px).
    rewrite (H x Hx) in Px. discriminate Px.
Qed.

(** What [select_with_hotel] returns, by cases on the pool: [sel] is the
    list [selected] when the fill loop ends. *)
Lemma select_with_hotel_shape (candidates : list Itinerary.candidate)
  (plan_size : Z) (theme : option string) :
  let p := if (plan_size <? 2)%Z then 2%Z else plan_size in
  exists sel,
    NoDup (map Itinerary.poi_id sel) /\
    (forall x, In x sel -> In x candidates) /\
    ((existsb Itinerary.is_hotel candidates = false /\
      (forall x, In x sel -> Itinerary.is_hotel x = false) /\
      Itinerary.select_with_hotel candidates plan_size theme
      = Py.take p (Itinerary.dummy_hotel :: sel))
     \/
     (exists h rest,
        sel = h :: rest /\ Itinerary.is_hotel h = true /\
        existsb Itinerary.is_hotel candidates = true /\
        Itinerary.select_with_hotel candidates plan_size theme
        = Py.take p
            match filter Itinerary.is_hotel sel with
            | first_hotel :: _ :: _ =>
                first_hotel
                :: Py.take (p - 1)
                     (filter (fun s => negb (Itinerary.is_hotel s)) sel)
            | _ => sel
            end)).
Proof.
  intros p. unfold Itinerary.select_with_hotel. fold p.
  set (hotels := Py.sorted ltb Itinerary.score true
                   (filter Itinerary.is_hotel candidates)).
  assert (forall x, In x hotels ->
                    Itinerary.is_hotel x = true /\ In x candidates) as Hhot.
  { intros x Hx. apply sorted_in in Hx. apply filter_In in Hx. tauto. }
  destruct hotels as [| h others] eqn:Eh; simpl hd_error; cbv iota beta.
  - assert (filter Itinerary.is_hotel candidates = []) as Hnone.
    { apply length_zero_iff_nil.
      rewrite <- (sorted_length ltb Itinerary.score true).
      fold hotels. now rewrite Eh. }
    assert (forall x, In x candidates -> Itinerary.is_hotel x = false) as Hno.
    { intros x Hx. destruct (Itinerary.is_hotel x) eqn:E; [| reflexivity].
      assert (In x (filter Itinerary.is_hotel candidates)) as Hin
        by (apply filter_In; tauto).
      rewrite Hnone in Hin. destruct Hin. }
    match goal with
    | |- context [Itinerary.fill_loop ?pool p [] [] []] =>
        destruct (fill_loop_appends pool p [] [] [])
          as (extra & E & Hin & Hnd);
        [intros ? [] | constructor |];
        assert (forall x, In x extra -> In x candidates) as Hsub
          by (intros x Hx; apply Hin, sorted_in, filter_In in Hx; tauto)
    end.
    cbn [app] in E, Hnd. rewrite E.
    assert (forall x, In x extra -> Itinerary.is_hotel x = false) as Hex
      by (intros x Hx; apply Hno, Hsub, Hx).
    exists extra. split; [exact Hnd | split; [exact Hsub |]].
    left. split; [now apply existsb_false_forall | split; [exact Hex |]].
    rewrite (proj2 (existsb_false_forall _ _) Hex). simpl.
    now rewrite (filter_none _ _ Hex).
  - destruct (Hhot h (or_introl eq_refl)) as [Hh Hhc].
    match goal with
    | |- context [Itinerary.fill_loop ?pool p [h] ?ids ?types] =>
        destruct (fill_loop_appends pool p [h] ids types)
          as (extra & E & Hin & Hnd);
        [intros ? [<- | []]; now left | repeat constructor; intros [] |];
        assert (forall x, In x extra -> In x candidates) as Hsub
          by (intros x Hx; apply Hin, sorted_in, filter_In in Hx; tauto)
    end.
    cbn [app] in E, Hnd. rewrite E.
    exists (h :: extra). split; [exact Hnd | split].
    { intros x [<- | Hx]; auto. }
    right. exists h, extra.
    split; [reflexivity | split; [exact Hh | split]].
    { apply existsb_exists. eauto. }
    simpl existsb. rewrite Hh. simpl. reflexivity.
Qed.

Lemma plan_size_at_least_two (plan_size : Z) :
  (2 <= (if (plan_size <? 2)%Z then 2 else plan_size))%Z.
Proof. destruct (Z.ltb_spec plan_size 2); lia. Qed.

Lemma take_cons {A : Type} (p : Z) (x : A) (l : list A) :
  (2 <= p)%Z -> Py.take p (x :: l) = x :: firstn (Z.to_nat (p - 1)) l.
Proof.
  intros Hp. unfold Py.take.
  destruct (Z.leb_spec 0 p); [| lia].
  replace (Z.to_nat p) with (S (Z.to_nat (p - 1))) by lia. reflexivity.
Qed.

Lemma take_firstn {A : Type} (p : Z) (l : list A) :
  (0 <= p)%Z -> Py.take p l = firstn (Z.to_nat p) l.
Proof. intros Hp. unfold Py.take. destruct (Z.leb_spec 0 p); [reflexivity | lia]. Qed.

Lemma no_hotel_in_firstn (n : nat) (l : list Itinerary.candidate) :
  (forall x, In x l -> Itinerary.is_hotel x = false) ->
  filter Itinerary.is_hotel (firstn n l) = [].
Proof.
  intros H. apply filter_none. intros x Hx. apply H. now apply (In_firstn n).
Qed.

Lemma non_hotels_have_no_hotel (l : list Itinerary.candidate) :
  forall x, In x (filter (fun s => negb (Itinerary.is_hotel s)) l) ->
            Itinerary.is_hotel x = false.
Proof. intros x Hx. apply filter_In in Hx. now apply negb_true_iff. Qed.

(** C2: for every candidate pool (empty or not) and every plan size, the
    list [select_with_hotel] returns holds exactly one item of type
    ["hotel"]; when no candidate of the pool is a hotel, its first item is
    the placeholder with [poi_id = -1], name "Hotel check-in / rest" and
    score 0.0. *)
Theorem select_with_hotel_exactly_one_hotel :
  forall (candidates : list Itinerary.candidate) (plan_size : Z)
         (theme : option string),
    List.length
      (filter Itinerary.is_hotel
              (Itinerary.select_with_hotel candidates plan_size theme))
    = 1%nat /\
    (existsb Itinerary.is_hotel candidates = false ->
     exists rest,
       Itinerary.select_with_hotel candidates plan_size theme
       = Itinerary.mkCandidate (-1) "Hotel check-in / rest" "hotel" ""
                               (Some []) (Fin 0) None None
         :: rest).
Proof.
  intros candidates plan_size theme.
  pose proof (plan_size_at_least_two plan_size) as Hp.
  destruct (select_with_hotel_shape candidates plan_size theme)
    as (sel & Hnd & Hsub & [(Hno & Hsel & E) | (h & rest & -> & Hh & Hyes & E)]);
    rewrite E; clear E.
  - rewrite (take_cons _ _ _ Hp). split.
    + simpl. now rewrite (no_hotel_in_firstn _ _ Hsel).
    + intros _. eexists. reflexivity.
  - split; [| intros Hno; congruence].
    simpl filter. rewrite Hh. simpl filter.
    destruct (filter Itinerary.is_hotel rest) as [| h2 more] eqn:Er.
    + rewrite (take_cons _ _ _ Hp). simpl. rewrite Hh. simpl.
      rewrite no_hotel_in_firstn; [reflexivity |].
      intros x Hx. destruct (Itinerary.is_hotel x) eqn:Ex; [| reflexivity].
      assert (In x (filter Itinerary.is_hotel rest)) as Hin
        by (apply filter_In; tauto).
      rewrite Er in Hin. destruct Hin.
    + rewrite (take_cons _ _ _ Hp). simpl. rewrite Hh. simpl.
      rewrite no_hotel_in_firstn; [reflexivity |].
      intros x Hx. rewrite take_firstn in Hx by lia.
      apply In_firstn in Hx. now apply non_hotels_have_no_hotel in Hx.
Qed.

Lemma select_with_hotel_exactly_one_hotel_witness :
  let c i t := Itinerary.mkCandidate i "place" t "" None (Fin 1) None None in
  let pool := [c 7%Z "shop"; c 8%Z "tourist place"; c 9%Z "shop"]%string in
  exists rest,
    Itinerary.select_with_hotel pool 6 None
    = Itinerary.mkCandidate (-1) "Hotel check-in / rest" "hotel" ""
                            (Some []) (Fin 0) None None
      :: rest.
Proof.
  intros c pool.
  apply (proj2 (select_with_hotel_exactly_one_hotel pool 6 None)).
  reflexivity.
Defined.

(** C10: for every candidate list in which no candidate has [poi_id = -1]
    and every plan size, the [poi_id] values of the list
    [select_with_hotel] returns are pairwise distinct, also when the input
    holds an entry more than once. *)
Theorem select_with_hotel_distinct_ids :
  forall (candidates : list Itinerary.candidate) (plan_size : Z)
         (theme : option string),
    (forall c, In c candidates -> Itinerary.poi_id c <> (-1)%Z) ->
    NoDup (map Itinerary.poi_id
               (Itinerary.select_with_hotel candidates plan_size theme)).
Proof.
  intros candidates plan_size theme Hid.
  pose proof (plan_size_at_least_two plan_size) as Hp.
  destruct (select_with_hotel_shape candidates plan_size theme)
    as (sel & Hnd & Hsub & [(Hno & Hsel & E) | (h & rest & -> & Hh & Hyes & E)]);
    rewrite E; clear E.
  - rewrite (take_cons _ _ _ Hp). simpl. constructor.
    + intros Hin. apply in_map_iff in Hin. destruct Hin as (x & Ex & Hx).
      apply In_firstn, Hsub, Hid in Hx. now apply Hx.
    + now apply distinct_ids_firstn.
  - simpl filter. rewrite Hh. simpl filter.
    destruct (filter Itinerary.is_hotel rest) as [| h2 more].
    + rewrite take_firstn by lia. now apply distinct_ids_firstn.
    + rewrite take_firstn by lia. apply distinct_ids_firstn.
      rewrite take_firstn by lia. simpl in Hnd |- *.
      inversion Hnd as [| ? ? Hnh Hr]; subst. constructor.
      * intros Hin. apply Hnh. apply in_map_iff in Hin.
        destruct Hin as (x & Ex & Hx). apply In_firstn, filter_In in Hx.
        apply in_map_iff. exists x. tauto.
      * now apply distinct_ids_firstn, distinct_ids_filter.
Qed.

Lemma select_with_hotel_distinct_ids_witness :
  let c i t s := Itinerary.mkCandidate i "place" t "" None (Fin s) None None in
  let pool := [c 1%Z "hotel" 1; c 2%Z "hotel" 2; c 3%Z "shop" 1;
               c 3%Z "shop" 1; c 4%Z "shop" 1; c 5%Z "shop" 3;
               c 6%Z "other" 1]%string in
  NoDup (map Itinerary.poi_id (Itinerary.select_with_hotel pool 6 None)).
Proof.
  intros c pool.
  apply (select_with_hotel_distinct_ids pool 6 None).
  intros x Hx. simpl in Hx.
  repeat (destruct Hx as [<- | Hx]; [discriminate |]). destruct Hx.
Defined.

(** ** The itinerary assembler: time tiling *)

Lemma snap_down_spec (dt : Z) :
  (Itinerary.snap_down dt <= dt < Itinerary.snap_down dt + 30
   /\ Itinerary.snap_down dt mod 30 = 0)%Z.
Proof.
  unfold Itinerary.snap_down, Itinerary.minute_of.
  destruct (Z.ltb_spec (dt mod 60) 30);
    Z.to_euclidean_division_equations; lia.
Qed.

Lemma snap_up_spec (dt : Z) :
  (dt <= Itinerary.snap_up dt < dt + 30
   /\ Itinerary.snap_up dt mod 30 = 0)%Z.
Proof.
  unfold Itinerary.snap_up, Itinerary.minute_of.
  destruct (Z.eqb_spec (dt mod 60) 0);
    [| destruct (Z.leb_spec (dt mod 60) 30)];
    Z.to_euclidean_division_equations; lia.
Qed.

Lemma ceil_div_covers (a b : Z) :
  (0 < b -> a <= Itinerary.ceil_div a b * b)%Z.
Proof.
  intros Hb. unfold Itinerary.ceil_div.
  Z.to_euclidean_division_equations; nia.
Qed.

Lemma ceil_div_multiple (a : Z) : ((Itinerary.ceil_div a 30 * 30) mod 30 = 0)%Z.
Proof. apply Z.mod_mul. lia. Qed.

Section Tiling.
Variables (a b step : Z) (n : nat).
Hypothesis Hstep : (0 < step)%Z.
Hypothesis Hcover : (b - a <= Z.of_nat n * step)%Z.

Lemma slots_after_end (t k0 : nat) :
  (b <= a + Z.of_nat k0 * step)%Z ->
  map Spec.print_slot
      (map (fun k => Spec.slot_at a b step (Z.of_nat k)) (seq k0 t))
  = repeat (Itinerary.strftime b, Itinerary.strftime b) t.
Proof.
  revert k0. induction t as [| t IH]; intros k0 Hk; simpl; [reflexivity |].
  rewrite IH by nia. f_equal.
  unfold Spec.print_slot, Spec.slot_at. simpl.
  rewrite !Z.min_r by nia. reflexivity.
Qed.

(** The loop from turn [i] on, followed by the padding, writes the slots
    of index [i] and above. *)
Lemma slot_loop_tiles (todo : nat) :
  forall (i : nat) (slots : list (string * string)),
    (i + todo = n)%nat ->
    List.length slots = i ->
    (a + Z.of_nat i * step < b)%Z ->
    Itinerary.pad_slots (Z.of_nat n) b
      (Itinerary.slot_loop todo (Z.of_nat n) step b (Z.of_nat i)
                           (a + Z.of_nat i * step)%Z slots)
    = slots ++ map Spec.print_slot
                   (map (fun k => Spec.slot_at a b step (Z.of_nat k))
                        (seq i todo)).
Proof.
  induction todo as [| t IH]; intros i slots Hn Hlen Hcur.
  - simpl. unfold Itinerary.pad_slots, Py.len.
    replace (Z.to_nat (Z.of_nat n - Z.of_nat (List.length slots))) with 0%nat
      by lia.
    reflexivity.
  - simpl Itinerary.slot_loop. cbv zeta.
    match goal with
    | |- context [Itinerary.strftime ?x] =>
        lazymatch x with
        | (if _ then _ else _) => set (nxt := x)
        end
    end.
    assert (nxt = Z.min (a + (Z.of_nat i + 1) * step) b) as Hnxt.
    { unfold nxt.
      destruct (Z.eqb_spec (Z.of_nat i) (Z.of_nat n - 1)); simpl.
      - rewrite Z.min_r; [reflexivity | nia].
      - destruct (Z.ltb_spec b (a + Z.of_nat i * step + step)); lia. }
    assert ((Itinerary.strftime (a + Z.of_nat i * step)%Z,
             Itinerary.strftime nxt)
            = Spec.print_slot (Spec.slot_at a b step (Z.of_nat i))) as Hslot.
    { unfold Spec.print_slot, Spec.slot_at. simpl.
      rewrite Hnxt. rewrite (Z.min_l (a + Z.of_nat i * step)%Z) by lia.
      reflexivity. }
    rewrite Hslot.
    destruct (Z.leb_spec b nxt) as [Hend | Hgo].
    + unfold Itinerary.pad_slots, Py.len. rewrite length_app. simpl.
      replace (Z.to_nat (Z.of_nat n - Z.of_nat (List.length slots + 1)))
        with t by lia.
      rewrite <- app_assoc. simpl. do 2 f_equal.
      symmetry. apply slots_after_end. lia.
    + assert (nxt = a + Z.of_nat (S i) * step)%Z as Hn' by lia.
      rewrite Hn'.
      replace (Z.of_nat i + 1)%Z with (Z.of_nat (S i)) by lia.
      rewrite IH; [| lia | rewrite length_app; simpl; lia | lia].
      now rewrite <- app_assoc.
Qed.
End Tiling.

Lemma two_digits_half_hour (h : nat) (m : Z) :
  (h < 24)%nat -> m = 0%Z \/ m = 30%Z ->
  Spec.half_hour_string
    (Py.two_digits (Z.of_nat h) ++ ":" ++ Py.two_digits m) = true.
Proof.
  intros Hh [-> | ->];
    do 24 (destruct h as [| h]; [vm_compute; reflexivity |]); lia.
Qed.

Lemma strftime_half_hour (dt : Z) :
  (dt mod 30 = 0)%Z -> Spec.half_hour_string (Itinerary.strftime dt) = true.
Proof.
  intros H. unfold Itinerary.strftime.
  assert (0 <= (dt / 60) mod 24 < 24)%Z as Hh by (apply Z.mod_pos_bound; lia).
  rewrite <- (Z2Nat.id ((dt / 60) mod 24)) by lia.
  apply two_digits_half_hour; [lia |].
  Z.to_euclidean_division_equations; lia.
Qed.

Lemma multiple_of_30 (x : Z) : (x mod 30 = 0 <-> (30 | x))%Z.
Proof. apply Z.mod_divide. lia. Qed.

Lemma contiguous_cons (p q : string * string) (r : list (string * string)) :
  Spec.contiguous (p :: q :: r)
  = String.eqb (snd p) (fst q) && Spec.contiguous (q :: r).
Proof. reflexivity. Qed.

Section TilingFacts.
Variables (a b step : Z).
Hypothesis Ha : (a mod 30 = 0)%Z.
Hypothesis Hb : (b mod 30 = 0)%Z.
Hypothesis Hs : (step mod 30 = 0)%Z.
Hypothesis Hstep : (0 < step)%Z.

Lemma slot_at_aligned (k : Z) :
  (fst (Spec.slot_at a b step k) mod 30 = 0
   /\ snd (Spec.slot_at a b step k) mod 30 = 0
   /\ fst (Spec.slot_at a b step k) <= snd (Spec.slot_at a b step k))%Z.
Proof.
  unfold Spec.slot_at. cbn [fst snd].
  assert (forall j, ((a + j * step) mod 30 = 0)%Z) as Hj.
  { intros j. apply multiple_of_30.
    apply Z.divide_add_r; [now apply multiple_of_30 |].
    apply Z.divide_mul_r. now apply multiple_of_30. }
  split; [| split].
  - destruct (Z.min_spec (a + k * step) b) as [[_ ->] | [_ ->]]; auto.
  - destruct (Z.min_spec (a + (k + 1) * step) b) as [[_ ->] | [_ ->]]; auto.
  - apply Z.min_le_compat_r. nia.
Qed.

Lemma tiling_aligned (n : nat) :
  Forall (fun p => (fst p mod 30 = 0 /\ snd p mod 30 = 0 /\ fst p <= snd p)%Z)
         (Spec.tiling a b step n).
Proof.
  unfold Spec.tiling. apply Forall_forall. intros p Hp.
  apply in_map_iff in Hp. destruct Hp as (k & <- & _).
  apply slot_at_aligned.
Qed.

Lemma tiling_half_hours (n : nat) :
  Forall (fun p => Spec.half_hour_string (fst p)
                   && Spec.half_hour_string (snd p) = true)
         (map Spec.print_slot (Spec.tiling a b step n)).
Proof.
  apply Forall_forall. intros p Hp.
  apply in_map_iff in Hp. destruct Hp as (q & <- & Hq).
  pose proof (tiling_aligned n) as Hall.
  rewrite Forall_forall in Hall. destruct (Hall q Hq) as (H1 & H2 & _).
  unfold Spec.print_slot. cbn [fst snd].
  now rewrite !strftime_half_hour.
Qed.

Lemma tiling_contiguous_from (t k0 : nat) :
  Spec.contiguous
    (map Spec.print_slot
         (map (fun k => Spec.slot_at a b step (Z.of_nat k)) (seq k0 t)))
  = true.
Proof.
  revert k0. induction t as [| t IH]; intros k0; [reflexivity |].
  destruct t as [| t]; [reflexivity |].
  specialize (IH (S k0)).
  change (seq k0 (S (S t))) with (k0 :: seq (S k0) (S t)).
  change (seq (S k0) (S t)) with (S k0 :: seq (S (S k0)) t) in *.
  cbn [map] in *. rewrite contiguous_cons, IH, andb_true_r.
  unfold Spec.print_slot, Spec.slot_at. cbn [fst snd].
  replace (Z.of_nat (S k0)) with (Z.of_nat k0 + 1)%Z by lia.
  apply String.eqb_refl.
Qed.

Lemma tiling_nth (n : nat) (k : Z) :
  (0 <= k < Z.of_nat n)%Z ->
  nth (Z.to_nat k) (Spec.tiling a b step n) (b, b) = Spec.slot_at a b step k.
Proof.
  intros Hk. unfold Spec.tiling.
  rewrite (nth_indep _ (b, b) (Spec.slot_at a b step (Z.of_nat 0)))
    by (rewrite length_map, length_seq; lia).
  rewrite (map_nth (fun k => Spec.slot_at a b step (Z.of_nat k))).
  rewrite seq_nth by lia. simpl. now rewrite Z2Nat.id by lia.
Qed.

Lemma tiling_last (n : nat) :
  (0 < n)%nat -> (b - a <= Z.of_nat n * step)%Z ->
  snd (last (Spec.tiling a b step n) (b, b)) = b.
Proof.
  intros Hn Hcover. destruct n as [| m]; [lia |].
  unfold Spec.tiling. rewrite seq_S, map_app. simpl.
  rewrite last_last. unfold Spec.slot_at. simpl.
  apply Z.min_r. lia.
Qed.
End TilingFacts.

Lemma ceil_div_spec (x y : Z) :
  (0 < y ->
   (Itinerary.ceil_div x y - 1) * y < x <= Itinerary.ceil_div x y * y)%Z.
Proof.
  intros Hy. unfold Itinerary.ceil_div.
  Z.to_euclidean_division_equations; nia.
Qed.

Lemma step_spec (total n : Z) :
  (0 < n -> 0 < total ->
   let step := Z.max 30 (Itinerary.ceil_div (Itinerary.ceil_div total n) 30 * 30) in
   0 < step /\ step mod 30 = 0 /\ total <= n * step)%Z.
Proof.
  intros Hn Ht step.
  pose proof (ceil_div_covers total n Hn) as H1.
  pose proof (ceil_div_covers (Itinerary.ceil_div total n) 30 eq_refl) as H2.
  split; [lia | split].
  - unfold step.
    destruct (Z.max_spec 30 (Itinerary.ceil_div (Itinerary.ceil_div total n) 30 * 30))
      as [[_ ->] | [_ ->]]; [apply ceil_div_multiple | reflexivity].
  - assert (Itinerary.ceil_div total n <= step)%Z by (unfold step; lia).
    nia.
Qed.

(** The loop and the padding of [build_time_slots], then the cut to [n]
    slots: the tiling in closed form. *)
Lemma loop_and_padding (a b step : Z) (n : nat) :
  (0 < step)%Z -> (b - a <= Z.of_nat n * step)%Z -> (a < b)%Z ->
  Py.take (Z.of_nat n)
    (Itinerary.pad_slots (Z.of_nat n) b
       (Itinerary.slot_loop n (Z.of_nat n) step b 0 a []))
  = map Spec.print_slot (Spec.tiling a b step n).
Proof.
  intros Hstep Hcover Hlt.
  pose proof (slot_loop_tiles a b step n Hstep Hcover n 0 [] eq_refl eq_refl)
    as H.
  replace (a + Z.of_nat 0 * step)%Z with a in H by lia.
  change (Z.of_nat 0) with 0%Z in H.
  rewrite H by lia. cbn [app]. rewrite take_firstn by lia.
  rewrite Nat2Z.id. apply firstn_all2.
  unfold Spec.tiling. now rewrite !length_map, length_seq.
Qed.

(** C6: [build_time_slots] snaps the start down and the end up to a
    half-hour boundary, returns no slot when [n <= 0] or the day is empty,
    and otherwise returns exactly [n] slots, the slot of index [k] running
    from [min(start + k*step, end)] to [min(start + (k+1)*step, end)] with
    [step = max(30, ceil(ceil(total_minutes/n)/30)*30)]: the last one ends
    at the day end, the slots past the day end are zero-width slots at the
    end time, every boundary prints as HH:00 or HH:30, and each slot starts
    where the one before it ends.  In particular
    [build_time_slots("09:00", "22:00", 6)] is 09:00-11:30, 11:30-14:00,
    14:00-16:30, 16:30-19:00, 19:00-21:30, 21:30-22:00. *)
Theorem build_time_slots_tiles_the_day :
  (forall (start_time end_time : string) (n st en : Z),
     Itinerary.strptime start_time = Ok st ->
     Itinerary.strptime end_time = Ok en ->
     let a := Itinerary.snap_down st in
     let b := Itinerary.snap_up en in
     let step :=
       Z.max 30 (Itinerary.ceil_div (Itinerary.ceil_div (Z.max 0 (b - a)) n) 30
                 * 30) in
     let slots := Spec.tiling a b step (Z.to_nat n) in
     (a <= st < a + 30 /\ a mod 30 = 0)%Z /\
     (en <= b < en + 30 /\ b mod 30 = 0)%Z /\
     ((n <= 0 \/ b <= a)%Z ->
      Itinerary.build_time_slots start_time end_time n = Ok []) /\
     ((0 < n)%Z -> (a < b)%Z ->
      Itinerary.build_time_slots start_time end_time n
      = Ok (map Spec.print_slot slots) /\
      List.length slots = Z.to_nat n /\
      (forall k, (0 <= k < n)%Z ->
         nth (Z.to_nat k) slots (b, b)
         = (Z.min (a + k * step) b, Z.min (a + (k + 1) * step) b)) /\
      (forall k, (0 <= k < n)%Z -> (b <= a + k * step)%Z ->
         nth (Z.to_nat k) slots (b, b) = (b, b)) /\
      snd (last slots (b, b)) = b /\
      Forall (fun p => (fst p mod 30 = 0 /\ snd p mod 30 = 0
                        /\ fst p <= snd p)%Z) slots /\
      Forall (fun p => Spec.half_hour_string (fst p)
                       && Spec.half_hour_string (snd p) = true)
             (map Spec.print_slot slots) /\
      Spec.contiguous (map Spec.print_slot slots) = true)) /\
  (let slots := [("09:00", "11:30"); ("11:30", "14:00"); ("14:00", "16:30");
                 ("16:30", "19:00"); ("19:00", "21:30");
                 ("21:30", "22:00")]%string in
   Itinerary.build_time_slots "09:00" "22:00" 6 = Ok slots /\
   Forall (fun p => Spec.half_hour_string (fst p)
                    && Spec.half_hour_string (snd p) = true) slots /\
   Spec.contiguous slots = true /\
   Forall (fun p => Spec.not_later (fst p) (snd p) = true) slots /\
   snd (last slots (""%string, ""%string)) = "22:00"%string).
Proof.
  split.
  - intros start_time end_time n st en Hst Hen a b step slots.
    destruct (snap_down_spec st) as [Ha1 Ha2].
    destruct (snap_up_spec en) as [Hb1 Hb2].
    fold a in Ha1, Ha2. fold b in Hb1, Hb2.
    split; [auto | split; [auto | split]].
    + intros Hempty. unfold Itinerary.build_time_slots.
      rewrite Hst, Hen. cbn [bind]. fold a b.
      destruct (Z.leb_spec n 0) as [Hn | Hn]; [reflexivity |].
      destruct (Z.eqb_spec (Z.max 0 (b - a)) 0) as [Ht | Ht];
        [reflexivity | lia].
    + intros Hn Hlt.
      assert (Z.max 0 (b - a) = b - a)%Z as Htot by lia.
      destruct (step_spec (b - a) n Hn ltac:(lia)) as (Hs0 & Hs30 & Hcov).
      subst slots step. rewrite Htot.
      split; [| split; [| split; [| split; [| split; [| split; [| split]]]]]].
      * unfold Itinerary.build_time_slots.
        rewrite Hst, Hen. cbn [bind]. fold a b. rewrite Htot.
        destruct (Z.leb_spec n 0) as [Hn0 | _]; [lia |].
        destruct (Z.eqb_spec (b - a) 0) as [Ht | _]; [lia |].
        cbn [orb]. f_equal.
        assert (n = Z.of_nat (Z.to_nat n)) as En by lia.
        set (m := Z.to_nat n) in *. clearbody m. subst n.
        apply loop_and_padding; [exact Hs0 | lia | exact Hlt].
      * unfold Spec.tiling. now rewrite length_map, length_seq.
      * intros k Hk. apply tiling_nth. lia.
      * intros k Hk Hpast. rewrite tiling_nth by lia.
        unfold Spec.slot_at. rewrite !Z.min_r by nia. reflexivity.
      * apply tiling_last; [lia | lia].
      * now apply tiling_aligned.
      * now apply tiling_half_hours.
      * apply tiling_contiguous_from.
  - cbv zeta. split; [vm_compute; reflexivity |].
    split; [repeat constructor |].
    split; [reflexivity |].
    split; [repeat constructor | reflexivity].
Qed.

Lemma build_time_slots_tiles_the_day_witness :
  Itinerary.build_time_slots "09:40" "17:45" 4
  = Ok (map Spec.print_slot (Spec.tiling 570 1080 150 4)) /\
  Itinerary.build_time_slots "12:00" "10:00" 3 = Ok [].
Proof.
  destruct build_time_slots_tiles_the_day as [Hgen _].
  split.
  - destruct (Hgen "09:40" "17:45" 4 580 1065 eq_refl eq_refl)%string%Z
      as (_ & _ & _ & Htile).
    apply Htile; reflexivity.
  - destruct (Hgen "12:00" "10:00" 3 720 600 eq_refl eq_refl)%string%Z
      as (_ & _ & Hempty & _).
    apply Hempty. right. vm_compute. discriminate.
Defined.

(** ** The location index *)

Lemma contains_empty (s : string) : Py.contains "" s = true.
Proof. destruct s; reflexivity. Qed.

Lemma StronglySorted_filter {A : Type} (R : A -> A -> Prop) (p : A -> bool)
  (l : list A) :
  StronglySorted R l -> StronglySorted R (filter p l).
Proof.
  induction 1 as [| a r Hr IH Ha]; simpl; [constructor |].
  destruct (p a); [constructor |]; auto.
  rewrite Forall_forall in *. intros x Hx. apply Ha.
  now apply filter_In in Hx.
Qed.

Lemma StronglySorted_firstn {A : Type} (R : A -> A -> Prop) (n : nat)
  (l : list A) :
  StronglySorted R l -> StronglySorted R (firstn n l).
Proof.
  intros H. revert n. induction H as [| a r Hr IH Ha]; intros [| n]; simpl;
    try constructor; auto.
  rewrite Forall_forall in *. intros x Hx. apply Ha.
  now apply (In_firstn n).
Qed.

(** Whatever was loaded, the list of locations is in the order of the
    counts, the largest first. *)
Lemma available_locations_sorted (self : DataPreprocessor.preprocessor) :
  Spec.reachable self ->
  Spec.by_count_descending (DataPreprocessor.available_locations self).
Proof.
  induction 1 as [| db self lang Hr IH]; [constructor |].
  unfold DataPreprocessor.load_all_data.
  destruct (db lang) as [rows | e]; [| exact IH].
  destruct (Py.nonempty rows); [| exact IH]. simpl.
  unfold Spec.by_count_descending.
  match goal with
  | |- StronglySorted _ (Py.sorted _ ?key true ?l) =>
      pose proof (sorted_ordered Z.ltb key true (fun _ => True)) as Hs;
      specialize (Hs ltac:(unfold Py.goes_after; intros; lia)
                     ltac:(unfold Py.goes_after; intros; lia) l);
      specialize (Hs ltac:(apply Forall_forall; auto))
  end.
  eapply StronglySorted_ind with (P := fun l => StronglySorted _ l);
    [constructor | | exact Hs].
  intros a l Hl IHl Ha. constructor; [exact IHl |].
  eapply Forall_impl; [| exact Ha]. unfold Py.goes_after.
  intros x Hx. cbv beta in Hx. lia.
Qed.

(** C8: for every partial city text and partial country text, the entries
    [get_location_suggestions] returns are entries of the location list
    whose city contains the partial city text or whose country contains the
    partial country text, letter case aside; there are at most 20 of them;
    and they are in the order of the POI counts, descending. *)
Theorem get_location_suggestions_filters_caps_and_orders :
  forall (self : DataPreprocessor.preprocessor)
         (partial_city partial_country : string),
    Spec.reachable self ->
    let out :=
      DataPreprocessor.get_location_suggestions self partial_city
                                                partial_country in
    (forall city country count,
       In (city, country, count) out ->
       In (city, country, count) (DataPreprocessor.available_locations self)
       /\ (Py.contains (Py.lower partial_city) (Py.lower city) = true
           \/ Py.contains (Py.lower partial_country) (Py.lower country)
              = true)) /\
    (List.length out <= 20)%nat /\
    Spec.by_count_descending out.
Proof.
  intros self pc pco Hr out. subst out.
  unfold DataPreprocessor.get_location_suggestions.
  split; [| split].
  - intros city country count Hin.
    apply In_firstn, filter_In in Hin. destruct Hin as [Hin Hmatch].
    split; [exact Hin |].
    cbv beta iota in Hmatch.
    apply orb_true_iff in Hmatch. destruct Hmatch as [H | H];
      [left | right]; apply orb_true_iff in H; destruct H as [H | H]; auto.
    + destruct (Py.lower pc); [apply contains_empty | discriminate H].
    + destruct (Py.lower pco); [apply contains_empty | discriminate H].
  - apply firstn_le_length.
  - apply StronglySorted_firstn, StronglySorted_filter.
    now apply available_locations_sorted.
Qed.

Lemma get_location_suggestions_filters_caps_and_orders_witness :
  let r i n ci co :=
    DataPreprocessor.mkRow i (Some n) (Some "museum"%string) None
                           (Some ci) (Some co) in
  let db : DataPreprocessor.database :=
    fun _ => Ok [r 1%Z "Louvre" "Paris" "France";
                 r 2%Z "Egyptian Museum" "Cairo" "Egypt";
                 r 3%Z "Citadel" " Cairo" "Egypt"]%string in
  let self :=
    snd (DataPreprocessor.load_all_data db DataPreprocessor.init "en") in
  let out := DataPreprocessor.get_location_suggestions self "PAR" "gyp" in
  (List.length out <= 20)%nat /\ Spec.by_count_descending out.
Proof.
  intros r db self out.
  apply (get_location_suggestions_filters_caps_and_orders self "PAR" "gyp").
  apply Spec.reach_load, Spec.reach_init.
Defined.

(** ** build_itinerary without places *)

(** When the data cannot be loaded the lookup is not reached: the result
    has no day either, and says so. *)
Lemma build_itinerary_load_failure
  (db : DataPreprocessor.database) (w w1 : Itinerary.world)
  (city country lang : string) (plan_size : option Z)
  (start_time end_time : string) (theme : option string) :
  Itinerary.ensure_initialized db w = (false, w1) ->
  Itinerary.build_itinerary db w city country lang plan_size
                            start_time end_time theme
  = (Ok (Itinerary.mkItinerary 0 ("Trip in " ++ city) "Failed to load data" []),
     w1).
Proof.
  intros H. unfold Itinerary.build_itinerary. rewrite H. reflexivity.
Qed.

(** C7: when the data is initialized and the lookup of the requested
    (city, country) finds no POI, [build_itinerary] returns (it does not
    raise) an itinerary with [days_count = 0], no day, and the description
    "No places found for <city>, <country>". *)
Theorem build_itinerary_no_places :
  forall (db : DataPreprocessor.database) (w w1 : Itinerary.world)
         (city country lang : string) (plan_size : option Z)
         (start_time end_time : string) (theme : option string),
    Itinerary.ensure_initialized db w = (true, w1) ->
    fst (DataPreprocessor.find_pois_for_location
           db (Itinerary.preprocessor w1) city country) = [] ->
    exists it,
      fst (Itinerary.build_itinerary db w city country lang plan_size
                                     start_time end_time theme) = Ok it /\
      Itinerary.days_count it = 0%Z /\
      Itinerary.days it = [] /\
      Itinerary.short_description it
      = ("No places found for " ++ city ++ ", " ++ country)%string /\
      Itinerary.itinerary_name it = ("Trip in " ++ city)%string.
Proof.
  intros db w w1 city country lang plan_size start_time end_time theme
         Hinit Hnone.
  unfold Itinerary.build_itinerary. rewrite Hinit. cbn [negb].
  destruct (DataPreprocessor.find_pois_for_location
              db (Itinerary.preprocessor w1) city country)
    as [pois_data pre].
  cbn [fst] in Hnone. subst pois_data. cbn [Py.nonempty negb fst].
  eexists. split; [reflexivity |]. repeat split.
Qed.

Lemma build_itinerary_no_places_witness :
  let r i n ci co :=
    DataPreprocessor.mkRow i (Some n) (Some "museum"%string) None
                           (Some ci) (Some co) in
  let db : DataPreprocessor.database :=
    fun _ => Ok [r 1%Z "Louvre" "Paris" "France";
                 r 2%Z "Egyptian Museum" "Cairo" "Egypt"]%string in
  let w := Itinerary.mkWorld DataPreprocessor.init false in
  exists it,
    fst (Itinerary.build_itinerary db w "Atlantis" "Nowhere" "en" None
                                   "09:00" "22:00" None) = Ok it /\
    Itinerary.days_count it = 0%Z /\
    Itinerary.days it = [] /\
    Itinerary.short_description it
    = "No places found for Atlantis, Nowhere"%string /\
    Itinerary.itinerary_name it = "Trip in Atlantis"%string.
Proof.
  intros r db w.
  apply (build_itinerary_no_places db w (snd (Itinerary.ensure_initialized db w))
           "Atlantis" "Nowhere" "en" None "09:00" "22:00" None).
  - vm_compute. reflexivity.
  - vm_compute. reflexivity.
Defined.

(** * Further properties of the code *)

(** ** score_items keeps its candidates *)

Lemma map_eq_pointwise {A B C : Type} (f : A -> C) (g : B -> C)
  (xs : list A) :
  forall ys : list B,
    List.length ys = List.length xs ->
    (forall i a b,
       nth_error xs i = Some a -> nth_error ys i = Some b -> f a = g b) ->
    map f xs = map g ys.
Proof.
  induction xs as [| a xs IH]; intros [| b ys] Hlen Hat; simpl in *;
    try discriminate; [reflexivity |].
  f_equal.
  - exact (Hat 0%nat a b eq_refl eq_refl).
  - apply IH; [lia |]. intros i a' b' Ha Hb. exact (Hat (S i) a' b' Ha Hb).
Qed.

(** X1: [score_items] returns, and what it returns has one item per candidate
    and carries the identifiers, cities, countries and types of the
    candidates, each as often as the input does. *)
Theorem score_items_keeps_candidates :
  forall (candidates : list Models.candidate) (ctx : Models.user_ctx)
         (w : Models.weights),
  exists out,
    Models.score_items candidates ctx w = Ok out /\
    List.length out = List.length candidates /\
    Permutation (map Spec.candidate_meta candidates)
                (map Spec.item_meta out).
Proof.
  intros candidates ctx w.
  destruct (score_all_spec candidates ctx w)
    as (smin & smax & dmin & dmax & reranked & _ & _ & Hall & Hlen & Hat).
  exists (Py.sorted ltb Models.item_final_score true reranked).
  split; [unfold Models.score_items; now rewrite Hall | split].
  - now rewrite sorted_length.
  - rewrite <- (sorted_perm ltb Models.item_final_score true reranked).
    rewrite (map_eq_pointwise Spec.candidate_meta Spec.item_meta
               candidates reranked Hlen); [reflexivity |].
    intros i c it Hc Hit. specialize (Hat i c it Hc Hit).
    destruct (score_one_returns
                (Models.signal_values Models.semantic candidates)
                (Models.signal_values Models.distance_km candidates)
                smin smax dmin dmax ctx w
                (map Models.type (firstn i candidates)) c)
      as (sn & dn & _ & _ & Hone).
    rewrite Hone in Hat. injection Hat as <-. reflexivity.
Qed.

(** ** The range of the sub-scores *)

Lemma ltb_finite_refl (x : pyfloat) : isfinite x = true -> ltb x x = false.
Proof.
  intros H. destruct (isfinite_Fin _ H) as [q ->]. simpl.
  apply negb_false_iff, Qle_bool_iff, Qle_refl.
Qed.

Lemma ltb_Fin_false (a b : Q) : ltb (Fin a) (Fin b) = false <-> b <= a.
Proof. simpl. now rewrite negb_false_iff, Qle_bool_iff. Qed.

Lemma ltb_pick_false (a b : pyfloat) :
  isfinite a = true -> isfinite b = true ->
  ltb a (if ltb b a then b else a) = false
  /\ ltb b (if ltb b a then b else a) = false.
Proof.
  intros Ha Hb. destruct (ltb b a) eqn:E.
  - split; [now apply ltb_finite_asym | now apply ltb_finite_refl].
  - split; [now apply ltb_finite_refl | exact E].
Qed.

(** [min(l)] is below every element of a list of finite values. *)
Lemma fold_min_below (r : list pyfloat) :
  Forall (fun v => isfinite v = true) r ->
  forall x, isfinite x = true ->
    let m := fold_left (fun m y => if ltb y m then y else m) r x in
    ltb x m = false /\ forall y, In y r -> ltb y m = false.
Proof.
  induction 1 as [| y0 r Hy0 Hr IH]; intros x Hx; simpl.
  - split; [now apply ltb_finite_refl | intros y []].
  - destruct (ltb_pick_false x y0 Hx Hy0) as [H1 H2].
    assert (isfinite (if ltb y0 x then y0 else x) = true) as Hs
      by now destruct (ltb y0 x).
    destruct (IH _ Hs) as [H3 H4].
    pose proof (fold_pick_finite (fun m y => ltb y m) r Hr _ Hs) as Hm.
    split.
    + now apply (ltb_finite_trans x (if ltb y0 x then y0 else x)).
    + intros y [<- | Hy]; [| now apply H4].
      now apply (ltb_finite_trans y0 (if ltb y0 x then y0 else x)).
Qed.

(** [max(l)] is above every element of a list of finite values. *)
Lemma fold_max_above (r : list pyfloat) :
  Forall (fun v => isfinite v = true) r ->
  forall x, isfinite x = true ->
    let m := fold_left (fun m y => if ltb m y then y else m) r x in
    ltb m x = false /\ forall y, In y r -> ltb m y = false.
Proof.
  induction 1 as [| y0 r Hy0 Hr IH]; intros x Hx; simpl.
  - split; [now apply ltb_finite_refl | intros y []].
  - assert (isfinite (if ltb x y0 then y0 else x) = true) as Hs
      by now destruct (ltb x y0).
    assert (ltb (if ltb x y0 then y0 else x) x = false
            /\ ltb (if ltb x y0 then y0 else x) y0 = false) as [H1 H2].
    { destruct (ltb x y0) eqn:E.
      - split; [now apply ltb_finite_asym | now apply ltb_finite_refl].
      - split; [now apply ltb_finite_refl | exact E]. }
    destruct (IH _ Hs) as [H3 H4].
    pose proof (fold_pick_finite (fun m y => ltb m y) r Hr _ Hs) as Hm.
    split.
    + now apply (ltb_finite_trans _ (if ltb x y0 then y0 else x)).
    + intros y [<- | Hy]; [| now apply H4].
      now apply (ltb_finite_trans _ (if ltb x y0 then y0 else x)).
Qed.

Lemma value_range_bounds (vals : list pyfloat) (lo hi : pyfloat) :
  Forall (fun v => isfinite v = true) vals ->
  Models.value_range vals = Ok (lo, hi) ->
  forall v, In v vals -> ltb v lo = false /\ ltb hi v = false.
Proof.
  intros Hv. destruct Hv as [| x r Hx Hr]; unfold Models.value_range; simpl.
  - intros _ v [].
  - intros H. injection H as <- <-.
    destruct (fold_min_below r Hr x Hx) as [H1 H2].
    destruct (fold_max_above r Hr x Hx) as [H3 H4].
    intros v [<- | Hin]; split; auto.
Qed.

Lemma signal_values_in (signal : Models.candidate -> option pyfloat)
  (candidates : list Models.candidate) (c : Models.candidate) (v : pyfloat) :
  In c candidates -> signal c = Some v ->
  In v (Models.signal_values signal candidates).
Proof.
  intros Hin Hs. unfold Models.signal_values. apply in_flat_map.
  exists c. split; [exact Hin |]. rewrite Hs. now left.
Qed.

Lemma round_half_even_between (x : Q) (lo hi : Z) :
  inject_Z lo <= x -> x <= inject_Z hi ->
  (lo <= round_half_even x <= hi)%Z.
Proof.
  intros Hlo Hhi. unfold round_half_even.
  assert (lo <= Qfloor x)%Z as Hf1
    by (rewrite <- (Qfloor_Z lo); now apply Qfloor_resp_le).
  assert (Qfloor x <= hi)%Z as Hf2
    by (rewrite <- (Qfloor_Z hi); now apply Qfloor_resp_le).
  assert (Qcompare (x - inject_Z (Qfloor x)) (1 # 2) <> Lt ->
          (Qfloor x + 1 <= hi)%Z) as Hup.
  { intros Hc. destruct (Z.eq_dec (Qfloor x) hi) as [E | E]; [| lia].
    exfalso. apply Hc. apply Qlt_alt.
    assert (x == inject_Z hi) as Hx.
    { apply Qle_antisym; [exact Hhi |].
      pose proof (Qfloor_le x) as Hfl. now rewrite E in Hfl. }
    rewrite E, Hx.
    assert (inject_Z hi - inject_Z hi == 0) as -> by ring.
    reflexivity. }
  destruct (Qcompare (x - inject_Z (Qfloor x)) (1 # 2)) eqn:Ec.
  - destruct (Z.even (Qfloor x)); [lia |].
    assert (Qfloor x + 1 <= hi)%Z by (apply Hup; discriminate). lia.
  - lia.
  - assert (Qfloor x + 1 <= hi)%Z by (apply Hup; discriminate). lia.
Qed.

Lemma round3_in_unit (q : Q) : 0 <= q <= 1 -> in_unit (round3 (Fin q)).
Proof.
  intros [H0 H1]. simpl.
  destruct (round_half_even_between (q * 1000) 0 1000) as [Hr0 Hr1].
  - change (inject_Z 0) with (0 * 1000). apply Qmult_le_compat_r;
      [exact H0 | discriminate].
  - change (inject_Z 1000) with (1 * 1000). apply Qmult_le_compat_r;
      [exact H1 | discriminate].
  - split.
    + apply Qle_shift_div_l; [reflexivity |].
      rewrite Qmult_0_l. change 0 with (inject_Z 0). now rewrite <- Zle_Qle.
    + apply Qle_shift_div_r; [reflexivity |].
      rewrite Qmult_1_l. change 1000 with (inject_Z 1000).
      now rewrite <- Zle_Qle.
Qed.

Lemma signal_values_none (signal : Models.candidate -> option pyfloat)
  (candidates : list Models.candidate) :
  Forall (fun d => signal d = None) candidates ->
  Models.signal_values signal candidates = [].
Proof.
  induction 1 as [| d r Hd Hr IH]; [reflexivity |].
  unfold Models.signal_values in *. simpl. now rewrite Hd, IH.
Qed.

Lemma in_nonempty {A : Type} (x : A) (l : list A) :
  In x l -> Py.nonempty l = true.
Proof. destruct l; [intros [] | reflexivity]. Qed.

Lemma b64_round3_in_unit (q : Q) :
  0 <= q <= 1 -> in_unit (Binary64.round3 (Fin q)).
Proof.
  intros H. pose proof (round3_in_unit q H) as U.
  unfold Binary64.round3. cbn [PyFloat.round3 Binary64.rnd in_unit] in *.
  now apply round64_unit.
Qed.

Lemma b64_round3_not_positive (x : pyfloat) :
  Spec.not_positive x -> Spec.not_positive (Binary64.round3 x).
Proof.
  destruct x as [q | | |]; cbn [Spec.not_positive]; try tauto.
  intros H. unfold Binary64.round3. cbn [PyFloat.round3 Binary64.rnd].
  apply round64_not_positive.
  assert (round_half_even (q * 1000) <= 0)%Z as Hr.
  { apply round_half_even_le. change (inject_Z 0) with 0.
    rewrite <- (Qmult_0_l 1000).
    apply Qmult_le_compat_r; [exact H | discriminate]. }
  rewrite Zle_Qle in Hr. change (inject_Z 0) with 0 in Hr.
  apply Qle_shift_div_r; [reflexivity |]. lra.
Qed.

(** The penalty is never positive: [-0.2] times a count. *)
Lemma b64_diversity_penalty_not_positive (sel : list (option string))
  (t : option string) :
  Spec.not_positive (Models64.diversity_penalty sel t).
Proof.
  unfold Models64.diversity_penalty.
  destruct (negb _); [cbn [Spec.not_positive]; discriminate |].
  cbv zeta. set (n := Z.of_nat _).
  assert (0 <= inject_Z n) as Hn
    by (change 0 with (inject_Z 0); rewrite <- Zle_Qle; unfold n; lia).
  pose proof (round64_not_negative _ Hn) as Hc.
  assert (exists c, neg (Binary64.lit 0.2) = Fin c /\ c < 0)
    as (c & -> & Hc0)
    by (eexists; split; [vm_compute; reflexivity | reflexivity]).
  unfold Binary64.of_int, Binary64.mul.
  destruct (Binary64.round64 (inject_Z n)) as [m | | |];
    cbn [Spec.fle] in Hc; try tauto.
  - cbn [PyFloat.mul Binary64.rnd]. apply round64_not_positive.
    rewrite <- (Qmult_0_l m). apply Qmult_le_compat_r; lra.
  - cbn [PyFloat.mul]. unfold scale_inf.
    destruct (Qcompare_spec c 0); [exfalso; lra | exact I | exfalso; lra].
Qed.

(** X2: When the signals are finite and the spread of each signal, its
    maximum minus its minimum, does not overflow, the stored sub-scores stay
    in their ranges: the distance score is in [0,1] for every candidate; the
    semantic score is in [0,1] for a candidate that carries the signal, and
    when no candidate does; the category score is 0 or 1; the diversity
    score is never positive. *)
Theorem sub_scores_in_range :
  forall (candidates : list Models.candidate) (ctx : Models.user_ctx)
         (w : Models.weights) (sem_min sem_max dist_min dist_max : pyfloat),
    Forall Spec.finite_candidate candidates ->
    Models.value_range (Models.signal_values Models.semantic candidates)
    = Ok (sem_min, sem_max) ->
    Models.value_range (Models.signal_values Models.distance_km candidates)
    = Ok (dist_min, dist_max) ->
    isfinite (Binary64.sub sem_max sem_min) = true ->
    isfinite (Binary64.sub dist_max dist_min) = true ->
    exists reranked,
      Models64.score_all candidates ctx w = Ok reranked /\
      forall i c it,
        nth_error candidates i = Some c -> nth_error reranked i = Some it ->
        in_unit (Models.item_distance it) /\
        (Models.semantic c <> None
         \/ Forall (fun d => Models.semantic d = None) candidates ->
         in_unit (Models.item_semantic it)) /\
        (feq (Models.item_category_score it) (Fin 0)
         \/ feq (Models.item_category_score it) (Fin 1)) /\
        Spec.not_positive (Models.item_diversity_score it).
Proof.
  intros candidates ctx w smin0 smax0 dmin0 dmax0 Hfc Hs0 Hd0 Hso Hdo.
  destruct (b64_score_all_spec candidates ctx w)
    as (smin & smax & dmin & dmax & reranked & Hs & Hd & Hall & Hlen & Hat).
  rewrite Hs0 in Hs. injection Hs as <- <-.
  rewrite Hd0 in Hd. injection Hd as <- <-.
  rename Hs0 into Hs, Hd0 into Hd.
  exists reranked. split; [exact Hall |].
  intros i c it Hc Hit. specialize (Hat i c it Hc Hit).
  assert (In c candidates) as Hin by now apply nth_error_In with i.
  assert (Spec.finite_candidate c) as [Hcs Hcd]
    by (rewrite Forall_forall in Hfc; now apply Hfc).
  pose proof (signal_values_finite Models.semantic candidates
                (Forall_impl _ (fun a H => proj1 H) Hfc)) as Hsf.
  pose proof (signal_values_finite Models.distance_km candidates
                (Forall_impl _ (fun a H => proj2 H) Hfc)) as Hdf.
  destruct (value_range_finite _ _ _ Hsf Hs) as [Hsmin Hsmax].
  destruct (value_range_finite _ _ _ Hdf Hd) as [Hdmin Hdmax].
  destruct (b64_score_one_returns
              (Models.signal_values Models.semantic candidates)
              (Models.signal_values Models.distance_km candidates)
              smin0 smax0 dmin0 dmax0 ctx w
              (map Models.type (firstn i candidates)) c)
    as (sn & dn & Hsn & Hdn & Hone).
  rewrite Hone in Hat. injection Hat as <-. cbn [Models.item_distance
    Models.item_semantic Models.item_category_score
    Models.item_diversity_score].
  split; [| split; [| split]].
  - unfold Models64.distance_norm_of in Hdn.
    destruct (Models.distance_km c) as [d |] eqn:Ed.
    + pose proof (signal_values_in Models.distance_km _ _ _ Hin Ed) as Hdin.
      rewrite (in_nonempty _ _ Hdin) in Hdn. cbn [negb] in Hdn.
      destruct (value_range_bounds _ _ _ Hdf Hd d Hdin) as [B1 B2].
      cbn [Spec.finite_opt] in Hcd.
      destruct (isfinite_Fin _ Hcd) as [qd ->].
      destruct (isfinite_Fin _ Hdmin) as [ql ->].
      destruct (isfinite_Fin _ Hdmax) as [qh ->].
      apply ltb_Fin_false in B1. apply ltb_Fin_false in B2.
      destruct (b64_normalize_score_in_unit qd ql qh (conj B1 B2) Hdo)
        as (r & Hr & Hr0 & Hr1).
      rewrite Hr in Hdn. cbn [bind] in Hdn. injection Hdn as <-.
      change (Binary64.sub (Fin 1) (Fin r))
        with (Binary64.round64 (1 + - r)).
      assert (in_unit (Binary64.round64 (1 + - r))) as U
        by (apply round64_unit; lra).
      destruct (Binary64.round64 (1 + - r)) as [q | | |]; cbn [in_unit] in U;
        try tauto.
      now apply b64_round3_in_unit.
    + injection Hdn as <-. apply b64_round3_in_unit. split; discriminate.
  - intros Hcase. unfold Models64.semantic_norm_of in Hsn.
    destruct Hcase as [Hsome | Hnone].
    + destruct (Models.semantic c) as [v |] eqn:Ev; [| congruence].
      pose proof (signal_values_in Models.semantic _ _ _ Hin Ev) as Hvin.
      rewrite (in_nonempty _ _ Hvin) in Hsn. cbn [Py.get] in Hsn.
      destruct (value_range_bounds _ _ _ Hsf Hs v Hvin) as [B1 B2].
      cbn [Spec.finite_opt] in Hcs.
      destruct (isfinite_Fin _ Hcs) as [qv ->].
      destruct (isfinite_Fin _ Hsmin) as [ql ->].
      destruct (isfinite_Fin _ Hsmax) as [qh ->].
      apply ltb_Fin_false in B1. apply ltb_Fin_false in B2.
      destruct (b64_normalize_score_in_unit qv ql qh (conj B1 B2) Hso)
        as (r & Hr & Hr01).
      rewrite Hr in Hsn. injection Hsn as <-. now apply b64_round3_in_unit.
    + rewrite (signal_values_none _ _ Hnone) in Hsn. cbn [Py.nonempty] in Hsn.
      injection Hsn as <-. apply b64_round3_in_unit. split; discriminate.
  - unfold Models.category_match.
    destruct (_ || _); [left; vm_compute; reflexivity |].
    destruct (Py.mem_str _ _); [right | left]; vm_compute; reflexivity.
  - apply b64_round3_not_positive, b64_diversity_penalty_not_positive.
Qed.

Lemma sub_scores_in_range_witness :
  let s v d t :=
    Models.mkCandidate None None None (Some t) (Some (Binary64.lit v))
                       (Some (Binary64.lit d)) in
  let candidates := [s 0.2 3 "cafe"; s 0.9 1 "cafe"; s 0.4 7 "museum"]%string in
  exists reranked it,
    Models64.score_all candidates (Models.mkCtx None)
                       (Models.mkWeights None None None None) = Ok reranked /\
    nth_error reranked 1 = Some it /\
    in_unit (Models.item_distance it) /\
    Spec.not_positive (Models.item_diversity_score it).
Proof.
  intros s candidates.
  destruct (sub_scores_in_range candidates (Models.mkCtx None)
              (Models.mkWeights None None None None)
              (Binary64.lit 0.2) (Binary64.lit 0.9)
              (Binary64.lit 1) (Binary64.lit 7))
    as (reranked & Hall & Hat).
  - repeat constructor.
  - vm_compute. reflexivity.
  - vm_compute. reflexivity.
  - vm_compute. reflexivity.
  - vm_compute. reflexivity.
  - pose proof Hall as Hcomp. vm_compute in Hcomp.
    destruct reranked as [| i0 [| it r]]; try discriminate Hcomp.
    exists (i0 :: it :: r), it. split; [exact Hall | split; [reflexivity |]].
    destruct (Hat 1%nat (s 0.9 1 "cafe"%string) it eq_refl eq_refl)
      as (H1 & _ & _ & H4).
    split; assumption.
Defined.

(** ** Ties keep the input order *)

Section Stability.
Context {A K : Type} (lt : K -> K -> bool) (key : A -> K) (reverse : bool).
Variable same : A -> bool.
Hypothesis apart : forall x y,
  Py.goes_after lt key reverse x y = true -> same x = true -> same y = false.

Lemma insert_filter (x : A) (l : list A) :
  filter same (Py.insert lt key reverse x l)
  = if same x then x :: filter same l else filter same l.
Proof.
  induction l as [| y r IH]; simpl; [reflexivity |].
  destruct (Py.goes_after lt key reverse x y) eqn:G; simpl.
  - rewrite IH. destruct (same x) eqn:Sx.
    + now rewrite (apart x y G Sx).
    + reflexivity.
  - reflexivity.
Qed.

Lemma sorted_filter (l : list A) :
  filter same (Py.sorted lt key reverse l) = filter same l.
Proof.
  induction l as [| x r IH]; simpl; [reflexivity |].
  rewrite insert_filter, IH. reflexivity.
Qed.
End Stability.

Lemma ltb_separates (a b v : pyfloat) :
  ltb a b = true -> eqb a v = true -> eqb b v = false.
Proof.
  destruct a as [qa | | |], b as [qb | | |], v as [qv | | |]; simpl;
    try discriminate; try reflexivity.
  intros Hlt Ha. apply not_true_is_false. intros Hb.
  apply negb_true_iff in Hlt.
  apply Qeq_bool_eq in Ha. apply Qeq_bool_eq in Hb.
  assert (Qle_bool qb qa = true) as L
    by (apply Qle_bool_iff; rewrite Ha, Hb; apply Qle_refl).
  congruence.
Qed.

(** X3: When no [final_score] is [nan], the items [score_items] returns whose
    [final_score] equals a given value stand in the order of the input: the
    sort is stable, also with [reverse=True]. *)
Theorem score_items_ties_keep_input_order :
  forall (candidates : list Models.candidate) (ctx : Models.user_ctx)
         (w : Models.weights) (v : pyfloat),
  exists reranked out,
    Models64.score_all candidates ctx w = Ok reranked /\
    Models64.score_items candidates ctx w = Ok out /\
    (Spec.no_nan_score reranked ->
     filter (fun it => eqb (Models.item_final_score it) v) out
     = filter (fun it => eqb (Models.item_final_score it) v) reranked).
Proof.
  intros candidates ctx w v.
  destruct (b64_score_all_spec candidates ctx w)
    as (smin & smax & dmin & dmax & reranked & _ & _ & Hall & _ & _).
  exists reranked, (Py.sorted ltb Models.item_final_score true reranked).
  split; [exact Hall | split].
  - unfold Models64.score_items. now rewrite Hall.
  - intros _. apply sorted_filter. intros x y. unfold Py.goes_after.
    apply ltb_separates.
Qed.

Lemma score_items_ties_keep_input_order_witness :
  let s i := Models.mkCandidate (Some i) None None None (Some (Fin 1)) None in
  let candidates := [s 4%Z; s 2%Z; s 9%Z] in
  exists out,
    Models64.score_items candidates (Models.mkCtx None)
                         (Models.mkWeights None None None None) = Ok out /\
    map Models.item_poi_id
        (filter (fun it => eqb (Models.item_final_score it)
                               (Binary64.lit 0.4)) out)
    = [Some 4%Z; Some 2%Z; Some 9%Z].
Proof.
  intros s candidates.
  destruct (score_items_ties_keep_input_order candidates (Models.mkCtx None)
              (Models.mkWeights None None None None) (Binary64.lit 0.4))
    as (reranked & out & Hall & Hout & Hsame).
  exists out. split; [exact Hout |].
  vm_compute in Hall. injection Hall as <-.
  rewrite Hsame; [vm_compute; reflexivity |].
  repeat constructor; discriminate.
Defined.

(** ** More on select_with_hotel *)

Lemma count_type_app (l1 l2 : list Itinerary.candidate) (t : string) :
  Itinerary.count_type (l1 ++ l2) t
  = (Itinerary.count_type l1 t + Itinerary.count_type l2 t)%Z.
Proof.
  unfold Itinerary.count_type, Py.len.
  rewrite filter_app, length_app. lia.
Qed.

Lemma count_type_absent (l : list Itinerary.candidate) (t : string) :
  (forall x, In x l -> Itinerary.type x <> t) ->
  Itinerary.count_type l t = 0%Z.
Proof.
  intros H. unfold Itinerary.count_type, Py.len.
  rewrite filter_none; [reflexivity |].
  intros x Hx. apply String.eqb_neq. now apply H.
Qed.

Lemma count_type_cons (c : Itinerary.candidate) (l : list Itinerary.candidate)
  (t : string) :
  Itinerary.count_type (c :: l) t
  = ((if String.eqb (Itinerary.type c) t then 1 else 0)
     + Itinerary.count_type l t)%Z.
Proof.
  unfold Itinerary.count_type, Py.len. cbn [filter].
  destruct (String.eqb (Itinerary.type c) t); cbn [List.length]; lia.
Qed.

Lemma count_type_firstn (n : nat) (l : list Itinerary.candidate) (t : string) :
  (0 <= Itinerary.count_type (firstn n l) t <= Itinerary.count_type l t)%Z.
Proof.
  assert (forall l', 0 <= Itinerary.count_type l' t)%Z as Hpos
    by (intros l'; unfold Itinerary.count_type, Py.len; lia).
  revert n. induction l as [| c r IH]; intros [| n]; simpl firstn.
  - split; [apply Hpos | lia].
  - split; [apply Hpos | lia].
  - split; [apply Hpos |]. apply Hpos.
  - rewrite !count_type_cons. specialize (IH n).
    destruct (String.eqb (Itinerary.type c) t); lia.
Qed.

Lemma count_type_filter (keep : Itinerary.candidate -> bool)
  (l : list Itinerary.candidate) (t : string) :
  (0 <= Itinerary.count_type (filter keep l) t <= Itinerary.count_type l t)%Z.
Proof.
  induction l as [| c r IH]; simpl filter.
  - unfold Itinerary.count_type, Py.len. simpl. lia.
  - destruct (keep c); rewrite ?count_type_cons;
      destruct (String.eqb (Itinerary.type c) t); lia.
Qed.

Lemma mem_str_In (x : string) (l : list string) :
  Py.mem_str x l = true <-> In x l.
Proof.
  unfold Py.mem_str. rewrite existsb_exists. split.
  - intros (y & Hy & E). apply String.eqb_eq in E. now subst.
  - intros H. exists x. split; [exact H | apply String.eqb_refl].
Qed.

(** The fill loop never brings a type to a third item. *)
Lemma fill_loop_per_type (pool : list Itinerary.candidate) (plan_size : Z) :
  forall selected seen_ids seen_types,
    (forall x, In x selected -> In (Itinerary.type x) seen_types) ->
    (forall t, (Itinerary.count_type selected t <= 2)%Z) ->
    forall t,
      (Itinerary.count_type
         (Itinerary.fill_loop pool plan_size selected seen_ids seen_types) t
       <= 2)%Z.
Proof.
  induction pool as [| c rest IH]; intros sel ids types Hseen Hcnt; simpl;
    [exact Hcnt |].
  destruct (plan_size <=? Py.len sel)%Z; [exact Hcnt |].
  destruct (Py.mem_Z (Itinerary.poi_id c) ids); [now apply IH |].
  assert (forall t, Itinerary.count_type [c] t
                    = if String.eqb (Itinerary.type c) t then 1%Z else 0%Z)
    as Hone.
  { intros t. rewrite count_type_cons.
    unfold Itinerary.count_type, Py.len. cbn [filter List.length].
    destruct (String.eqb (Itinerary.type c) t); lia. }
  destruct (Py.mem_str (Itinerary.type c) types) eqn:Hmem; cbn [negb].
  - destruct (Z.ltb_spec (Itinerary.count_type sel (Itinerary.type c)) 2);
      [| now apply IH].
    apply IH.
    + intros x Hx. apply in_app_or in Hx. destruct Hx as [Hx | [<- | []]].
      * now apply Hseen.
      * now apply mem_str_In.
    + intros t. rewrite count_type_app, Hone.
      destruct (String.eqb_spec (Itinerary.type c) t) as [<- | _].
      * lia.
      * specialize (Hcnt t). lia.
  - apply IH.
    + intros x Hx. apply in_app_or in Hx. destruct Hx as [Hx | [<- | []]].
      * right. now apply Hseen.
      * now left.
    + intros t. rewrite count_type_app, Hone.
      destruct (String.eqb_spec (Itinerary.type c) t) as [<- | _].
      * rewrite count_type_absent; [lia |].
        intros x Hx E. apply Hseen in Hx. rewrite E in Hx.
        apply mem_str_In in Hx. congruence.
      * specialize (Hcnt t). lia.
Qed.

(** [select_with_hotel] by cases on the pool, with what the later facts
    need of [sel], the list [selected] when the fill loop ends. *)
Lemma select_with_hotel_cases (candidates : list Itinerary.candidate)
  (plan_size : Z) (theme : option string) :
  let p := if (plan_size <? 2)%Z then 2%Z else plan_size in
  exists sel,
    (forall x, In x sel -> In x candidates) /\
    (forall t, (Itinerary.count_type sel t <= 2)%Z) /\
    ((filter Itinerary.is_hotel candidates = [] /\
      (forall x, In x sel -> Itinerary.is_hotel x = false) /\
      Itinerary.select_with_hotel candidates plan_size theme
      = Itinerary.dummy_hotel :: firstn (Z.to_nat (p - 1)) sel)
     \/
     (exists h rest,
        sel = h :: rest /\
        hd_error (Py.sorted ltb Itinerary.score true
                            (filter Itinerary.is_hotel candidates)) = Some h /\
        Itinerary.is_hotel h = true /\
        exists kept,
          Itinerary.select_with_hotel candidates plan_size theme = h :: kept /\
          (forall x, In x kept -> In x rest) /\
          (List.length kept <= Z.to_nat (p - 1))%nat /\
          (forall t, (Itinerary.count_type kept t
                      <= Itinerary.count_type rest t)%Z))).
Proof.
  intros p. pose proof (plan_size_at_least_two plan_size) as Hp. fold p in Hp.
  unfold Itinerary.select_with_hotel. fold p.
  set (hotels := Py.sorted ltb Itinerary.score true
                   (filter Itinerary.is_hotel candidates)).
  assert (forall x, In x hotels ->
                    Itinerary.is_hotel x = true /\ In x candidates) as Hhot.
  { intros x Hx. apply sorted_in in Hx. apply filter_In in Hx. tauto. }
  destruct hotels as [| h others] eqn:Eh; simpl hd_error; cbv iota beta.
  - assert (filter Itinerary.is_hotel candidates = []) as Hnone.
    { apply length_zero_iff_nil.
      rewrite <- (sorted_length ltb Itinerary.score true).
      fold hotels. now rewrite Eh. }
    assert (forall x, In x candidates -> Itinerary.is_hotel x = false) as Hno.
    { intros x Hx. destruct (Itinerary.is_hotel x) eqn:E; [| reflexivity].
      assert (In x (filter Itinerary.is_hotel candidates)) as Hin
        by (apply filter_In; tauto).
      rewrite Hnone in Hin. destruct Hin. }
    match goal with
    | |- context [Itinerary.fill_loop ?pool p [] [] []] =>
        destruct (fill_loop_appends pool p [] [] [])
          as (extra & E & Hin & _);
        [intros ? [] | constructor |];
        pose proof (fill_loop_per_type pool p [] [] []) as Hcnt;
        assert (forall x, In x extra -> In x candidates) as Hsub
          by (intros x Hx; apply Hin, sorted_in, filter_In in Hx; tauto)
    end.
    cbn [app] in E. rewrite E in *.
    assert (forall x, In x extra -> Itinerary.is_hotel x = false) as Hex
      by (intros x Hx; apply Hno, Hsub, Hx).
    exists extra. split; [exact Hsub | split].
    { apply Hcnt; [intros ? [] |]. intros t. now vm_compute. }
    left. split; [exact Hnone | split; [exact Hex |]].
    rewrite (proj2 (existsb_false_forall _ _) Hex). simpl negb. cbv iota.
    simpl filter. rewrite (filter_none _ _ Hex).
    now apply take_cons.
  - destruct (Hhot h (or_introl eq_refl)) as [Hh Hhc].
    assert (Itinerary.type h = "hotel"%string) as Hth
      by now apply String.eqb_eq.
    match goal with
    | |- context [Itinerary.fill_loop ?pool p [h] ?ids ?types] =>
        destruct (fill_loop_appends pool p [h] ids types)
          as (extra & E & Hin & _);
        [intros ? [<- | []]; now left | repeat constructor; intros [] |];
        pose proof (fill_loop_per_type pool p [h] ids types) as Hcnt;
        assert (forall x, In x extra -> In x candidates) as Hsub
          by (intros x Hx; apply Hin, sorted_in, filter_In in Hx; tauto)
    end.
    cbn [app] in E. rewrite E in *.
    exists (h :: extra). split; [| split].
    { intros x [<- | Hx]; auto. }
    { apply Hcnt.
      - intros x [<- | []]. left. now rewrite Hth.
      - intros t. rewrite count_type_cons.
        unfold Itinerary.count_type, Py.len. cbn [filter List.length].
        destruct (String.eqb (Itinerary.type h) t); lia. }
    right. exists h, extra.
    split; [reflexivity | split; [reflexivity | split; [exact Hh |]]].
    simpl existsb. rewrite Hh. simpl negb. cbv iota.
    simpl filter. rewrite Hh. simpl filter.
    destruct (filter Itinerary.is_hotel extra) as [| h2 more].
    + exists (firstn (Z.to_nat (p - 1)) extra).
      split; [now apply take_cons | split; [| split]].
      * intros x. apply In_firstn.
      * apply firstn_le_length.
      * intros t. apply count_type_firstn.
    + rewrite (take_cons _ _ _ Hp). rewrite take_firstn by lia.
      cbn [negb].
      eexists. split; [reflexivity | split; [| split]].
      * intros x Hx. apply In_firstn, In_firstn, filter_In in Hx. tauto.
      * apply firstn_le_length.
      * intros t.
        pose proof (count_type_firstn (Z.to_nat (p - 1))
          (firstn (Z.to_nat (p - 1))
             (filter (fun s => negb (Itinerary.is_hotel s)) extra)) t).
        pose proof (count_type_firstn (Z.to_nat (p - 1))
          (filter (fun s => negb (Itinerary.is_hotel s)) extra) t).
        pose proof (count_type_filter
          (fun s => negb (Itinerary.is_hotel s)) extra t).
        lia.
Qed.

(** X5: [select_with_hotel] returns at most [max(plan_size, 2)] items; its first
    item is of type ["hotel"]; and every item is a candidate of the pool or
    the placeholder hotel. *)
Theorem select_with_hotel_size_and_origin :
  forall (candidates : list Itinerary.candidate) (plan_size : Z)
         (theme : option string),
    let out := Itinerary.select_with_hotel candidates plan_size theme in
    (Py.len out <= Z.max plan_size 2)%Z /\
    (exists h rest, out = h :: rest /\ Itinerary.is_hotel h = true) /\
    (forall x, In x out -> In x candidates \/ x = Itinerary.dummy_hotel).
Proof.
  intros candidates plan_size theme out. subst out.
  pose proof (plan_size_at_least_two plan_size) as Hp.
  assert ((if (plan_size <? 2)%Z then 2%Z else plan_size)
          = Z.max plan_size 2) as Ep
    by (destruct (Z.ltb_spec plan_size 2); lia).
  destruct (select_with_hotel_cases candidates plan_size theme)
    as (sel & Hsub & _ &
        [(_ & _ & E) | (h & rest & -> & _ & Hh & kept & E & Hk & Hlen & _)]);
    rewrite E; clear E; rewrite Ep in *; unfold Py.len; cbn [List.length].
  - split; [| split].
    + pose proof (firstn_le_length (Z.to_nat (Z.max plan_size 2 - 1)) sel).
      lia.
    + eexists _, _. split; reflexivity.
    + intros x [<- | Hx]; [now right | left].
      now apply Hsub, (In_firstn _ _ _ Hx).
  - split; [lia | split].
    + eexists _, _. split; [reflexivity | exact Hh].
    + intros x [<- | Hx]; left; apply Hsub; [now left | right; auto].
Qed.

(** X6: [select_with_hotel] never returns more than two items of one type. *)
Theorem select_with_hotel_two_per_type :
  forall (candidates : list Itinerary.candidate) (plan_size : Z)
         (theme : option string) (t : string),
    (Itinerary.count_type
       (Itinerary.select_with_hotel candidates plan_size theme) t <= 2)%Z.
Proof.
  intros candidates plan_size theme t.
  destruct (select_with_hotel_cases candidates plan_size theme)
    as (sel & _ & Hcnt &
        [(_ & Hno & E) | (h & rest & -> & _ & _ & kept & E & _ & _ & Hk)]);
    rewrite E; clear E; rewrite count_type_cons.
  - pose proof (count_type_firstn
                  (Z.to_nat ((if (plan_size <? 2)%Z then 2 else plan_size) - 1))
                  sel t) as Hf.
    cbn [Itinerary.type Itinerary.dummy_hotel].
    destruct (String.eqb_spec "hotel" t) as [<- | _];
      [| rewrite Z.add_0_l;
         exact (Z.le_trans _ _ _ (proj2 Hf) (Hcnt t))].
    rewrite count_type_absent; [lia |].
    intros x Hx. apply In_firstn in Hx. revert x Hx.
    intros x Hx E. apply Hno in Hx. unfold Itinerary.is_hotel in Hx.
    rewrite E, String.eqb_refl in Hx. discriminate Hx.
  - specialize (Hcnt t). rewrite count_type_cons in Hcnt.
    specialize (Hk t). destruct (String.eqb (Itinerary.type h) t); lia.
Qed.

(** X7: When every score of the pool is finite and the pool holds a hotel, the
    first item [select_with_hotel] returns is a hotel of the pool whose
    score no hotel of the pool exceeds. *)
Theorem select_with_hotel_picks_best_hotel :
  forall (candidates : list Itinerary.candidate) (plan_size : Z)
         (theme : option string) (other : Itinerary.candidate),
    (forall c, In c candidates -> isfinite (Itinerary.score c) = true) ->
    In other candidates -> Itinerary.is_hotel other = true ->
    exists h rest,
      Itinerary.select_with_hotel candidates plan_size theme = h :: rest /\
      In h candidates /\ Itinerary.is_hotel h = true /\
      ltb (Itinerary.score h) (Itinerary.score other) = false.
Proof.
  intros candidates plan_size theme other Hfin Hother Hhotel.
  assert (In other (filter Itinerary.is_hotel candidates)) as Hof
    by (apply filter_In; tauto).
  destruct (select_with_hotel_cases candidates plan_size theme)
    as (sel & Hsub & _ &
        [(Hnone & _) | (h & rest & -> & Hhd & Hh & kept & E & _)]).
  - rewrite Hnone in Hof. destruct Hof.
  - exists h, kept. split; [exact E | split; [| split; [exact Hh |]]].
    + apply Hsub. now left.
    + pose proof (sorted_ordered ltb Itinerary.score true
                    (fun c => isfinite (Itinerary.score c) = true)) as Hs.
      specialize (Hs ltac:(intros a b Ha Hb; now apply ltb_finite_asym)
                     ltac:(intros a b c Ha Hb Hc; now apply ltb_finite_trans)
                     (filter Itinerary.is_hotel candidates)).
      specialize (Hs ltac:(apply Forall_forall; intros c Hc;
                           apply filter_In in Hc; now apply Hfin)).
      apply (sorted_in ltb Itinerary.score true) in Hof.
      destruct (Py.sorted ltb Itinerary.score true
                          (filter Itinerary.is_hotel candidates))
        as [| h0 others]; [discriminate Hhd |].
      injection Hhd as ->.
      destruct Hof as [<- | Hin].
      * apply ltb_finite_refl, Hfin, Hsub. now left.
      * inversion Hs as [| ? ? _ Hall]; subst.
        rewrite Forall_forall in Hall. exact (Hall other Hin).
Qed.

Lemma select_with_hotel_picks_best_hotel_witness :
  let c i t s := Itinerary.mkCandidate i "place" t "" None (Fin s) None None in
  let pool := [c 1%Z "hotel" 1; c 2%Z "shop" 5; c 3%Z "hotel" 2]%string in
  exists h rest,
    Itinerary.select_with_hotel pool 4 None = h :: rest /\
    In h pool /\ Itinerary.is_hotel h = true /\
    ltb (Itinerary.score h) (Fin 1) = false.
Proof.
  intros c pool.
  apply (select_with_hotel_picks_best_hotel pool 4 None (c 1%Z "hotel"%string 1)).
  - intros x Hx. simpl in Hx.
    repeat (destruct Hx as [<- | Hx]; [reflexivity |]). destruct Hx.
  - now left.
  - reflexivity.
Defined.

(** ** Times of the day *)

Lemma digit_val_bounds (c : ascii) :
  Py.is_digit c = true -> (0 <= Py.digit_val c <= 9)%Z.
Proof.
  unfold Py.is_digit, Py.digit_val. intros H.
  apply andb_true_iff in H. destruct H as [H1 H2].
  apply Nat.leb_le in H1. apply Nat.leb_le in H2. lia.
Qed.

Lemma parse_field_bounds (s : string) (bound v : Z) :
  (9 <= bound)%Z -> Itinerary.parse_field s bound = Some v ->
  (0 <= v <= bound)%Z.
Proof.
  intros Hb. unfold Itinerary.parse_field.
  destruct s as [| a [| b [| c r]]]; try discriminate.
  - destruct (Py.is_digit a) eqn:Da; [| discriminate].
    intros H. injection H as <-. pose proof (digit_val_bounds a Da). lia.
  - destruct (Py.is_digit a && Py.is_digit b) eqn:D; [| discriminate].
    apply andb_true_iff in D. destruct D as [Da Db].
    pose proof (digit_val_bounds a Da). pose proof (digit_val_bounds b Db).
    destruct (Z.leb_spec (10 * Py.digit_val a + Py.digit_val b) bound);
      [| discriminate].
    intros Hv. assert (v = 10 * Py.digit_val a + Py.digit_val b)%Z
      by congruence.
    lia.
Qed.

(** X8: A time that [strptime] accepts lies within the day, and a time of the
    day printed by [strftime] is read back by [strptime] as the same time. *)
Theorem strptime_strftime_round_trip :
  (forall (s : string) (dt : Z),
     Itinerary.strptime s = Ok dt -> (0 <= dt < 1440)%Z) /\
  (forall dt : Z,
     (0 <= dt < 1440)%Z ->
     Itinerary.strptime (Itinerary.strftime dt) = Ok dt).
Proof.
  split.
  - intros s dt. unfold Itinerary.strptime.
    destruct (Itinerary.split_colon s) as [[h m] |]; [| discriminate].
    destruct (Itinerary.parse_field h 23) as [hour |] eqn:Eh; [| discriminate].
    destruct (Itinerary.parse_field m 59) as [minute |] eqn:Em;
      [| discriminate].
    intros H. injection H as <-.
    apply parse_field_bounds in Eh; [| lia].
    apply parse_field_bounds in Em; [| lia]. lia.
  - intros dt Hdt.
    assert (forallb
              (fun k =>
                 match Itinerary.strptime (Itinerary.strftime (Z.of_nat k)) with
                 | Ok d => (d =? Z.of_nat k)%Z
                 | Raise _ => false
                 end) (seq 0 1440) = true) as Hall
      by (vm_compute; reflexivity).
    rewrite forallb_forall in Hall.
    specialize (Hall (Z.to_nat dt)). rewrite Z2Nat.id in Hall by lia.
    destruct (Itinerary.strptime (Itinerary.strftime dt)) as [d | e].
    + f_equal. apply Z.eqb_eq. apply Hall. apply in_seq. lia.
    + assert (false = true) as F by (apply Hall; apply in_seq; lia).
      discriminate F.
Qed.

Lemma strptime_strftime_round_trip_witness :
  (0 <= 1290 < 1440)%Z /\
  Itinerary.strptime (Itinerary.strftime 1290%Z) = Ok 1290%Z /\
  Itinerary.strptime (Itinerary.strftime 5%Z) = Ok 5%Z.
Proof.
  destruct strptime_strftime_round_trip as [Hin Hback].
  split; [exact (Hin "21:30"%string 1290%Z eq_refl) |].
  split; apply Hback; lia.
Defined.

(** ** The number of days *)

(** X9: The itinerary has 3 days for a pool of fewer than 20 places, 4 from 20
    to 24, 5 from 25 to 29 and 6 from 30 on. *)
Theorem days_count_for_steps :
  forall available_places : Z,
    Itinerary.days_count_for available_places
    = (if available_places <? 20 then 3
       else if available_places <? 25 then 4
       else if available_places <? 30 then 5
       else 6)%Z.
Proof.
  intros n. unfold Itinerary.days_count_for.
  destruct (Z.leb_spec 25 n); destruct (Z.leb_spec 20 n);
    destruct (Z.leb_spec 15 n); destruct (Z.ltb_spec n 20);
    destruct (Z.ltb_spec n 25); destruct (Z.ltb_spec n 30); try lia;
    Z.to_euclidean_division_equations; lia.
Qed.

(** ** Categories and themes *)

(** X10: [normalize_category] always returns one of the six categories, and it
    leaves each of the six as it is. *)
Theorem normalize_category_closed :
  let categories := ["hotel"; "restaurant"; "shop"; "tourist place";
                     "entertainment"; "other"]%string in
  (forall raw_type : string,
     In (Itinerary.normalize_category raw_type) categories) /\
  (forall t : string,
     In t categories -> Itinerary.normalize_category t = t).
Proof.
  cbv zeta. split.
  - intros raw. unfold Itinerary.normalize_category.
    repeat match goal with
           | |- context [if ?b then _ else _] => destruct b
           end; simpl; tauto.
  - intros t Ht. simpl in Ht.
    repeat (destruct Ht as [<- | Ht]; [vm_compute; reflexivity |]).
    destruct Ht.
Qed.

Lemma normalize_category_closed_witness :
  Itinerary.normalize_category "tourist place" = "tourist place"%string.
Proof.
  apply (proj2 normalize_category_closed). simpl. tauto.
Defined.

Lemma classify_theme_text_known (text t : string) :
  In t (Itinerary.classify_theme_text text) ->
  In t (map fst Itinerary.TOUR_THEMES).
Proof.
  unfold Itinerary.classify_theme_text.
  destruct (negb _); [intros [] |].
  intros H. apply in_map_iff in H. destruct H as (tc & <- & Htc).
  apply filter_In in Htc. apply in_map. tauto.
Qed.

Lemma theme_names_filter (keep : string * Itinerary.theme_cfg -> bool)
  (table : list (string * Itinerary.theme_cfg)) :
  NoDup (map fst table) -> NoDup (map fst (filter keep table)).
Proof.
  induction table as [| tc r IH]; intros H; simpl; [constructor |].
  inversion H as [| ? ? Hn Hr]; subst.
  destruct (keep tc); simpl; [constructor |]; auto.
  intros Hin. apply Hn. apply in_map_iff in Hin.
  destruct Hin as (y & Ey & Hy). apply filter_In in Hy.
  apply in_map_iff. exists y. tauto.
Qed.

(** X11: [classify_theme_text] returns theme names of [TOUR_THEMES], none of them
    twice, and no theme for the empty text. *)
Theorem classify_theme_text_themes :
  forall text : string,
    NoDup (Itinerary.classify_theme_text text) /\
    incl (Itinerary.classify_theme_text text)
         ["cultural"; "adventure"; "foodies"; "family"; "couples";
          "friends"]%string /\
    Itinerary.classify_theme_text "" = [].
Proof.
  intros text. split; [| split; [| reflexivity]].
  - unfold Itinerary.classify_theme_text. destruct (negb _); [constructor |].
    apply theme_names_filter.
    vm_compute. repeat constructor; simpl; intuition discriminate.
  - intros t Ht. apply classify_theme_text_known in Ht. exact Ht.
Qed.

(** ** build_itinerary with places *)

Lemma theme_lookup (t : string) :
  In t (map fst Itinerary.TOUR_THEMES) ->
  exists tc,
    find (fun tc : string * Itinerary.theme_cfg => String.eqb (fst tc) t)
         Itinerary.TOUR_THEMES = Some tc.
Proof.
  intros H. apply in_map_iff in H. destruct H as (tc & E & Htc).
  destruct (find _ Itinerary.TOUR_THEMES) as [found |] eqn:F; [eauto |].
  apply (find_none _ _ F) in Htc. cbv beta in Htc.
  rewrite E, String.eqb_refl in Htc. discriminate Htc.
Qed.

(** No [KeyError]: a theme found in the text is a key of [TOUR_THEMES]. *)
Lemma candidate_of_returns (theme : option string)
  (p : DataPreprocessor.poi) :
  exists c, Itinerary.candidate_of theme p = Ok c.
Proof.
  unfold Itinerary.candidate_of.
  destruct (Py.str_truthy theme && Py.mem_str _ _) eqn:E; cbn [bind];
    [| eauto].
  apply andb_true_iff in E. destruct E as [_ E].
  apply mem_str_In, classify_theme_text_known, theme_lookup in E.
  destruct E as [tc ->]. cbn [bind]. eauto.
Qed.

Lemma candidates_of_returns (theme : option string)
  (pois : list DataPreprocessor.poi) :
  exists cs,
    Itinerary.candidates_of theme pois = Ok cs /\
    List.length cs = List.length pois.
Proof.
  induction pois as [| p r (cs & E & Hlen)]; simpl; [eauto |].
  destruct (candidate_of_returns theme p) as [c ->]. rewrite E. cbn [bind].
  exists (c :: cs). simpl. auto.
Qed.

Lemma build_time_slots_returns_n (start_time end_time : string) (n st en : Z) :
  Itinerary.strptime start_time = Ok st ->
  Itinerary.strptime end_time = Ok en ->
  (Itinerary.snap_down st < Itinerary.snap_up en)%Z -> (0 < n)%Z ->
  exists slots,
    Itinerary.build_time_slots start_time end_time n = Ok slots /\
    List.length slots = Z.to_nat n.
Proof.
  intros Hst Hen Hlt Hn. unfold Itinerary.build_time_slots.
  rewrite Hst, Hen. cbn [bind].
  set (a := Itinerary.snap_down st) in *.
  set (b := Itinerary.snap_up en) in *.
  assert (Z.max 0 (b - a) = b - a)%Z as -> by lia.
  destruct (Z.leb_spec n 0) as [Hn0 | _]; [lia |].
  destruct (Z.eqb_spec (b - a) 0) as [Ht | _]; [lia |]. cbn [orb].
  destruct (step_spec (b - a) n Hn ltac:(lia)) as (Hs0 & _ & Hcov).
  assert (n = Z.of_nat (Z.to_nat n)) as En by lia.
  set (m := Z.to_nat n) in *. clearbody m. subst n.
  eexists. split; [reflexivity |].
  rewrite loop_and_padding; [| exact Hs0 | lia | exact Hlt].
  unfold Spec.tiling. now rewrite !length_map, length_seq.
Qed.

(** The sort that follows the selection puts a hotel first when there is
    one. *)
Lemma hotel_sorts_first (l : list Itinerary.candidate) :
  (exists x, In x l /\ Itinerary.is_hotel x = true) ->
  exists h r,
    Py.sorted Itinerary.key_lt
      (fun x => (if Itinerary.is_hotel x then 0%Z else 1%Z,
                 neg (Itinerary.score x))) false l = h :: r /\
    Itinerary.is_hotel h = true.
Proof.
  induction l as [| x l IH]; intros (y & Hy & Hh); [destruct Hy |].
  simpl Py.sorted.
  destruct (Itinerary.is_hotel x) eqn:Hx.
  - match goal with
    | |- context [Py.insert ?lt ?key false x ?s] => destruct s as [| z s']
    end; simpl.
    + eauto.
    + unfold Py.goes_after, Itinerary.key_lt. cbn [fst snd]. rewrite Hx.
      destruct (Itinerary.is_hotel z) eqn:Hz; simpl; eauto.
      destruct (ltb _ _); eauto.
  - destruct Hy as [-> | Hy]; [congruence |].
    destruct (IH (ex_intro _ y (conj Hy Hh))) as (h & r & -> & Hhh).
    simpl. unfold Py.goes_after, Itinerary.key_lt. cbn [fst snd].
    rewrite Hx, Hhh. simpl. eauto.
Qed.

Lemma append_remaining_extends (total_needed : Z)
  (remaining : list Itinerary.candidate) :
  forall selected,
  exists extra,
    Itinerary.append_remaining total_needed remaining selected
    = selected ++ extra /\
    ((Py.len selected <= total_needed)%Z ->
     (Py.len (selected ++ extra) <= total_needed)%Z).
Proof.
  induction remaining as [| c r IH]; intros sel; simpl.
  - exists []. now rewrite app_nil_r.
  - destruct (Z.leb_spec total_needed (Py.len sel)) as [Hfull | Hroom].
    + exists []. now rewrite app_nil_r.
    + destruct (IH (sel ++ [c])) as (extra & E & Hlen).
      exists (c :: extra). rewrite E, <- app_assoc. split; [reflexivity |].
      intros _. rewrite <- app_assoc in Hlen. apply Hlen.
      unfold Py.len in *. rewrite length_app. simpl. lia.
Qed.

(** After the underfill handling the selection has exactly the length asked
    for, and still starts with a hotel when it held one. *)
Lemma fill_selected_spec (candidates selected : list Itinerary.candidate)
  (total_needed : Z) (city country : string) :
  (Py.len selected <= total_needed)%Z ->
  (exists x, In x selected /\ Itinerary.is_hotel x = true) ->
  exists h r,
    Itinerary.fill_selected candidates selected total_needed city country
    = h :: r /\
    Itinerary.is_hotel h = true /\
    Py.len (h :: r) = total_needed.
Proof.
  intros Hlen Hhotel. unfold Itinerary.fill_selected.
  destruct (hotel_sorts_first selected Hhotel) as (h & r & Es & Hh).
  pose proof (sorted_length Itinerary.key_lt
    (fun x => (if Itinerary.is_hotel x then 0%Z else 1%Z,
               neg (Itinerary.score x))) false selected) as Hsl.
  rewrite Es in *.
  assert (Py.len (h :: r) = Py.len selected) as Hl
    by (unfold Py.len; now rewrite Hsl).
  destruct (Z.ltb_spec (Py.len (h :: r)) total_needed) as [Hshort | Hok].
  - match goal with
    | |- context [Itinerary.append_remaining total_needed ?rem (h :: r)] =>
        destruct (append_remaining_extends total_needed rem (h :: r))
          as (extra & -> & Hle)
    end.
    specialize (Hle ltac:(lia)).
    exists h, ((r ++ extra)
               ++ repeat (Itinerary.filler city country)
                    (Z.to_nat (total_needed - Py.len ((h :: r) ++ extra)))).
    split; [reflexivity | split; [exact Hh |]].
    unfold Py.len in *. simpl in *.
    rewrite !length_app, repeat_length in *. simpl in *. lia.
  - exists h, r. split; [reflexivity | split; [exact Hh | lia]].
Qed.

Section BuildDays.
Variables (selected : list Itinerary.candidate) (days_count : Z).
Variables (start_time end_time : string) (st en : Z).
Hypothesis Hlen : Py.len selected = (days_count * 5)%Z.
Hypothesis Hst : Itinerary.strptime start_time = Ok st.
Hypothesis Hen : Itinerary.strptime end_time = Ok en.
Hypothesis Hlt : (Itinerary.snap_down st < Itinerary.snap_up en)%Z.

(** A day of the plan: five places, the next five of [selected], each with
    the number of the day. *)
Lemma build_day_spec (day_index : Z) :
  (0 <= day_index < days_count)%Z ->
  exists d,
    Itinerary.build_day selected 5 start_time end_time day_index = Ok d /\
    Itinerary.day d = (day_index + 1)%Z /\
    List.length (Itinerary.places d) = 5%nat /\
    Forall (fun pl => Itinerary.place_day pl = (day_index + 1)%Z)
           (Itinerary.places d) /\
    map (fun pl => (Itinerary.place_id pl, Itinerary.place_name pl,
                    Itinerary.place_category pl)) (Itinerary.places d)
    = map (fun c => (Itinerary.poi_id c, Itinerary.name c, Itinerary.type c))
          (firstn 5 (skipn (Z.to_nat (day_index * 5)) selected)).
Proof.
  intros Hi. unfold Itinerary.build_day.
  set (day_places := if (day_index <? Py.len selected / 5)%Z
                     then Py.slice (day_index * 5) ((day_index + 1) * 5) selected
                     else Py.take 5 (Py.drop (day_index * 5) selected)).
  assert (day_places = firstn 5 (skipn (Z.to_nat (day_index * 5)) selected))
    as Edp.
  { unfold day_places, Py.slice, Py.drop. rewrite take_firstn by lia.
    replace (Z.to_nat ((day_index + 1) * 5 - day_index * 5)) with 5%nat by lia.
    now destruct (_ <? _)%Z. }
  assert (List.length day_places = 5%nat) as Hdl.
  { rewrite Edp, length_firstn, length_skipn. unfold Py.len in Hlen. lia. }
  destruct (build_time_slots_returns_n start_time end_time
              (Py.len day_places) st en Hst Hen Hlt) as (slots & Es & Hsl).
  { unfold Py.len. lia. }
  rewrite Es. cbn [bind]. eexists. split; [reflexivity |].
  cbn [Itinerary.day Itinerary.places].
  unfold Py.len in Hsl. rewrite Nat2Z.id in Hsl.
  split; [reflexivity | split; [| split]].
  - rewrite length_map, length_combine. lia.
  - apply Forall_forall. intros pl Hpl. apply in_map_iff in Hpl.
    destruct Hpl as ([c [s e]] & <- & _). reflexivity.
  - rewrite <- Edp. clear - Hsl. revert slots Hsl. generalize day_places.
    intros l. induction l as [| c l IH]; intros [| [s e] slots] Hsl;
      simpl in *; try discriminate; [reflexivity |].
    f_equal. apply IH. lia.
Qed.

Lemma build_days_spec (day_indexes : list Z) :
  Forall (fun i => (0 <= i < days_count)%Z) day_indexes ->
  exists ds,
    Itinerary.build_days selected 5 start_time end_time day_indexes = Ok ds /\
    Forall2
      (fun i d =>
         Itinerary.day d = (i + 1)%Z /\
         List.length (Itinerary.places d) = 5%nat /\
         Forall (fun pl => Itinerary.place_day pl = (i + 1)%Z)
                (Itinerary.places d) /\
         map (fun pl => (Itinerary.place_id pl, Itinerary.place_name pl,
                         Itinerary.place_category pl)) (Itinerary.places d)
         = map (fun c => (Itinerary.poi_id c, Itinerary.name c,
                          Itinerary.type c))
               (firstn 5 (skipn (Z.to_nat (i * 5)) selected)))
      day_indexes ds.
Proof.
  induction 1 as [| i r Hi Hr (ds & E & Hds)]; simpl.
  - exists []. split; [reflexivity | constructor].
  - destruct (build_day_spec i Hi) as (d & -> & Hd). rewrite E. cbn [bind].
    exists (d :: ds). split; [reflexivity | now constructor].
Qed.
End BuildDays.

Lemma Forall2_at {A B : Type} (P : A -> B -> Prop) (xs : list A)
  (ys : list B) :
  Forall2 P xs ys ->
  forall k a b, nth_error xs k = Some a -> nth_error ys k = Some b -> P a b.
Proof.
  induction 1 as [| x y xs ys Hxy Hr IH]; intros [| k] a b Ha Hb;
    cbn [nth_error] in *; try discriminate.
  - injection Ha as <-. injection Hb as <-. exact Hxy.
  - eauto.
Qed.

Lemma days_count_for_bounds (n : Z) : (3 <= Itinerary.days_count_for n <= 6)%Z.
Proof.
  unfold Itinerary.days_count_for.
  destruct (25 <=? n)%Z; [lia |].
  destruct (20 <=? n)%Z; [lia |]. destruct (15 <=? n)%Z; lia.
Qed.

Lemma selection_starts_with_hotel (candidates : list Itinerary.candidate)
  (plan_size : Z) (theme : option string) :
  (2 <= plan_size)%Z ->
  exists h rest,
    Itinerary.select_with_hotel candidates plan_size theme = h :: rest /\
    Itinerary.is_hotel h = true /\
    (Py.len (h :: rest) <= plan_size)%Z.
Proof.
  intros Hp.
  assert ((if (plan_size <? 2)%Z then 2%Z else plan_size) = plan_size) as Ep
    by (destruct (Z.ltb_spec plan_size 2); lia).
  destruct (select_with_hotel_cases candidates plan_size theme)
    as (sel & _ & _ &
        [(_ & _ & E) | (h & rest & _ & _ & Hh & kept & E & _ & Hlen & _)]);
    rewrite E; rewrite Ep in *; eexists _, _; (split; [reflexivity |]);
    unfold Py.len; cbn [List.length].
  - split; [reflexivity |].
    pose proof (firstn_le_length (Z.to_nat (plan_size - 1)) sel). lia.
  - split; [exact Hh | lia].
Qed.

(** X12: When the lookup finds places and the day window is well formed and not
    empty, [build_itinerary] returns a plan of 3 to 6 days, the number the
    size of the pool decides; its days are numbered from 1, each has exactly
    five places that carry the number of their day, and the first place of
    the first day is of category ["hotel"]. *)
Theorem build_itinerary_fills_every_day :
  forall (db : DataPreprocessor.database) (w w1 : Itinerary.world)
         (city country lang : string) (plan_size : option Z)
         (start_time end_time : string) (theme : option string)
         (st en : Z) (pois : list DataPreprocessor.poi)
         (pre : DataPreprocessor.preprocessor),
    Itinerary.ensure_initialized db w = (true, w1) ->
    DataPreprocessor.find_pois_for_location
      db (Itinerary.preprocessor w1) city country = (pois, pre) ->
    pois <> [] ->
    Itinerary.strptime start_time = Ok st ->
    Itinerary.strptime end_time = Ok en ->
    (Itinerary.snap_down st < Itinerary.snap_up en)%Z ->
    exists it,
      fst (Itinerary.build_itinerary db w city country lang plan_size
                                     start_time end_time theme) = Ok it /\
      Itinerary.days_count it = Itinerary.days_count_for (Py.len pois) /\
      (3 <= Itinerary.days_count it <= 6)%Z /\
      Py.len (Itinerary.days it) = Itinerary.days_count it /\
      (forall k d,
         nth_error (Itinerary.days it) k = Some d ->
         Itinerary.day d = (Z.of_nat k + 1)%Z /\
         List.length (Itinerary.places d) = 5%nat /\
         Forall (fun pl => Itinerary.place_day pl = (Z.of_nat k + 1)%Z)
                (Itinerary.places d)) /\
      (exists d ds pl pls,
         Itinerary.days it = d :: ds /\ Itinerary.places d = pl :: pls /\
         Itinerary.place_category pl = "hotel"%string).
Proof.
  intros db w w1 city country lang plan_size start_time end_time theme
         st en pois pre Hinit Hfind Hne Hst Hen Hlt.
  unfold Itinerary.build_itinerary. rewrite Hinit. cbn [negb].
  rewrite Hfind.
  destruct pois as [| p0 pois']; [congruence |]. cbn [Py.nonempty negb fst].
  unfold Itinerary.assemble.
  destruct (candidates_of_returns theme (p0 :: pois')) as (cs & -> & Hcs).
  cbn [bind].
  destruct cs as [| c0 cs']; [discriminate Hcs |]. cbn [Py.nonempty negb].
  set (cands := c0 :: cs') in *.
  assert (Py.len cands = Py.len (p0 :: pois')) as Hlen
    by (unfold Py.len; now rewrite Hcs).
  rewrite Hlen.
  set (dc := Itinerary.days_count_for (Py.len (p0 :: pois'))).
  pose proof (days_count_for_bounds (Py.len (p0 :: pois'))) as Hdc.
  fold dc in Hdc.
  destruct (selection_starts_with_hotel cands (dc * 5) theme ltac:(lia))
    as (h0 & r0 & Esel & Hh0 & Hl0).
  destruct (fill_selected_spec cands
              (Itinerary.select_with_hotel cands (dc * 5) theme)
              (dc * 5) city country)
    as (h & r & Efill & Hh & Hl).
  { now rewrite Esel. }
  { exists h0. rewrite Esel. split; [now left | exact Hh0]. }
  rewrite Efill.
  destruct (build_days_spec (h :: r) dc start_time end_time st en
              Hl Hst Hen Hlt (map Z.of_nat (seq 0 (Z.to_nat dc))))
    as (ds & Eds & Hds).
  { apply Forall_forall. intros i Hi. apply in_map_iff in Hi.
    destruct Hi as (k & <- & Hk). apply in_seq in Hk. lia. }
  rewrite Eds. cbn [bind]. eexists. split; [reflexivity |].
  cbn [Itinerary.days_count Itinerary.days].
  assert (List.length ds = Z.to_nat dc) as Hdl
    by (rewrite <- (Forall2_length Hds), length_map, length_seq; reflexivity).
  split; [reflexivity | split; [exact Hdc | split; [| split]]].
  - unfold Py.len. lia.
  - intros k d Hk.
    assert (nth_error (map Z.of_nat (seq 0 (Z.to_nat dc))) k
            = Some (Z.of_nat k)) as Hik.
    { rewrite nth_error_map, nth_error_seq.
      assert (k < Z.to_nat dc)%nat as Hkl
        by (rewrite <- Hdl; apply nth_error_Some; congruence).
      destruct (Nat.ltb_spec k (Z.to_nat dc)); [reflexivity | lia]. }
    destruct (Forall2_at _ _ _ Hds k _ _ Hik Hk) as (H1 & H2 & H3 & _).
    auto.
  - destruct ds as [| d ds']; [simpl in Hdl; lia |].
    assert (exists idxs, map Z.of_nat (seq 0 (Z.to_nat dc)) = 0%Z :: idxs)
      as [idxs Eidx].
    { replace (Z.to_nat dc) with (S (Z.to_nat dc - 1)) by lia.
      eexists. reflexivity. }
    rewrite Eidx in Hds. inversion Hds as [| ? ? ? ? Hd _]; subst.
    destruct Hd as (_ & Hpl & _ & Hids).
    destruct (Itinerary.places d) as [| pl pls] eqn:Epl; [discriminate Hpl |].
    exists d, ds', pl, pls. split; [reflexivity | split; [exact Epl |]].
    change (Z.to_nat (0 * 5)) with 0%nat in Hids. cbn [skipn firstn map] in Hids.
    injection Hids as _ _ Hcat _. rewrite Hcat.
    now apply String.eqb_eq.
Qed.

Lemma build_itinerary_fills_every_day_witness :
  let r i n t :=
    DataPreprocessor.mkRow i (Some n) (Some t) None
                           (Some "Cairo"%string) (Some "Egypt"%string) in
  let db : DataPreprocessor.database :=
    fun _ => Ok [r 1%Z "Egyptian Museum" "museum"; r 2%Z "Nile Hotel" "hotel";
                 r 3%Z "Khan el-Khalili" "market"]%string in
  let w := Itinerary.mkWorld DataPreprocessor.init false in
  exists it,
    fst (Itinerary.build_itinerary db w "Cairo" "Egypt" "en" None
                                   "09:00" "22:00" None) = Ok it /\
    Itinerary.days_count it = 3%Z /\
    Py.len (Itinerary.days it) = 3%Z.
Proof.
  intros r db w.
  destruct (build_itinerary_fills_every_day db w
              (snd (Itinerary.ensure_initialized db w))
              "Cairo" "Egypt" "en" None "09:00" "22:00" None 540 1320
              (fst (DataPreprocessor.find_pois_for_location db
                      (Itinerary.preprocessor
                         (snd (Itinerary.ensure_initialized db w)))
                      "Cairo" "Egypt"))
              (snd (DataPreprocessor.find_pois_for_location db
                      (Itinerary.preprocessor
                         (snd (Itinerary.ensure_initialized db w)))
                      "Cairo" "Egypt")))
    as (it & H1 & H2 & _ & H4 & _).
  - vm_compute. reflexivity.
  - apply surjective_pairing.
  - vm_compute. discriminate.
  - reflexivity.
  - reflexivity.
  - reflexivity.
  - exists it. split; [exact H1 |]. rewrite H4, H2. split; reflexivity.
Defined.

Lemma strptime_raises_value_error (s : string) (e : exn) :
  Itinerary.strptime s = Raise e -> e = ValueError.
Proof.
  unfold Itinerary.strptime.
  destruct (Itinerary.split_colon s) as [[h m] |]; [| congruence].
  destruct (Itinerary.parse_field h 23); [| congruence].
  destruct (Itinerary.parse_field m 59); congruence.
Qed.

(** X13: When the lookup finds places, a start or end time that [strptime] does
    not accept makes [build_itinerary] raise [ValueError]: the time strings
    are first read when the slots of the first day are built, and nothing
    catches the exception. *)
Theorem build_itinerary_malformed_time_raises :
  forall (db : DataPreprocessor.database) (w w1 : Itinerary.world)
         (city country lang : string) (plan_size : option Z)
         (start_time end_time : string) (theme : option string)
         (pois : list DataPreprocessor.poi)
         (pre : DataPreprocessor.preprocessor),
    Itinerary.ensure_initialized db w = (true, w1) ->
    DataPreprocessor.find_pois_for_location
      db (Itinerary.preprocessor w1) city country = (pois, pre) ->
    pois <> [] ->
    (forall dt, Itinerary.strptime start_time <> Ok dt)
    \/ (forall dt, Itinerary.strptime end_time <> Ok dt) ->
    fst (Itinerary.build_itinerary db w city country lang plan_size
                                   start_time end_time theme)
    = Raise ValueError.
Proof.
  intros db w w1 city country lang plan_size start_time end_time theme
         pois pre Hinit Hfind Hne Hbad.
  unfold Itinerary.build_itinerary. rewrite Hinit. cbn [negb].
  rewrite Hfind.
  destruct pois as [| p0 pois']; [congruence |]. cbn [Py.nonempty negb fst].
  unfold Itinerary.assemble.
  destruct (candidates_of_returns theme (p0 :: pois')) as (cs & -> & Hcs).
  cbn [bind].
  destruct cs as [| c0 cs']; [discriminate Hcs |]. cbn [Py.nonempty negb].
  pose proof (days_count_for_bounds (Py.len (c0 :: cs'))) as Hdc.
  set (dc := Itinerary.days_count_for (Py.len (c0 :: cs'))) in *.
  replace (Z.to_nat dc) with (S (Z.to_nat dc - 1)) by lia.
  cbn [seq map Itinerary.build_days].
  unfold Itinerary.build_day.
  assert (forall n, Itinerary.build_time_slots start_time end_time n
                    = Raise ValueError) as Hraise.
  { intros n. unfold Itinerary.build_time_slots.
    destruct (Itinerary.strptime start_time) as [st | e] eqn:Es.
    - destruct Hbad as [Hb | Hb]; [now destruct (Hb st) |].
      cbn [bind].
      destruct (Itinerary.strptime end_time) as [en | e] eqn:Ee;
        [now destruct (Hb en) |].
      cbn [bind]. now rewrite (strptime_raises_value_error _ _ Ee).
    - cbn [bind]. now rewrite (strptime_raises_value_error _ _ Es). }
  rewrite Hraise. reflexivity.
Qed.

Lemma build_itinerary_malformed_time_raises_witness :
  let r i n t :=
    DataPreprocessor.mkRow i (Some n) (Some t) None
                           (Some "Cairo"%string) (Some "Egypt"%string) in
  let db : DataPreprocessor.database :=
    fun _ => Ok [r 1%Z "Egyptian Museum" "museum"]%string in
  let w := Itinerary.mkWorld DataPreprocessor.init false in
  fst (Itinerary.build_itinerary db w "Cairo" "Egypt" "en" None
                                 "9am" "22:00" None) = Raise ValueError.
Proof.
  intros r db w.
  apply (build_itinerary_malformed_time_raises db w
           (snd (Itinerary.ensure_initialized db w))
           "Cairo" "Egypt" "en" None "9am" "22:00" None
           (fst (DataPreprocessor.find_pois_for_location db
                   (Itinerary.preprocessor
                      (snd (Itinerary.ensure_initialized db w)))
                   "Cairo" "Egypt"))
           (snd (DataPreprocessor.find_pois_for_location db
                   (Itinerary.preprocessor
                      (snd (Itinerary.ensure_initialized db w)))
                   "Cairo" "Egypt"))).
  - vm_compute. reflexivity.
  - apply surjective_pairing.
  - vm_compute. discriminate.
  - left. intros dt. vm_compute. discriminate.
Defined.

Lemma build_itinerary_loaded (db : DataPreprocessor.database)
  (w : Itinerary.world) (city country lang : string) (plan_size : option Z)
  (start_time end_time : string) (theme : option string) :
  Itinerary.data_initialized w = true ->
  DataPreprocessor.is_loaded (Itinerary.preprocessor w) = true ->
  Itinerary.build_itinerary db w city country lang plan_size
                            start_time end_time theme
  = (let pois_data :=
       DataPreprocessor.find_loaded (Itinerary.preprocessor w) city country in
     if negb (Py.nonempty pois_data)
     then Ok (Itinerary.mkItinerary 0 ("Trip in " ++ city)
                ("No places found for " ++ city ++ ", " ++ country) [])
     else Itinerary.assemble pois_data city country start_time end_time theme,
     w).
Proof.
  intros Hinit Hloaded. destruct w as [pre flag].
  cbn [Itinerary.preprocessor Itinerary.data_initialized] in *. subst flag.
  unfold Itinerary.build_itinerary, Itinerary.ensure_initialized.
  cbn [Itinerary.data_initialized negb Itinerary.preprocessor].
  unfold DataPreprocessor.find_pois_for_location. rewrite Hloaded.
  cbn [negb Itinerary.data_initialized]. cbv zeta.
  destruct (negb (Py.nonempty _)); reflexivity.
Qed.

(** X14: Once the data is initialized and loaded, [build_itinerary] does not
    read the data base any more and leaves the module state as it is: with
    any other data base the call returns the same. *)
Theorem build_itinerary_reads_data_once :
  forall (db db' : DataPreprocessor.database) (w : Itinerary.world)
         (city country lang : string) (plan_size : option Z)
         (start_time end_time : string) (theme : option string),
    Itinerary.data_initialized w = true ->
    DataPreprocessor.is_loaded (Itinerary.preprocessor w) = true ->
    Itinerary.build_itinerary db w city country lang plan_size
                              start_time end_time theme
    = Itinerary.build_itinerary db' w city country lang plan_size
                                start_time end_time theme
    /\ snd (Itinerary.build_itinerary db w city country lang plan_size
                                      start_time end_time theme) = w.
Proof.
  intros db db' w city country lang plan_size start_time end_time theme
         Hinit Hloaded.
  rewrite (build_itinerary_loaded db), (build_itinerary_loaded db')
    by assumption.
  split; reflexivity.
Qed.

(** X15: The first call that initializes the data leaves a state in which it is
    initialized and loaded, so that the calls after it read no data. *)
Lemma build_itinerary_initializes (db : DataPreprocessor.database)
  (w w1 : Itinerary.world) (city country lang : string)
  (plan_size : option Z) (start_time end_time : string)
  (theme : option string) :
  Itinerary.data_initialized w = false ->
  Itinerary.ensure_initialized db w = (true, w1) ->
  let w' := snd (Itinerary.build_itinerary db w city country lang plan_size
                                           start_time end_time theme) in
  w' = w1 /\ Itinerary.data_initialized w' = true /\
  DataPreprocessor.is_loaded (Itinerary.preprocessor w') = true.
Proof.
  intros Hflag Hinit.
  assert (Itinerary.data_initialized w1 = true
          /\ DataPreprocessor.is_loaded (Itinerary.preprocessor w1) = true)
    as [H1 H2].
  { unfold Itinerary.ensure_initialized in Hinit. rewrite Hflag in Hinit.
    cbn [negb] in Hinit.
    unfold DataPreprocessor.load_all_data in Hinit.
    destruct (db "en"%string) as [rows | e]; [| discriminate Hinit].
    destruct (negb (Py.nonempty rows)); [discriminate Hinit |].
    injection Hinit as <-. split; reflexivity. }
  cbv zeta. unfold Itinerary.build_itinerary. rewrite Hinit. cbn [negb].
  unfold DataPreprocessor.find_pois_for_location. rewrite H2. cbn [negb].
  destruct w1 as [pre flag]. cbn in H1, H2 |- *. subst flag.
  destruct (negb (Py.nonempty _)); cbn; auto.
Qed.

Lemma build_itinerary_reads_data_once_witness :
  let r i n t :=
    DataPreprocessor.mkRow i (Some n) (Some t) None
                           (Some "Cairo"%string) (Some "Egypt"%string) in
  let db : DataPreprocessor.database :=
    fun _ => Ok [r 1%Z "Egyptian Museum" "museum"]%string in
  let gone : DataPreprocessor.database := fun _ => Raise KeyError in
  let w := snd (Itinerary.ensure_initialized
                  db (Itinerary.mkWorld DataPreprocessor.init false)) in
  Itinerary.build_itinerary db w "Cairo" "Egypt" "en" None
                            "09:00" "22:00" None
  = Itinerary.build_itinerary gone w "Cairo" "Egypt" "en" None
                              "09:00" "22:00" None.
Proof.
  intros r db gone w.
  apply (build_itinerary_reads_data_once db gone w); reflexivity.
Defined.

(** ** The lookup tables *)

Lemma pair_eqb_eq (a b : string * string) :
  DataPreprocessor.pair_eqb a b = true <-> a = b.
Proof.
  destruct a as [a1 a2], b as [b1 b2]. unfold DataPreprocessor.pair_eqb.
  cbn [fst snd]. rewrite andb_true_iff, !String.eqb_eq.
  split; [intros [-> ->]; reflexivity | intros H; now injection H].
Qed.

Section TableFacts.
Context {K : Type} (eqb : K -> K -> bool).
Hypothesis eqb_eq : forall a b, eqb a b = true <-> a = b.

Lemma eqb_same_key (k k0 k' : K) :
  eqb k0 k = true -> eqb k0 k' = eqb k k'.
Proof. intros H. apply eqb_eq in H. now subst. Qed.

Lemma eqb_other_key (k k0 k' : K) :
  eqb k0 k = false -> eqb k k' = true -> eqb k0 k' = false.
Proof. intros H E. apply eqb_eq in E. now subst. Qed.

(** Filing a POI under a key adds it at the end of the list of that key
    and leaves the other lists alone. *)
Lemma lookup_append_to (d : DataPreprocessor.lookup_table K) (k k' : K)
  (p : DataPreprocessor.poi) :
  DataPreprocessor.lookup eqb (DataPreprocessor.append_to eqb d k p) k'
  = if eqb k k'
    then DataPreprocessor.lookup eqb d k' ++ [p]
    else DataPreprocessor.lookup eqb d k'.
Proof.
  unfold DataPreprocessor.lookup.
  induction d as [| [k0 l] r IH]; simpl.
  - destruct (eqb k k'); reflexivity.
  - destruct (eqb k0 k) eqn:E0; simpl.
    + rewrite (eqb_same_key k k0 k' E0). destruct (eqb k k'); reflexivity.
    + destruct (eqb k0 k') eqn:E1; [| exact IH].
      destruct (eqb k k') eqn:E2; [| reflexivity].
      rewrite (eqb_other_key k k0 k' E0 E2) in E1. discriminate E1.
Qed.

Lemma has_key_append_to (d : DataPreprocessor.lookup_table K) (k k' : K)
  (p : DataPreprocessor.poi) :
  DataPreprocessor.has_key eqb (DataPreprocessor.append_to eqb d k p) k'
  = DataPreprocessor.has_key eqb d k' || eqb k k'.
Proof.
  unfold DataPreprocessor.has_key.
  induction d as [| [k0 l] r IH]; simpl.
  - now rewrite orb_false_r.
  - destruct (eqb k0 k) eqn:E0; simpl.
    + rewrite (eqb_same_key k k0 k' E0).
      destruct (eqb k k'); simpl; [reflexivity | now rewrite orb_false_r].
    + rewrite IH. now rewrite orb_assoc.
Qed.
End TableFacts.

Lemma filed_refl (self : DataPreprocessor.preprocessor) :
  Spec.filed self self [].
Proof.
  unfold Spec.filed. simpl.
  repeat split; intros; now rewrite ?app_nil_r, ?orb_false_r.
Qed.

Lemma filed_trans (s0 s1 s2 : DataPreprocessor.preprocessor)
  (n1 n2 : list DataPreprocessor.poi) :
  Spec.filed s0 s1 n1 -> Spec.filed s1 s2 n2 -> Spec.filed s0 s2 (n1 ++ n2).
Proof.
  intros (A1 & B1 & C1 & D1 & E1 & F1 & G1) (A2 & B2 & C2 & D2 & E2 & F2 & G2).
  unfold Spec.filed.
  repeat split; intros;
    rewrite ?A2, ?B2, ?C2, ?D2, ?E2, ?F2, ?G2,
            ?A1, ?B1, ?C1, ?D1, ?E1, ?F1, ?G1,
            ?filter_app, ?existsb_app, ?app_assoc, ?orb_assoc; reflexivity.
Qed.

Lemma add_row_filed (self : DataPreprocessor.preprocessor)
  (r : DataPreprocessor.row) :
  exists new, Spec.filed self (DataPreprocessor.add_row self r) new.
Proof.
  unfold DataPreprocessor.add_row.
  destruct (_ || _); [exists []; apply filed_refl |].
  eexists [_]. unfold Spec.filed.
  cbn [DataPreprocessor.all_pois DataPreprocessor.city_lookup
       DataPreprocessor.country_lookup DataPreprocessor.city_country_lookup].
  repeat split; intros k;
    rewrite ?(lookup_append_to String.eqb String.eqb_eq),
            ?(lookup_append_to DataPreprocessor.pair_eqb pair_eqb_eq),
            ?(has_key_append_to String.eqb String.eqb_eq),
            ?(has_key_append_to DataPreprocessor.pair_eqb pair_eqb_eq);
    cbn [filter existsb DataPreprocessor.city_lower
         DataPreprocessor.country_lower];
    try match goal with
        | |- context [if ?b then _ else _] => destruct b
        end;
    now rewrite ?app_nil_r, ?orb_false_r.
Qed.

Lemma fold_add_row_filed (rows : list DataPreprocessor.row) :
  forall self,
  exists new,
    Spec.filed self (fold_left DataPreprocessor.add_row rows self) new.
Proof.
  induction rows as [| r rows IH]; intros self; simpl.
  - exists []. apply filed_refl.
  - destruct (add_row_filed self r) as [n1 H1].
    destruct (IH (DataPreprocessor.add_row self r)) as [n2 H2].
    exists (n1 ++ n2). now apply (filed_trans _ _ _ _ _ H1 H2).
Qed.

Lemma load_all_data_filed (db : DataPreprocessor.database)
  (self self' : DataPreprocessor.preprocessor) (lang : string) :
  DataPreprocessor.load_all_data db self lang = (true, self') ->
  DataPreprocessor.is_loaded self' = true /\
  Spec.filed
    (DataPreprocessor.mkPre []
       (DataPreprocessor.city_country_lookup self)
       (DataPreprocessor.city_lookup self)
       (DataPreprocessor.country_lookup self)
       (DataPreprocessor.available_locations self)
       (DataPreprocessor.is_loaded self))
    self' (DataPreprocessor.all_pois self').
Proof.
  unfold DataPreprocessor.load_all_data.
  destruct (db lang) as [rows | e]; [| discriminate].
  destruct (negb (Py.nonempty rows)); [discriminate |].
  intros H. injection H as <-. split; [reflexivity |].
  match goal with
  | |- context [fold_left DataPreprocessor.add_row rows ?c] =>
      destruct (fold_add_row_filed rows c) as (new & Hf)
  end.
  unfold Spec.filed in *.
  cbn [DataPreprocessor.all_pois DataPreprocessor.city_lookup
       DataPreprocessor.country_lookup DataPreprocessor.city_country_lookup
       app] in *.
  destruct Hf as (A & Rest). rewrite <- A in Rest.
  split; [reflexivity | exact Rest].
Qed.

(** X16: A load that succeeds sets [is_loaded] and files every POI of the new
    catalog in the three lookup tables after what they held: the tables are
    not emptied, so loading again files the catalog a second time. *)
Theorem load_all_data_appends_to_tables :
  forall (db : DataPreprocessor.database)
         (self self' : DataPreprocessor.preprocessor) (lang : string),
    DataPreprocessor.load_all_data db self lang = (true, self') ->
    DataPreprocessor.is_loaded self' = true /\
    (forall k,
       DataPreprocessor.lookup String.eqb
         (DataPreprocessor.city_lookup self') k
       = DataPreprocessor.lookup String.eqb
           (DataPreprocessor.city_lookup self) k
         ++ filter (fun p => String.eqb (DataPreprocessor.city_lower p) k)
                   (DataPreprocessor.all_pois self')) /\
    (forall k,
       DataPreprocessor.lookup String.eqb
         (DataPreprocessor.country_lookup self') k
       = DataPreprocessor.lookup String.eqb
           (DataPreprocessor.country_lookup self) k
         ++ filter (fun p => String.eqb (DataPreprocessor.country_lower p) k)
                   (DataPreprocessor.all_pois self')) /\
    (forall city country,
       DataPreprocessor.lookup DataPreprocessor.pair_eqb
         (DataPreprocessor.city_country_lookup self') (city, country)
       = DataPreprocessor.lookup DataPreprocessor.pair_eqb
           (DataPreprocessor.city_country_lookup self) (city, country)
         ++ filter (fun p =>
                      String.eqb (DataPreprocessor.city_lower p) city
                      && String.eqb (DataPreprocessor.country_lower p) country)
                   (DataPreprocessor.all_pois self')).
Proof.
  intros db self self' lang H.
  destruct (load_all_data_filed db self self' lang H)
    as (Hl & _ & B & C & D & _).
  split; [exact Hl | split; [exact B | split; [exact C |]]].
  intros city country. exact (D (city, country)).
Qed.

Lemma load_all_data_appends_to_tables_witness :
  let r i ci :=
    DataPreprocessor.mkRow i (Some "place"%string) None None
                           (Some ci) (Some "Egypt"%string) in
  let db : DataPreprocessor.database :=
    fun _ => Ok [r 1%Z "Cairo"; r 2%Z "Giza"; r 3%Z "CAIRO "]%string in
  let once := snd (DataPreprocessor.load_all_data db DataPreprocessor.init "en") in
  let twice := snd (DataPreprocessor.load_all_data db once "en") in
  map DataPreprocessor.poi_id
      (DataPreprocessor.lookup String.eqb
         (DataPreprocessor.city_lookup twice) "cairo"%string)
  = [1; 3; 1; 3]%Z.
Proof.
  intros r db once twice.
  destruct (load_all_data_appends_to_tables db once twice "en")
    as (_ & Hcity & _).
  - vm_compute. reflexivity.
  - rewrite Hcity. vm_compute. reflexivity.
Defined.

Lemma existsb_nonempty_filter {A : Type} (f : A -> bool) (l : list A) :
  existsb f l = Py.nonempty (filter f l).
Proof.
  induction l as [| a r IH]; simpl; [reflexivity |].
  destruct (f a); simpl; [reflexivity | exact IH].
Qed.

(** X17: On a catalog loaded into an empty preprocessor the lookup is decided by
    the catalog alone: the POIs whose lower-case city and country both
    equal the cleaned query when there are any; otherwise those of the
    city; otherwise those of the country; otherwise those that pass the
    substring test; each time in the order of the catalog. *)
Theorem find_pois_by_catalog :
  forall (db : DataPreprocessor.database)
         (self : DataPreprocessor.preprocessor)
         (lang city country : string),
    DataPreprocessor.load_all_data db DataPreprocessor.init lang
    = (true, self) ->
    let pois := DataPreprocessor.all_pois self in
    let city_clean := Py.strip (Py.lower city) in
    let country_clean := Py.strip (Py.lower country) in
    let exact :=
      filter (fun p =>
                String.eqb (DataPreprocessor.city_lower p) city_clean
                && String.eqb (DataPreprocessor.country_lower p) country_clean)
             pois in
    let of_city :=
      filter (fun p => String.eqb (DataPreprocessor.city_lower p) city_clean)
             pois in
    let of_country :=
      filter (fun p =>
                String.eqb (DataPreprocessor.country_lower p) country_clean)
             pois in
    let fuzzy :=
      filter (fun p =>
                (Py.contains city_clean (DataPreprocessor.city_lower p)
                 || Py.contains (DataPreprocessor.city_lower p) city_clean)
                || (Py.contains country_clean (DataPreprocessor.country_lower p)
                    || Py.contains (DataPreprocessor.country_lower p)
                                   country_clean))
             pois in
    DataPreprocessor.find_pois_for_location db self city country
    = (if Py.nonempty exact then exact
       else if Py.nonempty of_city then of_city
       else if Py.nonempty of_country then of_country
       else fuzzy,
       self).
Proof.
  intros db self lang city country Hload. cbv zeta.
  destruct (load_all_data_filed db _ self lang Hload)
    as (Hl & _ & B & C & D & E & F & G).
  cbn [DataPreprocessor.city_lookup DataPreprocessor.country_lookup
       DataPreprocessor.city_country_lookup DataPreprocessor.init] in *.
  unfold DataPreprocessor.find_pois_for_location. rewrite Hl. cbn [negb].
  f_equal. unfold DataPreprocessor.find_loaded.
  rewrite G, E, F, D, B, C.
  unfold DataPreprocessor.has_key, DataPreprocessor.lookup.
  cbn [existsb find orb app].
  rewrite !existsb_nonempty_filter. reflexivity.
Qed.

Lemma find_pois_by_catalog_witness :
  let r i ci co :=
    DataPreprocessor.mkRow i (Some "place"%string) None None
                           (Some ci) (Some co) in
  let db : DataPreprocessor.database :=
    fun _ => Ok [r 1%Z "Cairo" "Egypt"; r 2%Z "Giza" "Egypt";
                 r 3%Z "Cairo" "USA"]%string in
  let self := snd (DataPreprocessor.load_all_data db DataPreprocessor.init "en") in
  map DataPreprocessor.poi_id
      (fst (DataPreprocessor.find_pois_for_location db self " cairo" "EGYPT"))
  = [1%Z].
Proof.
  intros r db self.
  rewrite (find_pois_by_catalog db self "en" " cairo" "EGYPT");
    vm_compute; reflexivity.
Defined.

(** ** The counts of the locations *)

Lemma count_up_at (d : list ((string * string) * Z)) (k k' : string * string) :
  Spec.count_at (DataPreprocessor.count_up d k) k'
  = (Spec.count_at d k'
     + if DataPreprocessor.pair_eqb k k' then 1 else 0)%Z.
Proof.
  unfold Spec.count_at. induction d as [| [k0 n] r IH]; simpl.
  - destruct (DataPreprocessor.pair_eqb k k'); reflexivity.
  - destruct (DataPreprocessor.pair_eqb k0 k) eqn:E0; simpl.
    + rewrite (eqb_same_key _ pair_eqb_eq k k0 k' E0).
      destruct (DataPreprocessor.pair_eqb k k'); simpl; lia.
    + destruct (DataPreprocessor.pair_eqb k0 k') eqn:E1; [| exact IH].
      destruct (DataPreprocessor.pair_eqb k k') eqn:E2; [| simpl; lia].
      rewrite (eqb_other_key _ pair_eqb_eq k k0 k' E0 E2) in E1.
      discriminate E1.
Qed.

Lemma count_up_keys (d : list ((string * string) * Z)) (k k' : string * string) :
  In k' (map fst (DataPreprocessor.count_up d k))
  <-> k' = k \/ In k' (map fst d).
Proof.
  induction d as [| [k0 n] r IH]; simpl; [intuition congruence |].
  destruct (DataPreprocessor.pair_eqb k0 k) eqn:E0; simpl.
  - apply pair_eqb_eq in E0. subst. intuition congruence.
  - rewrite IH. intuition congruence.
Qed.

Lemma count_up_keeps (d : list ((string * string) * Z)) (k : string * string) :
  NoDup (map fst d) /\ Forall (fun e => (1 <= snd e)%Z) d ->
  NoDup (map fst (DataPreprocessor.count_up d k))
  /\ Forall (fun e => (1 <= snd e)%Z) (DataPreprocessor.count_up d k).
Proof.
  induction d as [| [k0 n] r IH]; simpl; intros [Hnd Hpos].
  - split; [constructor; [intros [] | constructor] |].
    constructor; [cbn; lia | constructor].
  - inversion Hnd as [| ? ? Hn Hr]; subst.
    inversion Hpos as [| ? ? Hp Hps]; subst. cbn [snd] in Hp.
    destruct (DataPreprocessor.pair_eqb k0 k) eqn:E0; simpl.
    + split; constructor; auto. cbn [snd]. lia.
    + destruct (IH (conj Hr Hps)) as [Hnd' Hpos'].
      split; constructor; auto.
      rewrite count_up_keys. intros [-> | Hin]; [| now apply Hn].
      assert (DataPreprocessor.pair_eqb k k = true) as T
        by now apply pair_eqb_eq.
      congruence.
Qed.

Lemma count_at_of_entry (d : list ((string * string) * Z))
  (k : string * string) (n : Z) :
  NoDup (map fst d) -> In (k, n) d -> Spec.count_at d k = n.
Proof.
  unfold Spec.count_at. induction d as [| [k0 n0] r IH]; simpl;
    intros Hnd Hin; [destruct Hin |].
  inversion Hnd as [| ? ? Hn Hr]; subst.
  destruct Hin as [E | Hin].
  - injection E as -> ->.
    assert (DataPreprocessor.pair_eqb k k = true) as ->
      by now apply pair_eqb_eq.
    reflexivity.
  - destruct (DataPreprocessor.pair_eqb k0 k) eqn:E0; [| now apply IH].
    apply pair_eqb_eq in E0. subst k0. exfalso. apply Hn.
    apply in_map_iff. now exists (k, n).
Qed.

Lemma entry_of_count_at (d : list ((string * string) * Z))
  (k : string * string) :
  (0 < Spec.count_at d k)%Z -> In (k, Spec.count_at d k) d.
Proof.
  unfold Spec.count_at.
  destruct (find _ d) as [[k0 n] |] eqn:F; [| lia].
  intros _. apply find_some in F. destruct F as [Hin E].
  cbn [fst] in E. apply pair_eqb_eq in E. now subst.
Qed.

Lemma location_counts_spec (pois : list DataPreprocessor.poi) :
  forall d,
    NoDup (map fst d) /\ Forall (fun e => (1 <= snd e)%Z) d ->
    let d' :=
      fold_left (fun d p => DataPreprocessor.count_up
                              d (DataPreprocessor.city p,
                                 DataPreprocessor.country p)) pois d in
    (NoDup (map fst d') /\ Forall (fun e => (1 <= snd e)%Z) d') /\
    forall k, Spec.count_at d' k = (Spec.count_at d k + Spec.pois_at pois k)%Z.
Proof.
  induction pois as [| p r IH]; intros d Hd; simpl.
  - split; [exact Hd |]. intros k. unfold Spec.pois_at, Py.len. simpl. lia.
  - destruct (IH _ (count_up_keeps d (DataPreprocessor.city p,
                                        DataPreprocessor.country p) Hd))
      as [Hk Hc].
    split; [exact Hk |]. intros k. rewrite Hc, count_up_at.
    unfold Spec.pois_at, Py.len. cbn [filter].
    destruct (DataPreprocessor.pair_eqb _ k); cbn [List.length]; lia.
Qed.

(** X18: After a load that succeeds, every entry of the location list carries
    the number of POIs of the catalog at that city and country, which is at
    least 1; every POI of the catalog has its location in the list; and no
    location is listed twice. *)
Theorem available_locations_count_the_catalog :
  forall (db : DataPreprocessor.database)
         (self self' : DataPreprocessor.preprocessor) (lang : string),
    DataPreprocessor.load_all_data db self lang = (true, self') ->
    let pois := DataPreprocessor.all_pois self' in
    let locations := DataPreprocessor.available_locations self' in
    (forall city country n,
       In (city, country, n) locations ->
       n = Spec.pois_at pois (city, country) /\ (1 <= n)%Z) /\
    (forall p,
       In p pois ->
       In (DataPreprocessor.city p, DataPreprocessor.country p,
           Spec.pois_at pois (DataPreprocessor.city p,
                              DataPreprocessor.country p)) locations) /\
    NoDup (map fst locations).
Proof.
  intros db self self' lang. unfold DataPreprocessor.load_all_data.
  destruct (db lang) as [rows | e]; [| discriminate].
  destruct (negb (Py.nonempty rows)); [discriminate |].
  intros H. injection H as <-.
  cbn [DataPreprocessor.all_pois DataPreprocessor.available_locations].
  set (pois := DataPreprocessor.all_pois (fold_left _ rows _)).
  destruct (location_counts_spec pois []) as [[Hnd Hpos] Hat].
  { split; constructor. }
  fold (DataPreprocessor.location_counts pois) in Hnd, Hpos, Hat.
  cbv zeta in Hat.
  fold (DataPreprocessor.location_counts pois) in Hat.
  assert (forall city country n,
            In (city, country, n)
               (map (fun e : (string * string) * Z =>
                       (fst (fst e), snd (fst e), snd e))
                    (DataPreprocessor.location_counts pois))
            <-> In ((city, country), n) (DataPreprocessor.location_counts pois))
    as Hmap.
  { intros city country n. rewrite in_map_iff. split.
    - intros ([[c co] m] & E & Hin). cbn in E. now injection E as -> -> ->.
    - intros Hin. now exists ((city, country), n). }
  cbv zeta. split; [| split].
  - intros city country n Hin. apply sorted_in, Hmap in Hin.
    pose proof (count_at_of_entry _ _ _ Hnd Hin) as Hc.
    rewrite Hat in Hc. change (Spec.count_at [] (city, country)) with 0%Z in Hc.
    rewrite Forall_forall in Hpos. specialize (Hpos _ Hin). cbn in Hpos.
    split; lia.
  - intros p Hp. apply sorted_in, Hmap.
    rewrite <- (Z.add_0_l (Spec.pois_at pois _)).
    change 0%Z with (Spec.count_at [] (DataPreprocessor.city p,
                                       DataPreprocessor.country p)) at 1.
    rewrite <- Hat. apply entry_of_count_at. rewrite Hat.
    change (Spec.count_at [] _) with 0%Z.
    unfold Spec.pois_at, Py.len.
    assert (In p (filter (fun q => DataPreprocessor.pair_eqb
                                     (DataPreprocessor.city q,
                                      DataPreprocessor.country q)
                                     (DataPreprocessor.city p,
                                      DataPreprocessor.country p)) pois))
      as Hin by (apply filter_In; split; [exact Hp | now apply pair_eqb_eq]).
    destruct (filter _ pois); [destruct Hin | cbn [List.length]; lia].
  - eapply Permutation_NoDup.
    + apply Permutation_map, sorted_perm.
    + rewrite map_map.
      assert (map (fun x : (string * string) * Z =>
                     fst (fst (fst x), snd (fst x), snd x))
                  (DataPreprocessor.location_counts pois)
              = map fst (DataPreprocessor.location_counts pois)) as ->.
      { apply map_ext. intros [[c co] n]. reflexivity. }
      exact Hnd.
Qed.

Lemma available_locations_count_the_catalog_witness :
  let r i ci co :=
    DataPreprocessor.mkRow i (Some "place"%string) None None
                           (Some ci) (Some co) in
  let db : DataPreprocessor.database :=
    fun _ => Ok [r 1%Z "Cairo" "Egypt"; r 2%Z "Giza" "Egypt";
                 r 3%Z " Cairo" "Egypt"]%string in
  let self := snd (DataPreprocessor.load_all_data db DataPreprocessor.init "en") in
  NoDup (map fst (DataPreprocessor.available_locations self)).
Proof.
  intros r db self.
  apply (available_locations_count_the_catalog db DataPreprocessor.init self "en").
  vm_compute. reflexivity.
Defined.

(** ** Empty queries *)

Lemma filter_all {A : Type} (f : A -> bool) (l : list A) :
  (forall x, f x = true) -> filter f l = l.
Proof.
  intros H. induction l as [| a r IH]; simpl; [reflexivity |].
  now rewrite H, IH.
Qed.

(** X19: When the city or the country of the query is empty once cleaned and
    none of the three tables has the key asked for, the lookup returns the
    whole catalog: the empty string is a substring of every name. *)
Theorem empty_query_finds_every_poi :
  forall (self : DataPreprocessor.preprocessor) (city country : string),
    Py.strip (Py.lower city) = ""%string
    \/ Py.strip (Py.lower country) = ""%string ->
    DataPreprocessor.has_key DataPreprocessor.pair_eqb
      (DataPreprocessor.city_country_lookup self)
      (Py.strip (Py.lower city), Py.strip (Py.lower country)) = false ->
    DataPreprocessor.has_key String.eqb (DataPreprocessor.city_lookup self)
      (Py.strip (Py.lower city)) = false ->
    DataPreprocessor.has_key String.eqb (DataPreprocessor.country_lookup self)
      (Py.strip (Py.lower country)) = false ->
    DataPreprocessor.find_loaded self city country
    = DataPreprocessor.all_pois self.
Proof.
  intros self city country Hempty H1 H2 H3.
  unfold DataPreprocessor.find_loaded. rewrite H1, H2, H3.
  apply filter_all. intros p.
  destruct Hempty as [-> | ->]; rewrite contains_empty;
    now rewrite ?orb_true_r.
Qed.

Lemma empty_query_finds_every_poi_witness :
  let r i ci co :=
    DataPreprocessor.mkRow i (Some "place"%string) None None
                           (Some ci) (Some co) in
  let db : DataPreprocessor.database :=
    fun _ => Ok [r 1%Z "Cairo" "Egypt"; r 2%Z "Paris" "France"]%string in
  let self := snd (DataPreprocessor.load_all_data db DataPreprocessor.init "en") in
  DataPreprocessor.find_loaded self "  " "Atlantis"
  = DataPreprocessor.all_pois self.
Proof.
  intros r db self.
  apply (empty_query_finds_every_poi self "  " "Atlantis");
    [left |..]; vm_compute; reflexivity.
Defined.

(** X20: With an empty partial city, or an empty partial country, nothing is
    filtered: [get_location_suggestions] returns the first 20 locations,
    whatever the other partial text is. *)
Theorem suggestions_with_an_empty_partial :
  forall (self : DataPreprocessor.preprocessor)
         (partial_city partial_country : string),
    partial_city = ""%string \/ partial_country = ""%string ->
    DataPreprocessor.get_location_suggestions self partial_city
                                              partial_country
    = firstn 20 (DataPreprocessor.available_locations self).
Proof.
  intros self pc pco H. unfold DataPreprocessor.get_location_suggestions.
  f_equal. apply filter_all. intros [[city country] n].
  destruct H as [-> | ->]; cbn [Py.lower Py.str_truthy negb orb];
    now rewrite ?orb_true_r.
Qed.

Lemma suggestions_with_an_empty_partial_witness :
  let r i ci co :=
    DataPreprocessor.mkRow i (Some "place"%string) None None
                           (Some ci) (Some co) in
  let db : DataPreprocessor.database :=
    fun _ => Ok [r 1%Z "Cairo" "Egypt"; r 2%Z "Paris" "France"]%string in
  let self := snd (DataPreprocessor.load_all_data db DataPreprocessor.init "en") in
  DataPreprocessor.get_location_suggestions self "" "fra"
  = firstn 20 (DataPreprocessor.available_locations self).
Proof.
  intros r db self.
  apply (suggestions_with_an_empty_partial self "" "fra"). now left.
Defined.

Lemma build_itinerary_initializes_witness :
  let r i n t :=
    DataPreprocessor.mkRow i (Some n) (Some t) None
                           (Some "Cairo"%string) (Some "Egypt"%string) in
  let db : DataPreprocessor.database :=
    fun _ => Ok [r 1%Z "Egyptian Museum" "museum"]%string in
  let w := Itinerary.mkWorld DataPreprocessor.init false in
  let w' := snd (Itinerary.build_itinerary db w "Rome" "Italy" "en" None
                                           "09:00" "22:00" None) in
  Itinerary.data_initialized w' = true /\
  DataPreprocessor.is_loaded (Itinerary.preprocessor w') = true.
Proof.
  intros r db w w'.
  apply (build_itinerary_initializes db w
           (snd (Itinerary.ensure_initialized db w))
           "Rome" "Italy" "en" None "09:00" "22:00" None).
  - reflexivity.
  - vm_compute. reflexivity.
Defined.

(** ** Letter case *)

Lemma lower_char_idempotent (c : ascii) :
  Py.lower_char (Py.lower_char c) = Py.lower_char c.
Proof.
  destruct c as [[] [] [] [] [] [] [] []]; vm_compute; reflexivity.
Qed.

Lemma lower_idempotent (s : string) : Py.lower (Py.lower s) = Py.lower s.
Proof.
  induction s as [| c r IH]; simpl; [reflexivity |].
  now rewrite lower_char_idempotent, IH.
Qed.

Lemma lower_char_space (c : ascii) :
  Py.is_space (Py.lower_char c) = Py.is_space c.
Proof.
  destruct c as [[] [] [] [] [] [] [] []]; vm_compute; reflexivity.
Qed.

Lemma lstrip_lower (s : string) :
  Py.lstrip (Py.lower s) = Py.lower (Py.lstrip s).
Proof.
  induction s as [| c r IH]; simpl; [reflexivity |].
  rewrite lower_char_space. destruct (Py.is_space c); [exact IH | reflexivity].
Qed.

Lemma rstrip_lower (s : string) :
  Py.rstrip (Py.lower s) = Py.lower (Py.rstrip s).
Proof.
  induction s as [| c r IH]; simpl; [reflexivity |].
  rewrite IH, lower_char_space.
  destruct (Py.rstrip r) as [| a b]; simpl;
    [destruct (Py.is_space c) |]; reflexivity.
Qed.

Lemma strip_lower (s : string) :
  Py.strip (Py.lower s) = Py.lower (Py.strip s).
Proof. unfold Py.strip. now rewrite lstrip_lower, rstrip_lower. Qed.

(** X4: [category_match] does not look at the letter case of the type or of
    the interests. *)
Theorem category_match_ignores_case :
  forall (poi_type : string) (user_interests : list string),
    Models.category_match (Some (Py.lower poi_type))
                          (map Py.lower user_interests)
    = Models.category_match (Some poi_type) user_interests.
Proof.
  intros t l. unfold Models.category_match.
  assert (Py.str_truthy (Some (Py.lower t)) = Py.str_truthy (Some t)) as ->
    by (destruct t; reflexivity).
  assert (Py.nonempty (map Py.lower l) = Py.nonempty l) as ->
    by (destruct l; reflexivity).
  cbn [Py.or_empty]. rewrite lower_idempotent, map_map.
  rewrite (map_ext (fun x => Py.lower (Py.lower x)) Py.lower);
    [reflexivity | apply lower_idempotent].
Qed.

(** ** The POIs of the catalog *)

Lemma add_row_well_formed (self : DataPreprocessor.preprocessor)
  (r : DataPreprocessor.row) :
  Forall Spec.well_formed_poi (DataPreprocessor.all_pois self) ->
  Forall Spec.well_formed_poi
         (DataPreprocessor.all_pois (DataPreprocessor.add_row self r)).
Proof.
  intros H. unfold DataPreprocessor.add_row.
  destruct (_ || _); [exact H |].
  cbn [DataPreprocessor.all_pois]. apply Forall_app. split; [exact H |].
  constructor; [| constructor]. unfold Spec.well_formed_poi.
  cbn [DataPreprocessor.name DataPreprocessor.type DataPreprocessor.city
       DataPreprocessor.country DataPreprocessor.city_lower
       DataPreprocessor.country_lower].
  rewrite !strip_lower. repeat split.
  - destruct (DataPreprocessor.row_name r) as [[| c n] |]; simpl; discriminate.
  - destruct (DataPreprocessor.row_type r) as [[| c n] |]; simpl; discriminate.
Qed.

Lemma fold_add_row_well_formed (rows : list DataPreprocessor.row) :
  forall self,
    Forall Spec.well_formed_poi (DataPreprocessor.all_pois self) ->
    Forall Spec.well_formed_poi
           (DataPreprocessor.all_pois
              (fold_left DataPreprocessor.add_row rows self)).
Proof.
  induction rows as [| r rows IH]; intros self H; simpl; [exact H |].
  apply IH. now apply add_row_well_formed.
Qed.

(** X21: Every POI of a catalog that was loaded has a name and a type that are
    not empty ("Unknown" and "other" stand in for missing ones), and its
    lookup keys are the lower case of the city and country it shows. *)
Theorem loaded_pois_are_well_formed :
  forall (db : DataPreprocessor.database)
         (self self' : DataPreprocessor.preprocessor) (lang : string),
    DataPreprocessor.load_all_data db self lang = (true, self') ->
    Forall Spec.well_formed_poi (DataPreprocessor.all_pois self').
Proof.
  intros db self self' lang. unfold DataPreprocessor.load_all_data.
  destruct (db lang) as [rows | e]; [| discriminate].
  destruct (negb (Py.nonempty rows)); [discriminate |].
  intros H. injection H as <-. cbn [DataPreprocessor.all_pois].
  apply fold_add_row_well_formed. constructor.
Qed.

Lemma loaded_pois_are_well_formed_witness :
  let db : DataPreprocessor.database :=
    fun _ => Ok [DataPreprocessor.mkRow 1%Z None None None
                   (Some " Cairo "%string) (Some "EGYPT"%string)] in
  Forall Spec.well_formed_poi
    (DataPreprocessor.all_pois
       (snd (DataPreprocessor.load_all_data db DataPreprocessor.init "en"))).
Proof.
  intros db.
  apply (loaded_pois_are_well_formed db DataPreprocessor.init _ "en").
  vm_compute. reflexivity.
Defined.
